(** * gpoll: polling a Git repository for changes

    A shallow embedding of the Go package [gpoll] and the properties of
    its change-detection engine.

    Source files embedded here:
    - [src/unnamed/part_001]: the per-commit revision of [git.go]
      ([CommitDiff], [Diff], [listCommits], [DiffRemote], [Clone]),
      module [PerCommit];
    - [src/git.go]: the full-range revision ([Commit] with [Changes],
      [DiffRemote], [Clone]), module [FullRange];
    - [src/git_mock.go], lines 31-81: the authentication helpers
      ([toAuthMethod], [sshKeyFromFile], [usernamePassword]), module [Auth];
    - [src/gpoll.go], lines 1-214: the poller ([NewPoller], [Poll],
      [onStart], [setup], [loop], [Start]), module [Gpoll];
    - [src/gpoll.go], lines 113-134, on the [CommitDiff]s of
      [src/unnamed/part_001]: the loop of [Poll] over the diffs of the
      per-commit revision, module [PerCommitPoll];
    - [src/gpoll.go], lines 194-213, with the channel of one place made
      at line 72: the [loop] whose sends can block, module [Blocking];
    - [src/gpoll.go], lines 336-357, with [GitChange] of
      [src/unnamed/part_000]: the [Poll] of the first revision, module
      [Flat].

    What the package calls in the Go standard library, in go-git, in the
    ssh package and in the validator is not code of the package: those
    operations are modelled in [GoPath], [GoFilepath] and [GoGit], or taken
    as fields of the records [Host] and [GoGit.GitLib] and as the argument
    [validate] of [NewPoller]. *)

From Stdlib Require Import String Ascii List Bool Arith ZArith Lia.
From stdpp Require Import base option list.
Import ListNotations.
Set Warnings "-register-all".
Local Open Scope string_scope.
Local Open Scope list_scope.

(** ** Results of Go calls

    A Go call of type [(T, error)] returns its value or an error; a slice
    index out of range or a nil dereference panics. *)

Inductive error : Type :=
| NoErrAlreadyUpToDate        (* git.NoErrAlreadyUpToDate *)
| ErrRepositoryAlreadyExists  (* git.ErrRepositoryAlreadyExists *)
| EOF                         (* io.EOF, the end of an iterator *)
| ErrMalformedChange          (* object.Change.Action on two empty entries *)
| ErrRefNotFound              (* errors.New("commit for ref could not be found") *)
| ErrOther (msg : string).    (* any other error value *)

Inductive outcome (A : Type) : Type :=
| Ok (a : A)
| Err (e : error)
| Panic (msg : string).

Arguments Ok {A} a.
Arguments Err {A} e.
Arguments Panic {A} msg.

Definition bind {A B : Type} (m : outcome A) (k : A -> outcome B) : outcome B :=
  match m with
  | Ok a => k a
  | Err e => Err e
  | Panic msg => Panic msg
  end.

Notation "x <- m ;; k" := (bind m (fun x => k))
  (at level 100, m at next level, right associativity).

(** [if err != nil { return nil, err }] on a call that returns only an error. *)
Definition check (r : option error) : outcome unit :=
  match r with
  | None => Ok tt
  | Some e => Err e
  end.

Definition error_eqb (a b : error) : bool :=
  match a, b with
  | NoErrAlreadyUpToDate, NoErrAlreadyUpToDate => true
  | ErrRepositoryAlreadyExists, ErrRepositoryAlreadyExists => true
  | EOF, EOF => true
  | ErrMalformedChange, ErrMalformedChange => true
  | ErrRefNotFound, ErrRefNotFound => true
  | ErrOther m, ErrOther n => String.eqb m n
  | _, _ => false
  end.

Definition isOk {A : Type} (m : outcome A) : bool :=
  match m with Ok _ => true | _ => false end.

Definition isPanic {A : Type} (m : outcome A) : bool :=
  match m with Panic _ => true | _ => false end.

Definition returned {A : Type} (m : outcome A) : option A :=
  match m with Ok a => Some a | _ => None end.

(** ** The Go standard library: [path] and [path/filepath] on Unix *)

Module GoPath.

(** [strings.Split(s, sep)] for a one-byte separator. *)
Fixpoint splitOn (sep : ascii) (s : string) : list string :=
  match s with
  | EmptyString => [EmptyString]
  | String c s' =>
      if Ascii.eqb c sep then EmptyString :: splitOn sep s'
      else match splitOn sep s' with
           | [] => [String c EmptyString]
           | x :: xs => String c x :: xs
           end
  end.

Fixpoint joinWith (sep : string) (l : list string) : string :=
  match l with
  | [] => ""
  | [x] => x
  | x :: xs => x ++ sep ++ joinWith sep xs
  end.

Definition rooted (p : string) : bool :=
  match p with
  | String c _ => Ascii.eqb c "/"
  | EmptyString => false
  end.

(** One element of the path, against the elements kept so far (the last
    kept element first): the rules of [path.Clean]. *)
Definition cleanStep (isRooted : bool) (kept : list string) (elem : string)
  : list string :=
  if String.eqb elem "" then kept
  else if String.eqb elem "." then kept
  else if String.eqb elem ".." then
    match kept with
    | top :: below =>
        if String.eqb top ".." then ".." :: kept else below
    | [] => if isRooted then [] else [".."]
    end
  else elem :: kept.

(** [path.Clean]: single slashes, no [.] element, inner [..] resolved,
    [..] at the root dropped, the empty path is [.]. *)
Definition Clean (p : string) : string :=
  if String.eqb p "" then "."
  else
    let kept := fold_left (cleanStep (rooted p)) (splitOn "/" p) [] in
    let body := joinWith "/" (rev kept) in
    if rooted p then "/" ++ body
    else if String.eqb body "" then "." else body.

(** [path.Join]: the non-empty elements joined by a slash, cleaned; the
    empty string when every element is empty. *)
Definition Join (elems : list string) : string :=
  let nonEmpty := List.filter (fun e => negb (String.eqb e "")) elems in
  match nonEmpty with
  | [] => ""
  | _ => Clean (joinWith "/" nonEmpty)
  end.

(** [strings.HasPrefix]. *)
Definition HasPrefix (s pre : string) : bool := String.prefix pre s.

(** [s[n:]]. *)
Fixpoint dropBytes (n : nat) (s : string) : string :=
  match n, s with
  | O, _ => s
  | S n', String _ s' => dropBytes n' s'
  | S _, EmptyString => EmptyString
  end.

End GoPath.

Module GoFilepath.

(** [filepath.Match] for patterns made of literal bytes and [*]: a star
    matches any run of bytes other than the separator.  The two patterns
    of [onStart] have no [?], no bracket and no backslash, and for such
    patterns the call never returns [ErrBadPattern]. *)
Fixpoint Match (pattern name : string) : bool :=
  match pattern with
  | EmptyString =>
      match name with EmptyString => true | _ => false end
  | String p rest =>
      if Ascii.eqb p "*" then
        (fix star (n : string) : bool :=
           Match rest n
           || match n with
              | String c n' => negb (Ascii.eqb c "/") && star n'
              | EmptyString => false
              end) name
      else
        match name with
        | String c n' => Ascii.eqb p c && Match rest n'
        | EmptyString => false
        end
  end.

(** What [os.Lstat] and [readDirNames] find at a path. *)
Inductive FsNode : Type :=
| FsFile
| FsDir (entries : list (string * FsNode))  (* names in lexical order *)
| FsUnreadableDir (e : error)               (* a directory that cannot be listed *)
| FsLstatErr (e : error).                   (* an entry whose lstat fails *)

Definition isDir (n : FsNode) : bool :=
  match n with
  | FsDir _ | FsUnreadableDir _ => true
  | _ => false
  end.

(** What a [WalkFunc] returns. *)
Inductive walkErr : Type :=
| SkipDir
| WalkFailed (e : error).

Definition isSkipDir (w : walkErr) : bool :=
  match w with SkipDir => true | _ => false end.

Section Walk.
Context {St : Type}.
(** The callback: path, the error reported for the path, the state the
    closure captures; it returns the new state and its result. *)
Variable fn : string -> option error -> St -> St * option walkErr.

(** [filepath.walk]. *)
Fixpoint walk (path : string) (node : FsNode) (s : St) {struct node}
  : St * option walkErr :=
  match node with
  | FsFile => fn path None s
  | FsLstatErr e => fn path (Some e) s
  | FsUnreadableDir e => fn path (Some e) s
  | FsDir entries =>
      let '(s1, err1) := fn path None s in
      match err1 with
      | Some w => (s1, Some w)
      | None =>
          (fix each (es : list (string * FsNode)) (s : St)
             : St * option walkErr :=
             match es with
             | [] => (s, None)
             | (name, child) :: es' =>
                 let filename := GoPath.Join [path; name] in
                 match child with
                 | FsLstatErr e =>
                     let '(s', r) := fn filename (Some e) s in
                     match r with
                     | Some w =>
                         if isSkipDir w then each es' s' else (s', Some w)
                     | None => each es' s'
                     end
                 | _ =>
                     let '(s', r) := walk filename child s in
                     match r with
                     | Some w =>
                         if negb (isDir child) || negb (isSkipDir w)
                         then (s', Some w)
                         else each es' s'
                     | None => each es' s'
                     end
                 end
             end) entries s1
      end
  end.

(** [filepath.Walk]: the root is reported as it is given; [SkipDir] at
    the top is not an error. *)
Definition Walk (root : string) (node : FsNode) (s : St)
  : St * option error :=
  let '(s', r) := walk root node s in
  match r with
  | Some (WalkFailed e) => (s', Some e)
  | _ => (s', None)
  end.
End Walk.

End GoFilepath.

(** ** Data shared by the revisions

    Where Go gives a field the name of its type ([ChangeType ChangeType],
    [Author Author]) the field is written in lower case here. *)

Inductive ChangeType : Type :=
| ChangeTypeUpdate   (* iota = 0, also the zero value *)
| ChangeTypeCreate
| ChangeTypeDelete
| ChangeTypeInit.

Definition ChangeType_eqb (a b : ChangeType) : bool :=
  match a, b with
  | ChangeTypeUpdate, ChangeTypeUpdate
  | ChangeTypeCreate, ChangeTypeCreate
  | ChangeTypeDelete, ChangeTypeDelete
  | ChangeTypeInit, ChangeTypeInit => true
  | _, _ => false
  end.

Record FileChange : Type := {
  Filepath : string;
  changeType : ChangeType
}.

(** [time.Time]: an instant, counted from the zero [Time]; [UTC()] changes
    the location it is printed in, not the instant. *)
Definition Time : Type := Z.
Definition UTC (t : Time) : Time := t.

Definition remoteName : string := "origin".

(** ** go-git: the object model and the repository handle *)

Module GoGit.

Record Signature : Type := { Name : string; Email : string; When : Time }.

(** A tree object, named by its hash. *)
Definition Tree : Type := string.

(** [object.Commit].  [TreeOf] is what [Tree()] returns; [Parents] are the
    parent commits in order, so that [Parents().Next()] is the first. *)
Inductive Commit : Type :=
  MkCommit {
    Hash : string;
    Author : Signature;
    Message : string;
    TreeOf : outcome Tree;
    Parents : list Commit
  }.

(** [c.Parents().Next()]: the first parent, [io.EOF] when there is none. *)
Definition ParentsNext (c : Commit) : outcome Commit :=
  match Parents c with
  | [] => Err EOF
  | p :: _ => Ok p
  end.

(** [object.ChangeEntry]: the path and the entry it names. *)
Record ChangeEntry : Type := { EntryName : string; EntryHash : string }.

Definition empty : ChangeEntry := {| EntryName := ""; EntryHash := "" |}.

Definition isEmpty (e : ChangeEntry) : bool :=
  String.eqb (EntryName e) "" && String.eqb (EntryHash e) "".

Record Change : Type := { From : ChangeEntry; To : ChangeEntry }.

(** [merkletrie.Action]: [Insert], [Delete], [Modify] are 1, 2, 3. *)
Inductive Action : Type := ActionZero | Insert | Delete | Modify.

(** [object.Change.Action]. *)
Definition ActionOf (c : Change) : outcome Action :=
  if isEmpty (From c) && isEmpty (To c) then Err ErrMalformedChange
  else if isEmpty (From c) then Ok Insert
  else if isEmpty (To c) then Ok Delete
  else Ok Modify.

Inductive AuthMethod : Type :=
| BasicAuth (Username Password : string)
| PublicKeys (User : string) (Signer : string).

Record Reference : Type := { RefName : string; RefHash : string }.

Record PullOptions : Type := {
  SingleBranch : bool;
  PullReferenceName : string;
  PullAuth : AuthMethod
}.

Record CloneOptions : Type := {
  URL : string;
  RemoteName : string;
  ReferenceName : string;
  Auth : AuthMethod
}.

(** Where a repository keeps its objects and its worktree. *)
Inductive Store : Type :=
| OnDisk (directory : string)
| InMemory.

(** The repository handle, as one call of the package sees it: what each
    operation answers when it is called. *)
Record Repository : Type := {
  Storage : Store;
  Fetch : AuthMethod -> option error;
  Head : outcome string;
  Remote : string -> outcome (AuthMethod -> outcome (list Reference));
  CommitObject : string -> outcome Commit;
  Worktree : outcome (PullOptions -> option error)
}.

(** [plumbing.NewBranchReferenceName]. *)
Definition NewBranchReferenceName (branch : string) : string :=
  "refs/heads/" ++ branch.

(** The entry points of the library that create a handle.  [Clone] with a
    store is [git.Clone] ([git.PlainClone] when the store is a directory). *)
Record GitLib : Type := {
  CloneInto : Store -> CloneOptions -> outcome Repository;
  PlainOpen : string -> outcome Repository;
  TreeDiff : Tree -> Tree -> outcome (list Change)
}.

End GoGit.

(** ** What the two revisions of [git.go] share *)

Module GitCommon.

(** The body of the loop over the tree diff, the same in both revisions:
  the change type from the action, the path from the side that exists. *)
Definition gitChange (a : GoGit.Action) (d : GoGit.Change) : FileChange :=
let ct :=
  match a with
  | GoGit.Modify => ChangeTypeUpdate
  | GoGit.Delete => ChangeTypeDelete
  | GoGit.Insert => ChangeTypeCreate
  | GoGit.ActionZero => ChangeTypeUpdate
  end in
{| Filepath := if ChangeType_eqb ct ChangeTypeDelete
               then GoGit.EntryName (GoGit.From d)
               else GoGit.EntryName (GoGit.To d);
   changeType := ct |}.

(** [for _, d := range diffs { a, err := d.Action(); ...; changes = append(changes, gitChange) }] *)
Fixpoint rangeDiffs (diffs : list GoGit.Change) : outcome (list FileChange) :=
match diffs with
| [] => Ok []
| d :: rest =>
    a <- GoGit.ActionOf d ;;
    changes <- rangeDiffs rest ;;
    Ok (gitChange a d :: changes)
end.

(** [FetchLatestRemoteCommit], the same in both revisions. *)
Fixpoint findBranch (repo : GoGit.Repository) (branchRef : string)
(rfs : list GoGit.Reference) : outcome GoGit.Commit :=
match rfs with
| [] => Err ErrRefNotFound
| v :: rest =>
    if String.eqb (GoGit.RefName v) branchRef
    then GoGit.CommitObject repo (GoGit.RefHash v)
    else findBranch repo branchRef rest
end.

Definition FetchLatestRemoteCommit (authMethod : GoGit.AuthMethod)
(repo : GoGit.Repository) (branch : string) : outcome GoGit.Commit :=
rem <- GoGit.Remote repo remoteName ;;
rfs <- rem authMethod ;;
findBranch repo ("refs/heads/" ++ branch) rfs.

(** [HeadCommit], the same in both revisions. *)
Definition HeadCommit (repo : GoGit.Repository) : outcome GoGit.Commit :=
h <- GoGit.Head repo ;;
GoGit.CommitObject repo h.

End GitCommon.

(** ** [src/unnamed/part_001]: one diff per commit *)

Module PerCommit.
Import GitCommon.

Record Author : Type := { Name : string; Email : string }.

Record Commit : Type := {
  Sha : string;
  When : Time;
  author : Author;
  Message : string
}.

Record CommitDiff : Type := {
  Changes : list FileChange;
  From : Commit;
  To : Commit
}.

Definition ToInternal (c : GoGit.Commit) : Commit :=
  {| Sha := GoGit.Hash c;
     When := UTC (GoGit.When (GoGit.Author c));
     author := {| Name := GoGit.Name (GoGit.Author c);
                  Email := GoGit.Email (GoGit.Author c) |};
     Message := GoGit.Message c |}.

Section gitImpl.
Variable lib : GoGit.GitLib.
Variable authMethod : GoGit.AuthMethod.

Definition Diff (from to : GoGit.Commit) : outcome CommitDiff :=
  toTree <- GoGit.TreeOf to ;;
  fromTree <- GoGit.TreeOf from ;;
  diffs <- GoGit.TreeDiff lib fromTree toTree ;;
  changes <- rangeDiffs diffs ;;
  Ok {| Changes := changes; From := ToInternal from; To := ToInternal to |}.

(** The loop of [listCommits]: [parent] is tested, appended, replaced
    by its first parent; an error of [Next] ends the loop. *)
Fixpoint walkBack (fromHash : string) (parent : GoGit.Commit)
  (cs : list GoGit.Commit) {struct parent} : outcome (list GoGit.Commit) :=
  if negb (String.eqb (GoGit.Hash parent) fromHash) then
    match GoGit.Parents parent with
    | [] => Err EOF
    | next :: _ => walkBack fromHash next (cs ++ [parent])
    end
  else Ok cs.

(** [commits[i] = cs[l-(i+1)]] for every [i] below [l]. *)
Definition reverseOrder (dflt : GoGit.Commit) (cs : list GoGit.Commit)
  : list GoGit.Commit :=
  let l := length cs in
  map (fun i => nth (l - (i + 1)) cs dflt) (seq 0 l).

Definition listCommits (from to : GoGit.Commit) : outcome (list GoGit.Commit) :=
  cs <- walkBack (GoGit.Hash from) to [] ;;
  let cs := cs ++ [from] in
  Ok (reverseOrder from cs).

(** [for i := 1; i < len(commits); i++]: [from] is the commit of the
    step before, [tos] is [commits[i:]]. *)
Fixpoint diffEach (from : GoGit.Commit) (tos : list GoGit.Commit)
  : outcome (list CommitDiff) :=
  match tos with
  | [] => Ok []
  | to :: rest =>
      diff <- Diff from to ;;
      diffs <- diffEach to rest ;;
      Ok (diff :: diffs)
  end.

Definition DiffRemote (repo : GoGit.Repository) (branch : string)
  : outcome (list CommitDiff) :=
  _ <- match GoGit.Fetch repo authMethod with
       | Some e => if negb (error_eqb e NoErrAlreadyUpToDate) then Err e else Ok tt
       | None => Ok tt
       end ;;
  h <- GoGit.Head repo ;;
  remCommit <- FetchLatestRemoteCommit authMethod repo branch ;;
  currentCommit <- GoGit.CommitObject repo h ;;
  commits <- listCommits currentCommit remCommit ;;
  diffs <- diffEach currentCommit (tl commits) ;;
  pull <- GoGit.Worktree repo ;;
  _ <- check (pull {| GoGit.SingleBranch := true;
                      GoGit.PullReferenceName := GoGit.NewBranchReferenceName branch;
                      GoGit.PullAuth := authMethod |}) ;;
  Ok diffs.

(** [git.Clone(memory.NewStorage(), memfs.New(), ...)]: the directory is
    used only to open the repository that already exists. *)
Definition Clone (remote branch directory : string) : outcome GoGit.Repository :=
  match GoGit.CloneInto lib GoGit.InMemory
          {| GoGit.URL := remote;
             GoGit.RemoteName := remoteName;
             GoGit.ReferenceName := GoGit.NewBranchReferenceName branch;
             GoGit.Auth := authMethod |} with
  | Err ErrRepositoryAlreadyExists => GoGit.PlainOpen lib directory
  | Err e => Err e
  | Panic msg => Panic msg
  | Ok repo => Ok repo
  end.
End gitImpl.

End PerCommit.

(** ** [src/git.go]: one diff for the whole range *)

Module FullRange.
Import GitCommon.

Record Commit : Type := {
  Changes : list FileChange;
  Sha : string;
  When : Time
}.

Section gitImpl.
Variable lib : GoGit.GitLib.
Variable authMethod : GoGit.AuthMethod.

(** The loop over the parents of the remote commit: it ends at the
    local commit, or with the error of [Next]. *)
Fixpoint reach (currentHash : string) (c : GoGit.Commit) {struct c}
  : outcome unit :=
  match GoGit.Parents c with
  | [] => Err EOF
  | parent :: _ =>
      if negb (String.eqb (GoGit.Hash parent) currentHash)
      then reach currentHash parent
      else Ok tt
  end.

Definition DiffRemote (repo : GoGit.Repository) (branch : string)
  : outcome (list Commit) :=
  _ <- check (GoGit.Fetch repo authMethod) ;;
  h <- GoGit.Head repo ;;
  remCommit <- FetchLatestRemoteCommit authMethod repo branch ;;
  currentCommit <- GoGit.CommitObject repo h ;;
  originTree <- GoGit.TreeOf remCommit ;;
  branchTree <- GoGit.TreeOf currentCommit ;;
  diffs <- GoGit.TreeDiff lib branchTree originTree ;;
  _ <- reach (GoGit.Hash currentCommit) remCommit ;;
  changes <- rangeDiffs diffs ;;
  pull <- GoGit.Worktree repo ;;
  _ <- check (pull {| GoGit.SingleBranch := true;
                      GoGit.PullReferenceName := GoGit.NewBranchReferenceName branch;
                      GoGit.PullAuth := authMethod |}) ;;
  Ok [ {| Changes := changes; Sha := ""; When := 0%Z |} ].

Definition Clone (remote branch directory : string) : outcome GoGit.Repository :=
  match GoGit.CloneInto lib (GoGit.OnDisk directory)
          {| GoGit.URL := remote;
             GoGit.RemoteName := remoteName;
             GoGit.ReferenceName := GoGit.NewBranchReferenceName branch;
             GoGit.Auth := authMethod |} with
  | Err ErrRepositoryAlreadyExists => GoGit.PlainOpen lib directory
  | Err e => Err e
  | Panic msg => Panic msg
  | Ok repo => Ok repo
  end.
End gitImpl.

End FullRange.

(** ** Configuration ([GitConfig] and [GitAuthConfig], the same in both
    revisions of [git.go]) *)

Record GitAuthConfig : Type := {
  SshKey : string;
  Username : string;
  Password : string
}.

Record GitConfig : Type := {
  Auth : GitAuthConfig;
  Remote : string;
  Branch : string;
  CloneDirectory : string
}.

(** What the package asks of the operating system and of the ssh package. *)
Record Host : Type := {
  Getwd : outcome string;                        (* os.Getwd *)
  UserHomeDir : string;                          (* os.UserHomeDir, its error dropped *)
  ReadFile : string -> outcome string;           (* ioutil.ReadFile *)
  ParsePrivateKey : string -> outcome string;    (* ssh.ParsePrivateKey *)
  Lstat : string -> GoFilepath.FsNode            (* what a walk finds at a root *)
}.

(** ** [src/git_mock.go], lines 31-81: authentication *)

Module Auth.

Definition usernamePassword (username password : string)
  : outcome GoGit.AuthMethod :=
  Ok (GoGit.BasicAuth username password).

Definition sshKey (host : Host) (key : string) : outcome GoGit.AuthMethod :=
  signer <- ParsePrivateKey host key ;;
  Ok (GoGit.PublicKeys "git" signer).

Definition sshKeyFromFile (host : Host) (fp : string) : outcome GoGit.AuthMethod :=
  let fp := if GoPath.HasPrefix fp "~/"
            then GoPath.Join [UserHomeDir host; GoPath.dropBytes 2 fp]
            else fp in
  key <- ReadFile host fp ;;
  sshKey host key.

Definition toAuthMethod (host : Host) (config : GitAuthConfig)
  : outcome GoGit.AuthMethod :=
  if negb (String.eqb (SshKey config) "")
  then sshKeyFromFile host (SshKey config)
  else usernamePassword (Username config) (Password config).

End Auth.

(** ** [src/gpoll.go], lines 1-214: the poller *)

Module Gpoll.
Import FullRange.

Definition HandleCommitFunc : Type := Commit -> unit.
Definition FileChangeFilterFunc : Type := FileChange -> bool.

Record PollConfig : Type := {
  Git : GitConfig;
  FileChangeFilter : option FileChangeFilterFunc;    (* nil when absent *)
  HandleCommit : option HandleCommitFunc;            (* nil when absent *)
  Interval : Z                                       (* nanoseconds *)
}.

(** The interface [GitService]; a nil [*git.Repository] is [None]. *)
Record GitService : Type := {
  Clone : string -> string -> string -> outcome GoGit.Repository;
  DiffRemote : option GoGit.Repository -> string -> outcome (list Commit);
  FetchLatestRemoteCommit :
    option GoGit.Repository -> string -> outcome GoGit.Commit;
  HeadCommit : option GoGit.Repository -> outcome GoGit.Commit
}.

(** A method of [gitImpl] begins by calling the repository. *)
Definition deref {A : Type} (repo : option GoGit.Repository)
  (k : GoGit.Repository -> outcome A) : outcome A :=
  match repo with
  | Some r => k r
  | None => Panic "invalid memory address or nil pointer dereference"
  end.

Definition gitImpl (lib : GoGit.GitLib) (authMethod : GoGit.AuthMethod)
  : GitService :=
  {| Clone := FullRange.Clone lib authMethod;
     DiffRemote := fun repo branch =>
       deref repo (fun r => FullRange.DiffRemote lib authMethod r branch);
     FetchLatestRemoteCommit := fun repo branch =>
       deref repo (fun r => GitCommon.FetchLatestRemoteCommit authMethod r branch);
     HeadCommit := fun repo => deref repo GitCommon.HeadCommit |}.

Definition newGit (host : Host) (lib : GoGit.GitLib) (config : GitConfig)
  : outcome GitService :=
  auth <- Auth.toAuthMethod host (Auth config) ;;
  Ok (gitImpl lib auth).

(** The channels [c] and [closer] are the [Send] effects and the [Closer]
    events below. *)
Record poller : Type := {
  config : PollConfig;
  git : GitService;
  repo : option GoGit.Repository
}.

Definition second : Z := 1000000000.

Definition withInterval (c : PollConfig) (d : Z) : PollConfig :=
  {| Git := Git c; FileChangeFilter := FileChangeFilter c;
     HandleCommit := HandleCommit c; Interval := d |}.

Definition withCloneDirectory (c : PollConfig) (wd : string) : PollConfig :=
  {| Git := {| Auth := Auth (Git c); Remote := Remote (Git c);
               Branch := Branch (Git c); CloneDirectory := wd |};
     FileChangeFilter := FileChangeFilter c;
     HandleCommit := HandleCommit c; Interval := Interval c |}.

(** [validate] is [validator.New().Struct]. *)
Definition NewPoller (host : Host) (lib : GoGit.GitLib)
  (validate : PollConfig -> option error) (config : PollConfig)
  : outcome poller :=
  let config := if Z.eqb (Interval config) 0
                then withInterval config (30 * second)%Z else config in
  config <- (if String.eqb (CloneDirectory (Git config)) ""
             then wd <- Getwd host ;; Ok (withCloneDirectory config wd)
             else Ok config) ;;
  _ <- check (validate config) ;;
  g <- newGit host lib (Git config) ;;
  Ok {| config := config; git := g; repo := None |}.

(** *** [Poll]

    [change] is a copy of an element of [changes]: its field [Changes]
    is a slice on the array of that element until the loop body assigns
    it a slice of its own. *)
Inductive slice : Type :=
| Shared                            (* the array of the element of [changes] *)
| Fresh (arr : list FileChange).    (* an array only [change] refers to *)

(** [s[i].Filepath = fp], with the bounds check of the index. *)
Definition storeFilepath (i : nat) (fp : string) (arr : list FileChange)
  : outcome (list FileChange) :=
  match arr !! i with
  | Some c => Ok (<[i := {| Filepath := fp; changeType := changeType c |}]> arr)
  | None => Panic "index out of range"
  end.

(** One pass of [for i, c := range change.Changes]: the range is over the
    array of the element, [c] is its [i]-th entry. *)
Definition rangeStep (cfg : PollConfig) (i : nat)
  (st : list FileChange * slice) : outcome (list FileChange * slice) :=
  let '(backing, cur) := st in
  match backing !! i with
  | None => Panic "index out of range"
  | Some c =>
      let cur :=
        match FileChangeFilter cfg with
        | Some flt =>
            let filteredChanges := [] in
            let filteredChanges :=
              if flt c then filteredChanges ++ [c] else filteredChanges in
            Fresh filteredChanges
        | None => cur
        end in
      let fp := GoPath.Join [CloneDirectory (Git cfg); Filepath c] in
      match cur with
      | Shared =>
          backing' <- storeFilepath i fp backing ;; Ok (backing', Shared)
      | Fresh arr =>
          arr' <- storeFilepath i fp arr ;; Ok (backing, Fresh arr')
      end
  end.

Fixpoint rangeChanges (cfg : PollConfig) (indices : list nat)
  (st : list FileChange * slice) : outcome (list FileChange * slice) :=
  match indices with
  | [] => Ok st
  | i :: rest => st' <- rangeStep cfg i st ;; rangeChanges cfg rest st'
  end.

(** One pass of [for _, change := range changes]: the element keeps its
    slice, whose array the pass may have written. *)
Definition rangeChange (cfg : PollConfig) (change : Commit) : outcome Commit :=
  st <- rangeChanges cfg (seq 0 (length (Changes change)))
          (Changes change, Shared) ;;
  Ok {| Changes := fst st; Sha := Sha change; When := When change |}.

Fixpoint rangeCommits (cfg : PollConfig) (changes : list Commit)
  : outcome (list Commit) :=
  match changes with
  | [] => Ok []
  | change :: rest =>
      change' <- rangeChange cfg change ;;
      rest' <- rangeCommits cfg rest ;;
      Ok (change' :: rest')
  end.

Definition Poll (p : poller) : outcome (list Commit) :=
  changes <- DiffRemote (git p) (repo p) (Branch (Git (config p))) ;;
  if Nat.ltb 0 (length changes) then rangeCommits (config p) changes
  else Ok changes.

(** *** Setup and the loop *)

Inductive effect : Type :=
| CallHandleCommit (c : Commit)   (* p.config.HandleCommit(c) *)
| Send (c : Commit)               (* p.c <- c *)
| NewTicker (d : Z)               (* time.NewTicker(d) *)
| TickerStop.                     (* ticker.Stop() *)

(** The function given to [filepath.Walk]; [changes] is the slice the
    closure appends to. *)
Definition walkFn (gitDir : string) (fp : string) (err : option error)
  (changes : list FileChange)
  : list FileChange * option GoFilepath.walkErr :=
  match err with
  | Some _ => (changes, Some GoFilepath.SkipDir)
  | None =>
      let isInGitDir := GoFilepath.Match (GoPath.Join [gitDir; "*"]) fp in
      let isGitDir := GoFilepath.Match gitDir fp in
      if isInGitDir || isGitDir then (changes, Some GoFilepath.SkipDir)
      else (changes ++ [ {| Filepath := fp; changeType := ChangeTypeInit |} ],
            None)
  end.

Definition onStart (host : Host) (p : poller) : outcome (list effect) :=
  match HandleCommit (config p) with
  | None => Ok []
  | Some _ =>
      commit <- HeadCommit (git p) (repo p) ;;
      let gitDir := GoPath.Join ["*"; ".git"] in
      let dir := CloneDirectory (Git (config p)) in
      let '(changes, err) :=
        GoFilepath.Walk (walkFn gitDir) dir (Lstat host dir) [] in
      _ <- check err ;;
      Ok [ CallHandleCommit
             {| Changes := changes;
                Sha := GoGit.Hash commit;
                When := UTC (GoGit.When (GoGit.Author commit)) |} ]
  end.

(** [setup]: the effects made, and what it returns.  [time.NewTicker]
    panics when the interval is not positive, after [onStart] has run. *)
Definition setup (host : Host) (p : poller) : list effect * outcome poller :=
  match Clone (git p) (Remote (Git (config p))) (Branch (Git (config p)))
          (CloneDirectory (Git (config p))) with
  | Ok repo =>
      let p := {| config := config p; git := git p; repo := Some repo |} in
      match onStart host p with
      | Ok effs =>
          if Z.leb (Interval (config p)) 0
          then (effs, Panic "non-positive interval for NewTicker")
          else (effs ++ [NewTicker (Interval (config p))], Ok p)
      | Err e => ([], Err e)
      | Panic msg => ([], Panic msg)
      end
  | Err e => ([], Err e)
  | Panic msg => ([], Panic msg)
  end.

(** Which case of the [select] is taken; a tick comes with the state of
    the repository at that time. *)
Inductive event : Type :=
| TickerC (now : GoGit.Repository)
| Closer.

Inductive status : Type :=
| Waiting               (* in the [select], no case ready *)
| Returned
| Crashed (msg : string).

(** [for _, c := range changes { handler; p.c <- c }] in the runs where
    every send completes: a receiver takes each commit from [p.c] in
    time.  The runs in which a send finds the channel full are those of
    [Blocking] below. *)
Fixpoint deliver (cfg : PollConfig) (changes : list Commit) : list effect :=
  match changes with
  | [] => []
  | c :: rest =>
      (match HandleCommit cfg with
       | Some _ => [CallHandleCommit c]
       | None => []
       end) ++ Send c :: deliver cfg rest
  end.

Fixpoint loop (p : poller) (events : list event) : list effect * status :=
  match events with
  | [] => ([], Waiting)
  | TickerC now :: rest =>
      match Poll {| config := config p; git := git p; repo := Some now |} with
      | Err _ => loop p rest
      | Panic msg => ([], Crashed msg)
      | Ok changes =>
          let '(effs, st) := loop p rest in
          (deliver (config p) changes ++ effs, st)
      end
  | Closer :: _ => ([TickerStop], Returned)
  end.

(** [Start]: what it returns ([Ok tt] is nil, after the loop returns) is
    paired with the effects made and the state the loop is left in. *)
Definition Start (host : Host) (p : poller) (events : list event)
  : outcome unit * list effect * option status :=
  match setup host p with
  | (effs, Ok p') =>
      let '(effs', st) := loop p' events in
      (Ok tt, effs ++ effs', Some st)
  | (effs, Err e) => (Err e, effs, None)
  | (effs, Panic msg) => (Panic msg, effs, None)
  end.

(** The struct tags that the validator reads ([validate:"required"] on
    [Git], [Auth] and [Remote]): a string is required to be non-empty, a
    struct field is descended into.  The tags of [GitAuthConfig] are
    written under the key [validation], which the validator does not
    read. *)
Definition requiredTags (c : PollConfig) : option error :=
  if String.eqb (Remote (Git c)) ""
  then Some (ErrOther "Key: 'PollConfig.Git.Remote' Error:Field validation for 'Remote' failed on the 'required' tag")
  else None.

End Gpoll.

(** ** [loop] of [src/gpoll.go], lines 194-213, with the channel as
    [NewPoller] makes it: [make(chan Commit, 1)]

    [room] is the number of sends on [p.c] that can still complete in the
    run: one for the free place of the channel, one more for each commit
    that a receiver takes.  A send that finds no room blocks, and the loop
    goes no further: no later tick is polled and the stop signal is not
    taken. *)

Module Blocking.
Import FullRange.

Inductive status : Type :=
| Waiting               (* in the [select], no case ready *)
| Returned
| Crashed (msg : string)
| Blocked (c : Commit). (* in [p.c <- c] *)


(** [for _, c := range changes { handler; p.c <- c }]: the effects, the
    commit whose send blocks if one does, and the room left. *)
Fixpoint deliver (cfg : Gpoll.PollConfig) (changes : list Commit) (room : nat)
  : list Gpoll.effect * option Commit * nat :=
  match changes with
  | [] => ([], None, room)
  | c :: rest =>
      let called :=
        match Gpoll.HandleCommit cfg with
        | Some _ => [Gpoll.CallHandleCommit c]
        | None => []
        end in
      match room with
      | 0 => (called, Some c, 0)
      | S room' =>
          let '(effs, blocked, remaining) := deliver cfg rest room' in
          (called ++ Gpoll.Send c :: effs, blocked, remaining)
      end
  end.

Fixpoint loop (p : Gpoll.poller) (events : list Gpoll.event) (room : nat)
  : list Gpoll.effect * status :=
  match events with
  | [] => ([], Waiting)
  | Gpoll.TickerC now :: rest =>
      match Gpoll.Poll {| Gpoll.config := Gpoll.config p;
                          Gpoll.git := Gpoll.git p;
                          Gpoll.repo := Some now |} with
      | Err _ => loop p rest room
      | Panic msg => ([], Crashed msg)
      | Ok changes =>
          match deliver (Gpoll.config p) changes room with
          | (effs, Some c, _) => (effs, Blocked c)
          | (effs, None, remaining) =>
              let '(effs', st) := loop p rest remaining in (effs ++ effs', st)
          end
      end
  | Gpoll.Closer :: _ => ([Gpoll.TickerStop], Returned)
  end.

End Blocking.

(** ** [src/gpoll.go], lines 336-357: [Poll] of the first revision

    [DiffRemote] returns a flat list of [GitChange]
    ([src/unnamed/part_000]), one per file, and the filter is over those. *)

Module Flat.

Record GitChange : Type := {
  Filepath : string;
  Sha : string;
  changeType : ChangeType
}.

(** [for i, c := range changes { changes[i].Filepath = path.Join(dir, c.Filepath) }]:
    the slice indexed is the slice ranged over. *)
Definition rewrite (dir : string) (c : GitChange) : GitChange :=
  {| Filepath := GoPath.Join [dir; Filepath c];
     Sha := Sha c;
     changeType := changeType c |}.

Definition Poll (diff : outcome (list GitChange))
  (Filter : option (GitChange -> bool)) (CloneDirectory : string)
  : outcome (list GitChange) :=
  changes <- diff ;;
  if Nat.ltb 0 (length changes) then
    let changes :=
      match Filter with
      | Some flt => List.filter flt changes
      | None => changes
      end in
    Ok (map (rewrite CloneDirectory) changes)
  else Ok changes.

End Flat.

(** ** A small repository to run the definitions on

    History [A <- B <- C] on [master]: [B] adds [f1], [C] modifies [f2];
    [D], a child of [C], deletes [f1]. *)

Module Scenario.
Import GoGit.

Definition ann : Signature :=
  {| Name := "ann"; Email := "ann@example.org"; When := 1000%Z |}.

Definition cA : Commit :=
  {| Hash := "A"; Author := ann; Message := "first";
     TreeOf := Ok "tA"; Parents := [] |}.
Definition cB : Commit :=
  {| Hash := "B"; Author := ann; Message := "add f1";
     TreeOf := Ok "tB"; Parents := [cA] |}.
Definition cC : Commit :=
  {| Hash := "C"; Author := ann; Message := "edit f2";
     TreeOf := Ok "tC"; Parents := [cB] |}.
Definition cD : Commit :=
  {| Hash := "D"; Author := ann; Message := "drop f1";
     TreeOf := Ok "tD"; Parents := [cC] |}.

Definition entry (name hash : string) : ChangeEntry :=
  {| EntryName := name; EntryHash := hash |}.

Definition insertF1 : Change := {| From := empty; To := entry "f1" "h1" |}.
Definition modifyF2 : Change :=
  {| From := entry "f2" "h2"; To := entry "f2" "h3" |}.
Definition deleteF1 : Change := {| From := entry "f1" "h1"; To := empty |}.

Definition treeDiff (a b : Tree) : outcome (list Change) :=
  if String.eqb a b then Ok []
  else if String.eqb a "tA" && String.eqb b "tB" then Ok [insertF1]
  else if String.eqb a "tB" && String.eqb b "tC" then Ok [modifyF2]
  else if String.eqb a "tA" && String.eqb b "tC" then Ok [insertF1; modifyF2]
  else if String.eqb a "tC" && String.eqb b "tD" then Ok [deleteF1]
  else Err (ErrOther "no such tree").

Definition objects (h : string) : outcome Commit :=
  if String.eqb h "A" then Ok cA
  else if String.eqb h "B" then Ok cB
  else if String.eqb h "C" then Ok cC
  else if String.eqb h "D" then Ok cD
  else Err (ErrOther "object not found").

(** A clone whose head is [local] while [master] on the remote is at
    [remote]; [fetch] and [pull] are what the two calls answer. *)
Definition repoAt (store : Store) (local remote : string)
  (fetch pull : option error) : Repository :=
  {| Storage := store;
     Fetch := fun _ => fetch;
     Head := Ok local;
     Remote := fun name =>
       if String.eqb name "origin"
       then Ok (fun _ => Ok [ {| RefName := "refs/heads/dev"; RefHash := "B" |};
                              {| RefName := "refs/heads/master"; RefHash := remote |} ])
       else Err (ErrOther "remote not found");
     CommitObject := objects;
     Worktree := Ok (fun _ => pull) |}.

(** The remote is two commits ahead; fetch and pull bring them. *)
Definition behind : Repository :=
  repoAt (OnDisk "/srv/repo") "A" "C" None None.

(** Nothing new on the remote: fetch and pull both answer
    [NoErrAlreadyUpToDate]. *)
Definition upToDate : Repository :=
  repoAt (OnDisk "/srv/repo") "C" "C"
    (Some NoErrAlreadyUpToDate) (Some NoErrAlreadyUpToDate).

Definition lib : GitLib :=
  {| CloneInto := fun store _ => Ok (repoAt store "C" "C" None None);
     PlainOpen := fun dir => Ok (repoAt (OnDisk dir) "C" "C" None None);
     TreeDiff := treeDiff |}.

(** A library that finds a repository already in the directory. *)
Definition libExisting : GitLib :=
  {| CloneInto := fun store _ =>
       match store with
       | OnDisk _ => Err ErrRepositoryAlreadyExists
       | InMemory => Ok (repoAt InMemory "C" "C" None None)
       end;
     PlainOpen := fun dir => Ok (repoAt (OnDisk dir) "C" "C" None None);
     TreeDiff := treeDiff |}.

Definition basic : AuthMethod := BasicAuth "ann" "secret".

Definition worktreeFiles : GoFilepath.FsNode :=
  GoFilepath.FsDir
    [ (".git", GoFilepath.FsDir [ ("HEAD", GoFilepath.FsFile);
                                  ("config", GoFilepath.FsFile) ]);
      ("README.md", GoFilepath.FsFile);
      ("src", GoFilepath.FsDir [ ("main.go", GoFilepath.FsFile) ]) ].

Definition host : Host :=
  {| Getwd := Ok "/home/ann/work";
     UserHomeDir := "/home/ann";
     ReadFile := fun fp =>
       if String.eqb fp "/home/ann/.ssh/id_rsa" then Ok "PRIVATE KEY"
       else Err (ErrOther "no such file or directory");
     ParsePrivateKey := fun key =>
       if String.eqb key "PRIVATE KEY" then Ok "signer"
       else Err (ErrOther "ssh: no key found");
     Lstat := fun _ => worktreeFiles |}.

Definition gitConfig (auth : GitAuthConfig) (dir : string) : GitConfig :=
  Build_GitConfig auth "git@example.org:ann/repo.git" "master" dir.

Definition passwordAuth : GitAuthConfig :=
  {| SshKey := ""; Username := "ann"; Password := "secret" |}.
Definition bothAuth : GitAuthConfig :=
  {| SshKey := "~/.ssh/id_rsa"; Username := "ann"; Password := "secret" |}.
Definition noAuth : GitAuthConfig :=
  {| SshKey := ""; Username := ""; Password := "" |}.

Definition pollConfig (auth : GitAuthConfig) (dir : string)
  (flt : option Gpoll.FileChangeFilterFunc)
  (handler : option Gpoll.HandleCommitFunc) : Gpoll.PollConfig :=
  {| Gpoll.Git := gitConfig auth dir;
     Gpoll.FileChangeFilter := flt;
     Gpoll.HandleCommit := handler;
     Gpoll.Interval := 0 |}.

Definition handler : Gpoll.HandleCommitFunc := fun _ => tt.

(** A git service that answers a fixed result, as the mock of the tests
    does. *)
Definition fixedGit (diff : outcome (list FullRange.Commit)) : Gpoll.GitService :=
  {| Gpoll.Clone := fun _ _ dir => Ok (repoAt (OnDisk dir) "C" "C" None None);
     Gpoll.DiffRemote := fun _ _ => diff;
     Gpoll.FetchLatestRemoteCommit := fun _ _ => Ok cC;
     Gpoll.HeadCommit := fun _ => Ok cC |}.

Definition pollerOf (cfg : Gpoll.PollConfig) (g : Gpoll.GitService) : Gpoll.poller :=
  {| Gpoll.config := cfg; Gpoll.git := g; Gpoll.repo := Some upToDate |}.

Definition change (fp : string) (ct : ChangeType) : FileChange :=
  {| Filepath := fp; changeType := ct |}.

Definition commitOf (sha : string) (cs : list FileChange) : FullRange.Commit :=
  {| FullRange.Changes := cs; FullRange.Sha := sha; FullRange.When := 7%Z |}.

(** A diff of two commits, the first of one change. *)
Definition oneChangeDiff : list FullRange.Commit :=
  [commitOf "B" [change "main.go" ChangeTypeUpdate]; commitOf "C" []].

Definition onlyGo : Gpoll.FileChangeFilterFunc :=
  fun c => String.eqb (Filepath c) "main.go".
Definition acceptAll : Gpoll.FileChangeFilterFunc := fun _ => true.
Definition rejectAll : Gpoll.FileChangeFilterFunc := fun _ => false.

(** A poller that filters with [onlyGo], on a git service that answers
    [oneChangeDiff]. *)
Definition filteringPoller : Gpoll.poller :=
  pollerOf (pollConfig passwordAuth "/srv/repo" (Some onlyGo) None)
    (fixedGit (Ok oneChangeDiff)).

(** A poller with a handler on the git service of [src/git.go]. *)
Definition handlingPoller : Gpoll.poller :=
  pollerOf (pollConfig passwordAuth "/srv/repo" None (Some handler))
    (Gpoll.gitImpl lib basic).

(** A configuration with both forms of authentication and no directory. *)
Definition bothConfig : Gpoll.PollConfig := pollConfig bothAuth "" None None.

End Scenario.

(** ** Notions of the specification *)

Module Spec.
Import GoGit.

(** First-parent ancestry: the commit, its first parent, and so on back
    to a commit without parents. *)
Fixpoint firstParents (c : Commit) {struct c} : list Commit :=
  c :: match Parents c with
       | [] => []
       | p :: _ => firstParents p
       end.

(** The remote head [to] is ahead of the local head [from] by the commits
    [cs], oldest first: the ancestry of [to] runs through [cs], newest
    first, and then meets a commit with the hash of [from]. *)
Definition aheadBy (from to : Commit) (cs : list Commit) : Prop :=
  exists base rest,
    firstParents to = rev cs ++ base :: rest
    /\ Hash base = Hash from
    /\ Forall (fun c => Hash c <> Hash from) cs.

(** The steps of a walked list: each commit with the next one. *)
Fixpoint adjacent {A : Type} (l : list A) : list (A * A) :=
  match l with
  | a :: (b :: _) as rest => (a, b) :: adjacent rest
  | _ => []
  end.

(** What the diff engine is to answer for one entry of a tree diff. *)
Definition classified (d : Change) (fc : FileChange) : Prop :=
  (isEmpty (From d) = false -> isEmpty (To d) = false ->
   changeType fc = ChangeTypeUpdate)
  /\ (isEmpty (From d) = true -> isEmpty (To d) = false ->
      changeType fc = ChangeTypeCreate)
  /\ (isEmpty (From d) = false -> isEmpty (To d) = true ->
      changeType fc = ChangeTypeDelete)
  /\ (changeType fc = ChangeTypeDelete -> Filepath fc = EntryName (From d))
  /\ (changeType fc <> ChangeTypeDelete -> Filepath fc = EntryName (To d)).

(** The predicate a poll filters with: the configured one, or none. *)
Definition accepts (cfg : Gpoll.PollConfig) (c : FileChange) : bool :=
  match Gpoll.FileChangeFilter cfg with
  | Some flt => flt c
  | None => true
  end.

(** A change of the result stands for a change of the diff: the same
    type, the path as it was or under the clone directory. *)
Definition sameChange (cfg : Gpoll.PollConfig) (x y : FileChange) : Prop :=
  changeType y = changeType x
  /\ (Filepath y = Filepath x
      \/ Filepath y = GoPath.Join [CloneDirectory (Gpoll.Git cfg); Filepath x]).

(** The path rewrite of [Poll]: the path under the clone directory. *)
Definition rewritten (cfg : Gpoll.PollConfig) (c : FileChange) : FileChange :=
  {| Filepath := GoPath.Join [CloneDirectory (Gpoll.Git cfg); Filepath c];
     changeType := changeType c |}.

(** With a filter configured, the commits on which the loop of [Poll]
    indexes past the end of a slice: a commit of two changes or more, or
    of one change that the filter rejects. *)
Definition overruns (flt : FileChange -> bool) (c : FullRange.Commit) : Prop :=
  match FullRange.Changes c with
  | [] => False
  | [x] => flt x = false
  | _ :: _ :: _ => True
  end.

(** The options of a clone of [remote] at [branch]. *)
Definition cloneOptions (auth : AuthMethod) (remote branch : string)
  : CloneOptions :=
  {| URL := remote;
     RemoteName := "origin";
     ReferenceName := "refs/heads/" ++ branch;
     GoGit.Auth := auth |}.

Definition isHandlerCall (e : Gpoll.effect) : bool :=
  match e with Gpoll.CallHandleCommit _ => true | _ => false end.

Definition isSend (e : Gpoll.effect) : bool :=
  match e with Gpoll.Send _ => true | _ => false end.

End Spec.

(** ** [src/unnamed/part_000] and [src/gpoll.go], lines 363-382: the git
    service and the setup of the first revision *)

Module FirstRevision.

(** The loop over the tree diff of [part_000]: the change of [gitChange]
    with the hash of the remote commit. *)
Fixpoint rangeDiffs (remHash : string) (diffs : list GoGit.Change)
  : outcome (list Flat.GitChange) :=
  match diffs with
  | [] => Ok []
  | d :: rest =>
      a <- GoGit.ActionOf d ;;
      changes <- rangeDiffs remHash rest ;;
      let c := GitCommon.gitChange a d in
      Ok ({| Flat.Filepath := Filepath c;
             Flat.Sha := remHash;
             Flat.changeType := changeType c |} :: changes)
  end.

Definition DiffRemote (lib : GoGit.GitLib) (authMethod : GoGit.AuthMethod)
  (repo : GoGit.Repository) (branch : string) : outcome (list Flat.GitChange) :=
  _ <- check (GoGit.Fetch repo authMethod) ;;
  h <- GoGit.Head repo ;;
  remCommit <- GitCommon.FetchLatestRemoteCommit authMethod repo branch ;;
  currentCommit <- GoGit.CommitObject repo h ;;
  originTree <- GoGit.TreeOf remCommit ;;
  branchTree <- GoGit.TreeOf currentCommit ;;
  diffs <- GoGit.TreeDiff lib branchTree originTree ;;
  changes <- rangeDiffs (GoGit.Hash remCommit) diffs ;;
  pull <- GoGit.Worktree repo ;;
  _ <- check (pull {| GoGit.SingleBranch := true;
                      GoGit.PullReferenceName := GoGit.NewBranchReferenceName branch;
                      GoGit.PullAuth := authMethod |}) ;;
  Ok changes.

(** The function given to [filepath.Walk] by [onStart]; [calls] are the
    calls of [HandleChange] so far. *)
Definition walkFn (hash : string) (path : string) (err : option error)
  (calls : list Flat.GitChange) : list Flat.GitChange * option GoFilepath.walkErr :=
  match err with
  | Some _ => (calls, Some GoFilepath.SkipDir)
  | None =>
      (calls ++ [ {| Flat.Filepath := path; Flat.Sha := hash;
                     Flat.changeType := ChangeTypeCreate |} ], None)
  end.

(** [onStart]: the calls of [HandleChange], in order.  [HeadHash] is what
    [p.git.HeadHash(p.repo)] answers. *)
Definition onStart (host : Host) (HandleChange : option (Flat.GitChange -> unit))
  (HeadHash : outcome string) (CloneDirectory : string)
  : outcome (list Flat.GitChange) :=
  match HandleChange with
  | Some _ =>
      hash <- HeadHash ;;
      let '(calls, err) :=
        GoFilepath.Walk (walkFn hash) CloneDirectory
          (Lstat host CloneDirectory) [] in
      _ <- check err ;;
      Ok calls
  | None => Ok []
  end.

End FirstRevision.

(** ** [Poll] of [src/gpoll.go], lines 113-134, on the bundles of
    [src/unnamed/part_001]

    The loop of [Poll] reads and writes the field [Changes] of a bundle,
    and no other field; here it runs on the [CommitDiff]s that [DiffRemote]
    of [part_001] returns.  [diff] is what [p.git.DiffRemote] answers. *)

Module PerCommitPoll.

Definition rangeChange (cfg : Gpoll.PollConfig) (change : PerCommit.CommitDiff)
  : outcome PerCommit.CommitDiff :=
  st <- Gpoll.rangeChanges cfg (seq 0 (length (PerCommit.Changes change)))
          (PerCommit.Changes change, Gpoll.Shared) ;;
  Ok {| PerCommit.Changes := fst st;
        PerCommit.From := PerCommit.From change;
        PerCommit.To := PerCommit.To change |}.

Fixpoint rangeCommits (cfg : Gpoll.PollConfig)
  (changes : list PerCommit.CommitDiff) : outcome (list PerCommit.CommitDiff) :=
  match changes with
  | [] => Ok []
  | change :: rest =>
      change' <- rangeChange cfg change ;;
      rest' <- rangeCommits cfg rest ;;
      Ok (change' :: rest')
  end.

Definition Poll (cfg : Gpoll.PollConfig)
  (diff : outcome (list PerCommit.CommitDiff))
  : outcome (list PerCommit.CommitDiff) :=
  changes <- diff ;;
  if Nat.ltb 0 (length changes) then rangeCommits cfg changes
  else Ok changes.

End PerCommitPoll.

(** ** Runs with a ticker *)

Module Runs.

Definition every30s (cfg : Gpoll.PollConfig) : Gpoll.PollConfig :=
  Gpoll.withInterval cfg (30 * Gpoll.second)%Z.

(** A poller with a handler and an interval of thirty seconds, on the git
    service of [src/git.go]. *)
Definition tickingPoller : Gpoll.poller :=
  Scenario.pollerOf
    (every30s (Scenario.pollConfig Scenario.passwordAuth "/srv/repo" None
                 (Some Scenario.handler)))
    (Gpoll.gitImpl Scenario.lib Scenario.basic).

(** A poller without handler whose clone directory holds a repository. *)
Definition reopeningPoller : Gpoll.poller :=
  Scenario.pollerOf
    (every30s (Scenario.pollConfig Scenario.passwordAuth "/srv/repo" None None))
    (Gpoll.gitImpl Scenario.libExisting Scenario.basic).

(** A configuration with an interval below zero. *)
Definition negativeConfig : Gpoll.PollConfig :=
  Gpoll.withInterval
    (Scenario.pollConfig Scenario.passwordAuth "/srv/repo" None
       (Some Scenario.handler)) (-1)%Z.

(** A filter that keeps the Go files, and a diff of one commit with two Go
    files around a text file. *)
Definition goFiles : Gpoll.FileChangeFilterFunc :=
  fun c => String.eqb (Filepath c) "main.go" || String.eqb (Filepath c) "lib.go".

Definition threeChanges : list FullRange.Commit :=
  [ Scenario.commitOf "B"
      [ Scenario.change "main.go" ChangeTypeUpdate;
        Scenario.change "notes.txt" ChangeTypeCreate;
        Scenario.change "lib.go" ChangeTypeDelete ] ].

Definition goPoller : Gpoll.poller :=
  Scenario.pollerOf
    (Scenario.pollConfig Scenario.passwordAuth "/srv/repo" (Some goFiles) None)
    (Scenario.fixedGit (Ok threeChanges)).

(** A poller with a handler and no filter whose polls return two
    commits. *)
Definition twoCommitPoller : Gpoll.poller :=
  Scenario.pollerOf
    (Scenario.pollConfig Scenario.passwordAuth "/srv/repo" None
       (Some Scenario.handler))
    (Scenario.fixedGit (Ok Scenario.oneChangeDiff)).

(** A configuration without filter, on the clone directory [/srv/repo]. *)
Definition plainConfig : Gpoll.PollConfig :=
  Scenario.pollConfig Scenario.passwordAuth "/srv/repo" None None.

End Runs.

(** ** Further notions, for the code beside the claims *)

Module Notions.






(** The diffs follow one another from [start]: each begins at the commit
    where the one before ends. *)
Fixpoint chained (start : PerCommit.Commit) (ds : list PerCommit.CommitDiff)
  : Prop :=
  match ds with
  | [] => True
  | d :: rest => PerCommit.From d = start /\ chained (PerCommit.To d) rest
  end.

(** The commit at which the last diff ends, [start] when there is none. *)
Definition lastTo (start : PerCommit.Commit) (ds : list PerCommit.CommitDiff)
  : PerCommit.Commit :=
  List.last (map PerCommit.To ds) start.

(** An entry of a tree diff with nothing on either side. *)
Definition malformed (d : GoGit.Change) : bool :=
  GoGit.isEmpty (GoGit.From d) && GoGit.isEmpty (GoGit.To d).

(** A path element: no separator in it. *)
Fixpoint noSlash (s : string) : bool :=
  match s with
  | EmptyString => true
  | String c s' => negb (Ascii.eqb c "/") && noSlash s'
  end.


(** The commits sent on the channel, in the order of the effects. *)
Fixpoint sent (effs : list Gpoll.effect) : list FullRange.Commit :=
  match effs with
  | [] => []
  | Gpoll.Send c :: rest => c :: sent rest
  | _ :: rest => sent rest
  end.

End Notions.

(** * Properties *)

(** ** The result monad *)

Lemma bind_Ok {A B : Type} (m : outcome A) (k : A -> outcome B) (b : B) :
  bind m k = Ok b -> exists a, m = Ok a /\ k a = Ok b.
Proof.
  destruct m as [a | e | msg]; simpl; intros H; try discriminate.
  exists a. split; [reflexivity | exact H].
Qed.

Lemma isOk_true {A : Type} (m : outcome A) :
  isOk m = true -> exists a, m = Ok a.
Proof. destruct m; simpl; intros H; try discriminate. eauto. Qed.

Ltac inv_bind H :=
  let a := fresh "a" in
  let Ha := fresh "Ha" in
  apply bind_Ok in H; destruct H as [a [Ha H]].

(** ** The ancestry walk ([src/unnamed/part_001]) *)

Section AncestryWalk.
Variable lib : GoGit.GitLib.

Lemma firstParents_head (c : GoGit.Commit) :
  exists rest, Spec.firstParents c = c :: rest.
Proof. destruct c; simpl; eauto. Qed.

Lemma firstParents_step (c : GoGit.Commit) (l : list GoGit.Commit) :
  Spec.firstParents c = c :: l -> l <> [] ->
  exists p ps, GoGit.Parents c = p :: ps /\ Spec.firstParents p = l.
Proof.
  destruct c as [h a m t ps]; simpl. intros H Hl.
  injection H as H. destruct ps as [| p ps'].
  - congruence.
  - exists p, ps'. split; [reflexivity | exact H].
Qed.

(** The loop of [listCommits] collects the commits that are ahead, the
    newest first, and stops at the local hash. *)
Lemma walkBack_collects (h : string) (l : list GoGit.Commit) :
  forall (to base : GoGit.Commit) (rest acc : list GoGit.Commit),
    Spec.firstParents to = l ++ base :: rest ->
    GoGit.Hash base = h ->
    Forall (fun c => GoGit.Hash c <> h) l ->
    PerCommit.walkBack h to acc = Ok (acc ++ l).
Proof.
  induction l as [| c l IH]; intros to base rest acc Hfp Hbase Hne.
  - simpl in Hfp. destruct (firstParents_head to) as [r Hr].
    rewrite Hr in Hfp. injection Hfp as Hto _. subst base.
    destruct to as [ht a m t ps]; simpl in *.
    subst h. rewrite String.eqb_refl. simpl. now rewrite app_nil_r.
  - destruct (firstParents_head to) as [r Hr].
    rewrite Hr in Hfp. simpl in Hfp. injection Hfp as Hto Hrest. subst c.
    destruct (firstParents_step to r Hr) as [p [ps [Hps Hp]]].
    { rewrite Hrest. now destruct l. }
    inversion Hne as [| ? ? Hc Hl]; subst.
    destruct to as [ht a m t ps0]; simpl in *. subst ps0.
    apply String.eqb_neq in Hc. rewrite Hc. simpl.
    rewrite (IH p base rest (acc ++ [ _ ])); try assumption.
    + now rewrite <- app_assoc.
    + congruence.
Qed.

(** The index loop that fills [commits] reverses [cs]. *)
Lemma reverseOrder_rev (dflt : GoGit.Commit) (cs : list GoGit.Commit) :
  PerCommit.reverseOrder dflt cs = rev cs.
Proof.
  unfold PerCommit.reverseOrder.
  apply (nth_ext _ _ dflt dflt).
  - now rewrite length_map, length_seq, length_rev.
  - intros n Hn. rewrite length_map, length_seq in Hn.
    rewrite (nth_indep _ dflt (nth (length cs - (0 + 1)) cs dflt)).
    2:{ now rewrite length_map, length_seq. }
    rewrite (map_nth (fun i => nth (length cs - (i + 1)) cs dflt)).
    rewrite seq_nth by assumption. simpl.
    rewrite rev_nth by assumption.
    f_equal. lia.
Qed.

Lemma listCommits_ahead (from to : GoGit.Commit) (cs : list GoGit.Commit) :
  Spec.aheadBy from to cs ->
  PerCommit.listCommits from to = Ok (from :: cs).
Proof.
  intros [base [rest [Hfp [Hbase Hne]]]].
  unfold PerCommit.listCommits.
  rewrite (walkBack_collects (GoGit.Hash from) (rev cs) to base rest []
             Hfp Hbase).
  - simpl. rewrite reverseOrder_rev, rev_app_distr, rev_involutive.
    reflexivity.
  - apply List.Forall_forall. intros c Hc. apply in_rev in Hc.
    rewrite List.Forall_forall in Hne. now apply Hne.
Qed.

Lemma Diff_metadata (from to : GoGit.Commit) (d : PerCommit.CommitDiff) :
  PerCommit.Diff lib from to = Ok d ->
  PerCommit.From d = PerCommit.ToInternal from
  /\ PerCommit.To d = PerCommit.ToInternal to.
Proof.
  unfold PerCommit.Diff. intros H.
  inv_bind H. inv_bind H. inv_bind H. inv_bind H.
  injection H as <-. simpl. split; reflexivity.
Qed.


(** The loop of [DiffRemote] makes one diff per step of the walked list. *)
Lemma diffEach_steps (cs : list GoGit.Commit) :
  forall from : GoGit.Commit,
    Forall (fun ab => isOk (PerCommit.Diff lib (fst ab) (snd ab)) = true)
           (Spec.adjacent (from :: cs)) ->
    exists diffs,
      PerCommit.diffEach lib from cs = Ok diffs
      /\ Forall2 (fun ab d =>
                    PerCommit.Diff lib (fst ab) (snd ab) = Ok d
                    /\ PerCommit.From d = PerCommit.ToInternal (fst ab)
                    /\ PerCommit.To d = PerCommit.ToInternal (snd ab))
                 (Spec.adjacent (from :: cs)) diffs.
Proof.
  induction cs as [| c cs IH]; intros from Hok.
  - exists []. split; [reflexivity | constructor].
  - change (Spec.adjacent (from :: c :: cs))
      with ((from, c) :: Spec.adjacent (c :: cs)) in *.
    inversion Hok as [| ? ? Hd Hrest]; subst. simpl in Hd.
    destruct (isOk_true _ Hd) as [d Hdiff].
    destruct (IH c Hrest) as [diffs [Heach Hall]].
    exists (d :: diffs). split.
    + simpl. rewrite Hdiff. simpl. rewrite Heach. reflexivity.
    + constructor; [| exact Hall]. simpl.
      split; [exact Hdiff | exact (Diff_metadata _ _ _ Hdiff)].
Qed.
End AncestryWalk.

(** The scenario of the specification: [A <- B <- C], [f1] added in [B],
    [f2] modified in [C]. *)
Example DiffRemote_scenario :
  option_map (map (fun d => (PerCommit.Sha (PerCommit.From d),
                             PerCommit.Sha (PerCommit.To d),
                             PerCommit.Changes d)))
    (returned (PerCommit.DiffRemote Scenario.lib Scenario.basic
                 Scenario.behind "master"))
  = Some [ ("A", "B", [Scenario.change "f1" ChangeTypeCreate]);
           ("B", "C", [Scenario.change "f2" ChangeTypeUpdate]) ].
Proof. reflexivity. Qed.

(** When the local head is the remote head and the pull answers nil, the
    result is empty. *)
Lemma DiffRemote_same_head_pull_nil
  (lib : GoGit.GitLib) (auth : GoGit.AuthMethod) (repo : GoGit.Repository)
  (branch h : string) (from to : GoGit.Commit)
  (pull : GoGit.PullOptions -> option error) :
  (GoGit.Fetch repo auth = None
   \/ GoGit.Fetch repo auth = Some NoErrAlreadyUpToDate) ->
  GoGit.Head repo = Ok h ->
  GitCommon.FetchLatestRemoteCommit auth repo branch = Ok to ->
  GoGit.CommitObject repo h = Ok from ->
  GoGit.Hash to = GoGit.Hash from ->
  GoGit.Worktree repo = Ok pull ->
  pull {| GoGit.SingleBranch := true;
          GoGit.PullReferenceName := GoGit.NewBranchReferenceName branch;
          GoGit.PullAuth := auth |} = None ->
  PerCommit.DiffRemote lib auth repo branch = Ok [].
Proof.
  intros Hfetch Hhead Hrem Hcur Hsame Hwt Hpull.
  assert (Hahead : Spec.aheadBy from to []).
  { destruct (firstParents_head to) as [rest Hrest].
    exists to, rest. split; [exact Hrest | split; [exact Hsame | constructor]]. }
  unfold PerCommit.DiffRemote.
  assert (Hf : match GoGit.Fetch repo auth with
               | Some e => if negb (error_eqb e NoErrAlreadyUpToDate)
                           then Err e else Ok tt
               | None => Ok tt
               end = Ok tt).
  { destruct Hfetch as [-> | ->]; reflexivity. }
  rewrite Hf. simpl. rewrite Hhead. simpl. rewrite Hrem. simpl.
  rewrite Hcur. simpl. rewrite (listCommits_ahead from to [] Hahead).
  simpl. rewrite Hwt. simpl. rewrite Hpull. reflexivity.
Qed.

(** X27. Whatever error the pull answers, [NoErrAlreadyUpToDate] too, is what
    [DiffRemote] returns once the diffs are made. *)
Lemma DiffRemote_pull_error
  (lib : GoGit.GitLib) (auth : GoGit.AuthMethod) (repo : GoGit.Repository)
  (branch h : string) (from to : GoGit.Commit) (cs : list GoGit.Commit)
  (pull : GoGit.PullOptions -> option error) (e : error) :
  (GoGit.Fetch repo auth = None
   \/ GoGit.Fetch repo auth = Some NoErrAlreadyUpToDate) ->
  GoGit.Head repo = Ok h ->
  GitCommon.FetchLatestRemoteCommit auth repo branch = Ok to ->
  GoGit.CommitObject repo h = Ok from ->
  Spec.aheadBy from to cs ->
  Forall (fun ab => isOk (PerCommit.Diff lib (fst ab) (snd ab)) = true)
         (Spec.adjacent (from :: cs)) ->
  GoGit.Worktree repo = Ok pull ->
  pull {| GoGit.SingleBranch := true;
          GoGit.PullReferenceName := GoGit.NewBranchReferenceName branch;
          GoGit.PullAuth := auth |} = Some e ->
  PerCommit.DiffRemote lib auth repo branch = Err e.
Proof.
  intros Hfetch Hhead Hrem Hcur Hahead Hdiffs Hwt Hpull.
  destruct (diffEach_steps lib cs from Hdiffs) as [diffs [Heach _]].
  unfold PerCommit.DiffRemote.
  assert (Hf : match GoGit.Fetch repo auth with
               | Some e => if negb (error_eqb e NoErrAlreadyUpToDate)
                           then Err e else Ok tt
               | None => Ok tt
               end = Ok tt).
  { destruct Hfetch as [-> | ->]; reflexivity. }
  rewrite Hf. simpl. rewrite Hhead. simpl. rewrite Hrem. simpl.
  rewrite Hcur. simpl. rewrite (listCommits_ahead from to cs Hahead).
  simpl. rewrite Heach. simpl. rewrite Hwt. simpl. rewrite Hpull.
  reflexivity.
Qed.

(** C2. With the local head at the remote head [C], the fetch and the pull
    of go-git both answer [NoErrAlreadyUpToDate]: [DiffRemote] lets the one
    of the fetch pass and returns the one of the pull as its error, and so
    does [Poll], instead of an empty result. *)
Theorem DiffRemote_up_to_date_is_an_error :
  GoGit.Head Scenario.upToDate = Ok "C"
  /\ GitCommon.FetchLatestRemoteCommit Scenario.basic Scenario.upToDate "master"
     = Ok Scenario.cC
  /\ PerCommit.DiffRemote Scenario.lib Scenario.basic Scenario.upToDate "master"
     = Err NoErrAlreadyUpToDate
  /\ Gpoll.Poll
       (Scenario.pollerOf
          (Scenario.pollConfig Scenario.passwordAuth "/srv/repo" None None)
          (Gpoll.gitImpl Scenario.lib Scenario.basic))
     = Err NoErrAlreadyUpToDate.
Proof. repeat split; reflexivity. Qed.

(** ** The diff engine *)

Lemma rangeDiffs_sound (ds : list GoGit.Change) :
  forall changes : list FileChange,
    GitCommon.rangeDiffs ds = Ok changes -> Forall2 Spec.classified ds changes.
Proof.
  induction ds as [| d ds IH]; intros changes H.
  - injection H as <-. constructor.
  - simpl in H. apply bind_Ok in H. destruct H as [a [Ha H]].
    apply bind_Ok in H. destruct H as [rest [Hrest H]].
    injection H as <-. constructor; [| exact (IH rest Hrest)].
    unfold GoGit.ActionOf in Ha.
    unfold Spec.classified, GitCommon.gitChange.
    destruct (GoGit.isEmpty (GoGit.From d)) eqn:Hfrom;
      destruct (GoGit.isEmpty (GoGit.To d)) eqn:Hto;
      simpl in Ha; try discriminate; injection Ha as <-; simpl;
      repeat split; intros; congruence.
Qed.

Lemma rangeDiffs_classified (ds : list GoGit.Change) :
  Forall (fun d => GoGit.isEmpty (GoGit.From d) && GoGit.isEmpty (GoGit.To d)
                   = false) ds ->
  exists changes,
    GitCommon.rangeDiffs ds = Ok changes
    /\ Forall2 Spec.classified ds changes.
Proof.
  induction ds as [| d ds IH]; intros Hwf.
  - exists []. split; [reflexivity | constructor].
  - inversion Hwf as [| ? ? Hd Hds]; subst.
    destruct (IH Hds) as [changes [Hchanges Hall]].
    simpl. unfold GoGit.ActionOf. rewrite Hd.
    destruct (GoGit.isEmpty (GoGit.From d)) eqn:Hfrom;
      destruct (GoGit.isEmpty (GoGit.To d)) eqn:Hto;
      try discriminate; simpl; rewrite Hchanges; simpl;
      eexists; (split; [reflexivity |]);
      (constructor; [| exact Hall]);
      unfold Spec.classified, GitCommon.gitChange; simpl;
      rewrite ?Hfrom, ?Hto;
      repeat split; intros; congruence.
Qed.

(** C3. For two commits whose trees are read and diffed without error,
    [Diff] answers one [FileChange] per entry of the tree diff, in its
    order: an entry on both sides is an Update, an entry only in [to] a
    Create, an entry only in [from] a Delete; a Delete takes its path from
    the [from] side and every other change from the [to] side. *)
Theorem Diff_classifies_entries
  (lib : GoGit.GitLib) (from to : GoGit.Commit)
  (fromTree toTree : GoGit.Tree) (ds : list GoGit.Change) :
  GoGit.TreeOf from = Ok fromTree ->
  GoGit.TreeOf to = Ok toTree ->
  GoGit.TreeDiff lib fromTree toTree = Ok ds ->
  Forall (fun d => GoGit.isEmpty (GoGit.From d) && GoGit.isEmpty (GoGit.To d)
                   = false) ds ->
  exists cd,
    PerCommit.Diff lib from to = Ok cd
    /\ Forall2 Spec.classified ds (PerCommit.Changes cd).
Proof.
  intros Hfrom Hto Hdiff Hwf.
  destruct (rangeDiffs_classified ds Hwf) as [changes [Hchanges Hall]].
  exists {| PerCommit.Changes := changes;
            PerCommit.From := PerCommit.ToInternal from;
            PerCommit.To := PerCommit.ToInternal to |}.
  split; [| exact Hall].
  unfold PerCommit.Diff. rewrite Hto. simpl. rewrite Hfrom. simpl.
  rewrite Hdiff. simpl. rewrite Hchanges. reflexivity.
Qed.

Lemma Diff_classifies_entries_witness :
  exists cd,
    PerCommit.Diff Scenario.lib Scenario.cC Scenario.cD = Ok cd
    /\ Forall2 Spec.classified [Scenario.deleteF1] (PerCommit.Changes cd).
Proof.
  apply (Diff_classifies_entries Scenario.lib Scenario.cC Scenario.cD
           "tC" "tD" [Scenario.deleteF1]).
  - reflexivity.
  - reflexivity.
  - reflexivity.
  - repeat constructor.
Defined.

(** The scenario of the specification: the commit that deletes [f1] gives a
    Delete with the path of the tree before the deletion. *)
Example Diff_delete_scenario :
  option_map PerCommit.Changes
    (returned (PerCommit.Diff Scenario.lib Scenario.cC Scenario.cD))
  = Some [ {| Filepath := "f1"; changeType := ChangeTypeDelete |} ].
Proof. reflexivity. Qed.

(** The full-range revision classifies the entries of its one diff in the
    same way. *)
Lemma FullRange_DiffRemote_classifies
  (lib : GoGit.GitLib) (auth : GoGit.AuthMethod) (repo : GoGit.Repository)
  (branch : string) (result : list FullRange.Commit) :
  FullRange.DiffRemote lib auth repo branch = Ok result ->
  exists ds changes,
    result = [ {| FullRange.Changes := changes; FullRange.Sha := "";
                  FullRange.When := 0%Z |} ]
    /\ GitCommon.rangeDiffs ds = Ok changes
    /\ Forall2 Spec.classified ds changes.
Proof.
  unfold FullRange.DiffRemote. intros H.
  inv_bind H. inv_bind H. inv_bind H. inv_bind H. inv_bind H. inv_bind H.
  inv_bind H. inv_bind H. inv_bind H. inv_bind H. inv_bind H.
  injection H as <-.
  match goal with
  | Hr : GitCommon.rangeDiffs ?ds = Ok ?changes |- _ =>
      exists ds, changes; split; [reflexivity | split; [exact Hr |]];
      exact (rangeDiffs_sound ds changes Hr)
  end.
Qed.

(** ** [Poll]: the filter and the path rewrite *)

Section PollLoop.
Variable cfg : Gpoll.PollConfig.

Lemma Commit_eta (c : FullRange.Commit) :
  {| FullRange.Changes := FullRange.Changes c;
     FullRange.Sha := FullRange.Sha c;
     FullRange.When := FullRange.When c |} = c.
Proof. destruct c; reflexivity. Qed.

(** Without a filter every index is in range and the loop rewrites the
    paths in the array of the element. *)
Lemma rangeChanges_no_filter (todo : list FileChange) :
  Gpoll.FileChangeFilter cfg = None ->
  forall done : list FileChange,
    Gpoll.rangeChanges cfg (seq (length done) (length todo))
      (done ++ todo, Gpoll.Shared)
    = Ok (done ++ map (Spec.rewritten cfg) todo, Gpoll.Shared).
Proof.
  intros Hnone. induction todo as [| c todo IH]; intros done.
  - reflexivity.
  - simpl.
    rewrite list_lookup_middle by reflexivity. rewrite Hnone.
    unfold Gpoll.storeFilepath.
    rewrite list_lookup_middle by reflexivity. simpl.
    rewrite insert_app_r_alt by lia.
    replace (length done - length done) with 0 by lia. simpl.
    specialize (IH (done ++ [Spec.rewritten cfg c])).
    rewrite length_app in IH. simpl in IH.
    replace (length done + 1) with (S (length done)) in IH by lia.
    rewrite <- !app_assoc in IH. simpl in IH. exact IH.
Qed.

Lemma rangeChange_no_filter (change : FullRange.Commit) :
  Gpoll.FileChangeFilter cfg = None ->
  Gpoll.rangeChange cfg change
  = Ok {| FullRange.Changes := map (Spec.rewritten cfg) (FullRange.Changes change);
          FullRange.Sha := FullRange.Sha change;
          FullRange.When := FullRange.When change |}.
Proof.
  intros Hnone. unfold Gpoll.rangeChange.
  pose proof (rangeChanges_no_filter (FullRange.Changes change) Hnone [])
    as H.
  simpl in H. rewrite H. reflexivity.
Qed.

(** With a filter, [change.Changes] is a slice of one entry at most when
    it is indexed with [i]: the loop returns only on a commit without
    changes or with one change that the filter accepts, and then the
    array of the element is as it was. *)
Lemma rangeChange_filter (flt : FileChange -> bool) (change : FullRange.Commit) :
  Gpoll.FileChangeFilter cfg = Some flt ->
  Gpoll.rangeChange cfg change
  = match FullRange.Changes change with
    | [] => Ok change
    | [c] => if flt c then Ok change else Panic "index out of range"
    | _ :: _ :: _ => Panic "index out of range"
    end.
Proof.
  intros Hflt. unfold Gpoll.rangeChange.
  destruct change as [changes sha when]. simpl.
  destruct changes as [| c [| c' rest]]; simpl.
  - reflexivity.
  - rewrite Hflt. destruct (flt c); reflexivity.
  - rewrite Hflt. destruct (flt c); simpl; [| reflexivity].
    rewrite Hflt. destruct (flt c'); reflexivity.
Qed.

Lemma rangeCommits_no_filter (changes : list FullRange.Commit) :
  Gpoll.FileChangeFilter cfg = None ->
  Gpoll.rangeCommits cfg changes
  = Ok (map (fun c => {| FullRange.Changes :=
                           map (Spec.rewritten cfg) (FullRange.Changes c);
                         FullRange.Sha := FullRange.Sha c;
                         FullRange.When := FullRange.When c |}) changes).
Proof.
  intros Hnone. induction changes as [| c changes IH]; [reflexivity |].
  simpl. rewrite (rangeChange_no_filter c Hnone). simpl. rewrite IH.
  reflexivity.
Qed.

Lemma rangeCommits_filter_overrun (flt : FileChange -> bool)
  (changes : list FullRange.Commit) :
  Gpoll.FileChangeFilter cfg = Some flt ->
  Exists (Spec.overruns flt) changes ->
  Gpoll.rangeCommits cfg changes = Panic "index out of range".
Proof.
  intros Hflt. induction changes as [| c changes IH]; intros Hex.
  - inversion Hex.
  - simpl. rewrite (rangeChange_filter flt c Hflt).
    unfold Spec.overruns in Hex at 1.
    destruct (FullRange.Changes c) as [| x [| y rest]] eqn:Hc.
    + inversion Hex as [? ? Hbad | ? ? Hrest]; subst.
      * unfold Spec.overruns in Hbad. rewrite Hc in Hbad. contradiction.
      * simpl. rewrite (IH Hrest). reflexivity.
    + destruct (flt x) eqn:Hx; [| reflexivity].
      inversion Hex as [? ? Hbad | ? ? Hrest]; subst.
      * unfold Spec.overruns in Hbad. rewrite Hc in Hbad. congruence.
      * simpl. rewrite (IH Hrest). reflexivity.
    + reflexivity.
Qed.

Lemma rangeCommits_filter_Ok (flt : FileChange -> bool)
  (changes result : list FullRange.Commit) :
  Gpoll.FileChangeFilter cfg = Some flt ->
  Gpoll.rangeCommits cfg changes = Ok result ->
  result = changes /\ Forall (fun c => ~ Spec.overruns flt c) changes.
Proof.
  intros Hflt. revert result.
  induction changes as [| c changes IH]; intros result H.
  - injection H as <-. split; [reflexivity | constructor].
  - simpl in H. rewrite (rangeChange_filter flt c Hflt) in H.
    apply bind_Ok in H. destruct H as [c' [Hc' H]].
    apply bind_Ok in H. destruct H as [rest [Hrest H]].
    injection H as <-. destruct (IH rest Hrest) as [-> Hall].
    assert (Hgood : c' = c /\ ~ Spec.overruns flt c).
    { unfold Spec.overruns.
      destruct (FullRange.Changes c) as [| x [| y l]].
      - injection Hc' as <-. split; [reflexivity | tauto].
      - destruct (flt x); [| discriminate].
        injection Hc' as <-. split; [reflexivity | discriminate].
      - discriminate. }
    destruct Hgood as [-> Hgood].
    split; [reflexivity | constructor; assumption].
Qed.

Lemma filter_all_true {A : Type} (l : list A) :
  List.filter (fun _ => true) l = l.
Proof. induction l as [| a l IH]; simpl; [| rewrite IH]; reflexivity. Qed.

(** What one commit of the result owes to the commit of the diff. *)
Lemma rangeChange_survivors (c r : FullRange.Commit) :
  Gpoll.rangeChange cfg c = Ok r ->
  FullRange.Sha r = FullRange.Sha c
  /\ FullRange.When r = FullRange.When c
  /\ Forall2 (Spec.sameChange cfg)
             (List.filter (Spec.accepts cfg) (FullRange.Changes c))
             (FullRange.Changes r).
Proof.
  intros H. unfold Spec.accepts.
  destruct (Gpoll.FileChangeFilter cfg) as [flt |] eqn:Hflt.
  - rewrite (rangeChange_filter flt c Hflt) in H.
    destruct (FullRange.Changes c) as [| x [| y l]] eqn:Hc.
    + injection H as <-. rewrite Hc. repeat split. constructor.
    + destruct (flt x) eqn:Hx; [| discriminate].
      injection H as <-. rewrite Hc. simpl. rewrite Hx.
      repeat split. constructor; [| constructor].
      split; [reflexivity | left; reflexivity].
    + discriminate.
  - rewrite (rangeChange_no_filter c Hflt) in H. injection H as <-. simpl.
    repeat split. rewrite filter_all_true.
    induction (FullRange.Changes c) as [| x l IH]; simpl; constructor.
    + split; [reflexivity | right; reflexivity].
    + exact IH.
Qed.

Lemma rangeCommits_survivors (changes : list FullRange.Commit) :
  forall result : list FullRange.Commit,
    Gpoll.rangeCommits cfg changes = Ok result ->
    Forall2 (fun c r =>
               FullRange.Sha r = FullRange.Sha c
               /\ FullRange.When r = FullRange.When c
               /\ Forall2 (Spec.sameChange cfg)
                          (List.filter (Spec.accepts cfg) (FullRange.Changes c))
                          (FullRange.Changes r))
            changes result.
Proof.
  induction changes as [| c changes IH]; intros result H.
  - injection H as <-. constructor.
  - simpl in H. apply bind_Ok in H. destruct H as [r [Hr H]].
    apply bind_Ok in H. destruct H as [rest [Hrest H]].
    injection H as <-. constructor.
    + exact (rangeChange_survivors c r Hr).
    + exact (IH rest Hrest).
Qed.
End PollLoop.

Lemma Poll_unfold (p : Gpoll.poller) (changes : list FullRange.Commit) :
  Gpoll.DiffRemote (Gpoll.git p) (Gpoll.repo p)
    (Branch (Gpoll.Git (Gpoll.config p))) = Ok changes ->
  Gpoll.Poll p = Gpoll.rangeCommits (Gpoll.config p) changes.
Proof.
  intros H. unfold Gpoll.Poll. rewrite H. simpl.
  destruct changes; reflexivity.
Qed.

(** X11. Without a filter, [Poll] returns every commit of the diff with the
    paths of its changes under the clone directory. *)
Lemma Poll_no_filter (p : Gpoll.poller) (changes : list FullRange.Commit) :
  Gpoll.FileChangeFilter (Gpoll.config p) = None ->
  Gpoll.DiffRemote (Gpoll.git p) (Gpoll.repo p)
    (Branch (Gpoll.Git (Gpoll.config p))) = Ok changes ->
  Gpoll.Poll p
  = Ok (map (fun c => {| FullRange.Changes :=
                           map (Spec.rewritten (Gpoll.config p)) (FullRange.Changes c);
                         FullRange.Sha := FullRange.Sha c;
                         FullRange.When := FullRange.When c |}) changes).
Proof.
  intros Hnone Hdiff. rewrite (Poll_unfold p changes Hdiff).
  apply rangeCommits_no_filter. exact Hnone.
Qed.

(** With a filter, [Poll] panics as soon as one commit of the diff has two
    changes or more, or one change that the filter rejects. *)
Lemma Poll_filter_overrun (p : Gpoll.poller) (flt : FileChange -> bool)
  (changes : list FullRange.Commit) :
  Gpoll.FileChangeFilter (Gpoll.config p) = Some flt ->
  Gpoll.DiffRemote (Gpoll.git p) (Gpoll.repo p)
    (Branch (Gpoll.Git (Gpoll.config p))) = Ok changes ->
  Exists (Spec.overruns flt) changes ->
  Gpoll.Poll p = Panic "index out of range".
Proof.
  intros Hflt Hdiff Hex. rewrite (Poll_unfold p changes Hdiff).
  exact (rangeCommits_filter_overrun (Gpoll.config p) flt changes Hflt Hex).
Qed.

(** With a filter, what [Poll] returns when it returns is the diff as it
    was: nothing is dropped and no path is rewritten. *)
Lemma Poll_filter_Ok (p : Gpoll.poller) (flt : FileChange -> bool)
  (changes result : list FullRange.Commit) :
  Gpoll.FileChangeFilter (Gpoll.config p) = Some flt ->
  Gpoll.DiffRemote (Gpoll.git p) (Gpoll.repo p)
    (Branch (Gpoll.Git (Gpoll.config p))) = Ok changes ->
  Gpoll.Poll p = Ok result ->
  result = changes /\ Forall (fun c => ~ Spec.overruns flt c) changes.
Proof.
  intros Hflt Hdiff H. rewrite (Poll_unfold p changes Hdiff) in H.
  exact (rangeCommits_filter_Ok (Gpoll.config p) flt changes result Hflt H).
Qed.

(** In the first revision the changes are a flat list: what the filter
    rejects is dropped, in order, every index is in range, and a commit all
    of whose changes are rejected leaves nothing in the result. *)
Lemma Flat_Poll_filters (diff : list Flat.GitChange)
  (flt : Flat.GitChange -> bool) (dir : string) :
  Flat.Poll (Ok diff) (Some flt) dir
  = Ok (map (Flat.rewrite dir) (List.filter flt diff)).
Proof.
  unfold Flat.Poll. simpl. destruct diff; reflexivity.
Qed.

(** C4. A commit of the diff has one change and the filter rejects it:
    [Poll] indexes the empty [filteredChanges] at 0 and panics, where the
    commit was to be returned with no change. *)
Theorem Poll_filter_rejecting_all_panics :
  Gpoll.Poll
    (Scenario.pollerOf
       (Scenario.pollConfig Scenario.passwordAuth "/srv/repo"
          (Some Scenario.rejectAll) None)
       (Scenario.fixedGit
          (Ok [Scenario.commitOf "B" [Scenario.change "a" ChangeTypeCreate]])))
  = Panic "index out of range".
Proof. reflexivity. Qed.

(** When [Poll] returns, its result has the commits of the diff, one
    for one and in their order, each with the [Sha] and [When] of its
    commit; the changes of each are the changes of that commit which the
    filter accepts, in their order and with their change types.  With a
    filter that is the case of [Poll_filter_Ok] only. *)
Theorem Poll_keeps_order_and_type
  (p : Gpoll.poller) (changes result : list FullRange.Commit) :
  Gpoll.DiffRemote (Gpoll.git p) (Gpoll.repo p)
    (Branch (Gpoll.Git (Gpoll.config p))) = Ok changes ->
  Gpoll.Poll p = Ok result ->
  Forall2 (fun c r =>
             FullRange.Sha r = FullRange.Sha c
             /\ FullRange.When r = FullRange.When c
             /\ Forall2 (Spec.sameChange (Gpoll.config p))
                        (List.filter (Spec.accepts (Gpoll.config p))
                           (FullRange.Changes c))
                        (FullRange.Changes r))
          changes result.
Proof.
  intros Hdiff H. rewrite (Poll_unfold p changes Hdiff) in H.
  exact (rangeCommits_survivors (Gpoll.config p) changes result H).
Qed.

Lemma Poll_keeps_order_and_type_witness :
  Forall2 (fun c r =>
             FullRange.Sha r = FullRange.Sha c
             /\ FullRange.When r = FullRange.When c
             /\ Forall2 (Spec.sameChange (Gpoll.config Scenario.filteringPoller))
                        (List.filter
                           (Spec.accepts (Gpoll.config Scenario.filteringPoller))
                           (FullRange.Changes c))
                        (FullRange.Changes r))
          Scenario.oneChangeDiff Scenario.oneChangeDiff.
Proof.
  apply (Poll_keeps_order_and_type Scenario.filteringPoller
           Scenario.oneChangeDiff Scenario.oneChangeDiff).
  - reflexivity.
  - reflexivity.
Defined.

(** C10. A commit of the diff has two changes and the filter accepts the
    first and rejects the second: on the second pass [Poll] indexes the
    empty [filteredChanges] at 1 and panics. *)
Theorem Poll_filter_index_out_of_range :
  Gpoll.Poll
    (Scenario.pollerOf
       (Scenario.pollConfig Scenario.passwordAuth "/srv/repo"
          (Some Scenario.onlyGo) None)
       (Scenario.fixedGit
          (Ok [Scenario.commitOf "B"
                 [Scenario.change "main.go" ChangeTypeUpdate;
                  Scenario.change "a" ChangeTypeCreate]])))
  = Panic "index out of range".
Proof. reflexivity. Qed.

(** C5. A commit of the diff has three changes and the filter accepts the
    first and the third: the survivors are these two, in this order, an
    update and a deletion.  [Poll] returns neither: on the second pass it
    indexes [filteredChanges], then empty, at 1 and panics, where the
    commit was to be returned with the two survivors in their order and
    with their change types. *)
Theorem Poll_filter_returns_no_survivors :
  Gpoll.DiffRemote (Gpoll.git Runs.goPoller) (Gpoll.repo Runs.goPoller)
    (Branch (Gpoll.Git (Gpoll.config Runs.goPoller)))
  = Ok Runs.threeChanges
  /\ map (fun c => List.filter (Spec.accepts (Gpoll.config Runs.goPoller))
                     (FullRange.Changes c)) Runs.threeChanges
     = [ [ Scenario.change "main.go" ChangeTypeUpdate;
           Scenario.change "lib.go" ChangeTypeDelete ] ]
  /\ Gpoll.Poll Runs.goPoller = Panic "index out of range".
Proof. repeat split. Qed.

(** ** The tick loop *)

Lemma loop_drop_failed_tick (p : Gpoll.poller) (now : GoGit.Repository)
  (e : error) (after : list Gpoll.event) :
  Gpoll.Poll {| Gpoll.config := Gpoll.config p; Gpoll.git := Gpoll.git p;
                Gpoll.repo := Some now |} = Err e ->
  forall before : list Gpoll.event,
    Gpoll.loop p (before ++ Gpoll.TickerC now :: after)
    = Gpoll.loop p (before ++ after).
Proof.
  intros Herr. induction before as [| ev before IH].
  - simpl. rewrite Herr. reflexivity.
  - destruct ev as [r |]; simpl; [| reflexivity].
    rewrite IH. reflexivity.
Qed.

(** C6. A tick on which [Poll] returns an error adds no effect to the run
    of the loop, no call of the handler and no send: the loop goes on as
    if the ticker had not fired, and after that tick alone it is back in
    the [select], neither returned nor crashed. *)
Theorem loop_skips_failed_tick (p : Gpoll.poller) (now : GoGit.Repository)
  (e : error) (before after : list Gpoll.event) :
  Gpoll.Poll {| Gpoll.config := Gpoll.config p; Gpoll.git := Gpoll.git p;
                Gpoll.repo := Some now |} = Err e ->
  Gpoll.loop p (before ++ Gpoll.TickerC now :: after)
  = Gpoll.loop p (before ++ after)
  /\ Gpoll.loop p [Gpoll.TickerC now] = ([], Gpoll.Waiting).
Proof.
  intros Herr. split.
  - exact (loop_drop_failed_tick p now e after Herr before).
  - simpl. rewrite Herr. reflexivity.
Qed.

Lemma loop_skips_failed_tick_witness :
  Gpoll.loop Scenario.handlingPoller
    ([Gpoll.TickerC Scenario.behind]
     ++ Gpoll.TickerC Scenario.upToDate :: [Gpoll.Closer])
  = Gpoll.loop Scenario.handlingPoller
      ([Gpoll.TickerC Scenario.behind] ++ [Gpoll.Closer])
  /\ Gpoll.loop Scenario.handlingPoller [Gpoll.TickerC Scenario.upToDate]
     = ([], Gpoll.Waiting).
Proof.
  apply (loop_skips_failed_tick Scenario.handlingPoller Scenario.upToDate
           NoErrAlreadyUpToDate).
  reflexivity.
Defined.

(** A tick on which [Poll] returns commits: the handler, then the send,
    for each commit in order. *)
Example loop_delivers :
  Gpoll.loop
    (Scenario.pollerOf
       (Scenario.pollConfig Scenario.passwordAuth "/srv/repo" None
          (Some Scenario.handler))
       (Gpoll.gitImpl Scenario.lib Scenario.basic))
    [Gpoll.TickerC Scenario.behind; Gpoll.Closer]
  = (let c := {| FullRange.Changes :=
                   [Scenario.change "/srv/repo/f1" ChangeTypeCreate;
                    Scenario.change "/srv/repo/f2" ChangeTypeUpdate];
                 FullRange.Sha := ""; FullRange.When := 0%Z |} in
     ([Gpoll.CallHandleCommit c; Gpoll.Send c; Gpoll.TickerStop],
      Gpoll.Returned)).
Proof. reflexivity. Qed.

(** ** Setup *)

Lemma onStart_without_handler (host : Host) (p : Gpoll.poller) :
  Gpoll.HandleCommit (Gpoll.config p) = None ->
  Gpoll.onStart host p = Ok [].
Proof. intros H. unfold Gpoll.onStart. rewrite H. reflexivity. Qed.

Section WalkInvariant.
Context {St : Type}.
Variable fn : string -> option error -> St -> St * option GoFilepath.walkErr.
Variable P : St -> Prop.
Hypothesis fn_keeps : forall path err s, P s -> P (fst (fn path err s)).

Lemma walk_keeps :
  forall (node : GoFilepath.FsNode) (path : string) (s : St),
    P s -> P (fst (GoFilepath.walk fn path node s)).
Proof.
  fix IH 1. intros node path s Hs.
  destruct node as [| entries | e | e]; simpl;
    try (apply fn_keeps; exact Hs).
  pose proof (fn_keeps path None s Hs) as H1.
  destruct (fn path None s) as [s1 err1]. simpl in H1.
  destruct err1 as [w |]; [exact H1 |].
  revert entries s1 H1. fix IHe 1. intros entries s1 H1.
  destruct entries as [| [name child] entries]; [exact H1 |].
  pose proof (IH child (GoPath.Join [path; name]) s1 H1) as H2.
  pose proof (fn_keeps (GoPath.Join [path; name])) as Hfn.
  destruct child as [| sub | e | e].
  - destruct (GoFilepath.walk fn (GoPath.Join [path; name])
                GoFilepath.FsFile s1) as [s2 r].
    simpl in H2. destruct r as [w |]; simpl; [exact H2 |].
    apply IHe. exact H2.
  - destruct (GoFilepath.walk fn (GoPath.Join [path; name])
                (GoFilepath.FsDir sub) s1) as [s2 r].
    simpl in H2. destruct r as [w |]; simpl.
    + destruct (negb (GoFilepath.isSkipDir w)); [exact H2 |].
      apply IHe. exact H2.
    + apply IHe. exact H2.
  - destruct (GoFilepath.walk fn (GoPath.Join [path; name])
                (GoFilepath.FsUnreadableDir e) s1) as [s2 r].
    simpl in H2. destruct r as [w |]; simpl.
    + destruct (negb (GoFilepath.isSkipDir w)); [exact H2 |].
      apply IHe. exact H2.
    + apply IHe. exact H2.
  - clear H2. specialize (Hfn (Some e) s1 H1).
    destruct (fn (GoPath.Join [path; name]) (Some e) s1) as [s2 r].
    simpl in Hfn. destruct r as [w |].
    + destruct (GoFilepath.isSkipDir w); [apply IHe |]; exact Hfn.
    + apply IHe. exact Hfn.
Qed.

Lemma Walk_keeps (root : string) (node : GoFilepath.FsNode) (s : St) :
  P s -> P (fst (GoFilepath.Walk fn root node s)).
Proof.
  intros Hs. unfold GoFilepath.Walk.
  pose proof (walk_keeps node root s Hs) as H.
  destruct (GoFilepath.walk fn root node s) as [s' r]. simpl in H.
  destruct r as [[| e] |]; exact H.
Qed.
End WalkInvariant.

Lemma walkFn_keeps_Init (gitDir path : string) (err : option error)
  (changes : list FileChange) :
  Forall (fun c => changeType c = ChangeTypeInit) changes ->
  Forall (fun c => changeType c = ChangeTypeInit)
         (fst (Gpoll.walkFn gitDir path err changes)).
Proof.
  intros H. unfold Gpoll.walkFn. destruct err as [e |]; [exact H |].
  destruct (GoFilepath.Match (GoPath.Join [gitDir; "*"]) path
            || GoFilepath.Match gitDir path); simpl; [exact H |].
  apply Forall_app. split; [exact H |]. repeat constructor.
Qed.

(** With a handler, a setup that succeeds calls it once, with one commit
    that carries the hash and the author time of the head commit and whose
    changes are all of type Init. *)
Lemma onStart_with_handler (host : Host) (p : Gpoll.poller)
  (h : Gpoll.HandleCommitFunc) (effs : list Gpoll.effect) :
  Gpoll.HandleCommit (Gpoll.config p) = Some h ->
  Gpoll.onStart host p = Ok effs ->
  exists commit changes,
    Gpoll.HeadCommit (Gpoll.git p) (Gpoll.repo p) = Ok commit
    /\ effs = [ Gpoll.CallHandleCommit
                  {| FullRange.Changes := changes;
                     FullRange.Sha := GoGit.Hash commit;
                     FullRange.When := UTC (GoGit.When (GoGit.Author commit)) |} ]
    /\ Forall (fun c => changeType c = ChangeTypeInit) changes.
Proof.
  intros Hh H. unfold Gpoll.onStart in H. rewrite Hh in H.
  apply bind_Ok in H. destruct H as [commit [Hcommit H]].
  pose proof (Walk_keeps (Gpoll.walkFn (GoPath.Join ["*"; ".git"]))
                (Forall (fun c => changeType c = ChangeTypeInit))
                (walkFn_keeps_Init (GoPath.Join ["*"; ".git"]))
                (CloneDirectory (Gpoll.Git (Gpoll.config p)))
                (Lstat host (CloneDirectory (Gpoll.Git (Gpoll.config p))))
                [] (List.Forall_nil _)) as Hinit.
  destruct (GoFilepath.Walk _ _ _ _) as [changes err]. simpl in Hinit.
  apply bind_Ok in H. destruct H as [u [_ H]]. injection H as <-.
  exists commit, changes. repeat split; assumption.
Qed.

(** The changes that the diff engine makes are never of type Init. *)
Lemma rangeDiffs_no_Init (ds : list GoGit.Change) :
  forall changes : list FileChange,
    GitCommon.rangeDiffs ds = Ok changes ->
    Forall (fun c => changeType c <> ChangeTypeInit) changes.
Proof.
  induction ds as [| d ds IH]; intros changes H.
  - injection H as <-. constructor.
  - simpl in H. apply bind_Ok in H. destruct H as [a [_ H]].
    apply bind_Ok in H. destruct H as [rest [Hrest H]].
    injection H as <-. constructor; [| exact (IH rest Hrest)].
    destruct a; simpl; discriminate.
Qed.

(** A clone directory of one relative element: the [.git] directory and
    what it holds are left out. *)
Example onStart_relative_directory :
  Gpoll.onStart Scenario.host
    (Scenario.pollerOf
       (Scenario.pollConfig Scenario.passwordAuth "repo" None
          (Some Scenario.handler))
       (Scenario.fixedGit (Ok [])))
  = Ok [ Gpoll.CallHandleCommit
           {| FullRange.Changes :=
                [Scenario.change "repo" ChangeTypeInit;
                 Scenario.change "repo/README.md" ChangeTypeInit;
                 Scenario.change "repo/src" ChangeTypeInit;
                 Scenario.change "repo/src/main.go" ChangeTypeInit];
              FullRange.Sha := "C"; FullRange.When := 1000%Z |} ].
Proof. reflexivity. Qed.

(** C7. With a handler and the clone directory [/srv/repo], [onStart] calls
    the handler once, before any tick, with a commit of the head [C] whose
    changes are all of type Init, but the patterns [*/.git] and [*/.git/*]
    match no path under [/srv/repo]: the [.git] directory and the files in
    it are in the changes, where they were to be left out. *)
Theorem onStart_absolute_directory_lists_git :
  Gpoll.onStart Scenario.host
    (Scenario.pollerOf
       (Scenario.pollConfig Scenario.passwordAuth "/srv/repo" None
          (Some Scenario.handler))
       (Scenario.fixedGit (Ok [])))
  = Ok [ Gpoll.CallHandleCommit
           {| FullRange.Changes :=
                [Scenario.change "/srv/repo" ChangeTypeInit;
                 Scenario.change "/srv/repo/.git" ChangeTypeInit;
                 Scenario.change "/srv/repo/.git/HEAD" ChangeTypeInit;
                 Scenario.change "/srv/repo/.git/config" ChangeTypeInit;
                 Scenario.change "/srv/repo/README.md" ChangeTypeInit;
                 Scenario.change "/srv/repo/src" ChangeTypeInit;
                 Scenario.change "/srv/repo/src/main.go" ChangeTypeInit];
              FullRange.Sha := "C"; FullRange.When := 1000%Z |} ]
  /\ GoFilepath.Match (GoPath.Join ["*"; ".git"]) "/srv/repo/.git" = false
  /\ GoFilepath.Match (GoPath.Join ["*"; ".git"]) "repo/.git" = true.
Proof. repeat split; reflexivity. Qed.

(** ** Construction *)

Lemma toAuthMethod_forms (host : Host) (config : GitAuthConfig) :
  (SshKey config <> "" ->
   Auth.toAuthMethod host config = Auth.sshKeyFromFile host (SshKey config))
  /\ (SshKey config = "" ->
      Auth.toAuthMethod host config
      = Ok (GoGit.BasicAuth (Username config) (Password config))).
Proof.
  unfold Auth.toAuthMethod. split; intros H.
  - apply String.eqb_neq in H. rewrite H. reflexivity.
  - rewrite H. reflexivity.
Qed.

(** The configuration after the defaults keeps the authentication. *)
Lemma NewPoller_Ok_auth (host : Host) (lib : GoGit.GitLib)
  (validate : Gpoll.PollConfig -> option error) (config : Gpoll.PollConfig)
  (p : Gpoll.poller) :
  Gpoll.NewPoller host lib validate config = Ok p ->
  Auth (Gpoll.Git (Gpoll.config p)) = Auth (Gpoll.Git config)
  /\ Gpoll.repo p = None.
Proof.
  unfold Gpoll.NewPoller. intros H.
  apply bind_Ok in H. destruct H as [c [Hc H]].
  apply bind_Ok in H. destruct H as [u [_ H]].
  apply bind_Ok in H. destruct H as [g [_ H]].
  injection H as <-. simpl. split; [| reflexivity].
  destruct (Z.eqb (Gpoll.Interval config) 0); simpl in Hc;
    destruct (String.eqb (CloneDirectory (Gpoll.Git config)) "");
    try (apply bind_Ok in Hc; destruct Hc as [wd [_ Hc]]);
    injection Hc as <-; reflexivity.
Qed.

(** C8, the claim at a configuration with both forms: the key file is read
    and parsed, and [NewPoller] returns a poller, not an error. *)
Lemma NewPoller_accepts_both_forms :
  SshKey Scenario.bothAuth <> ""
  /\ Username Scenario.bothAuth <> ""
  /\ Password Scenario.bothAuth <> ""
  /\ isOk (Gpoll.NewPoller Scenario.host Scenario.lib Gpoll.requiredTags
             Scenario.bothConfig) = true
  /\ ~ (exists e,
          Gpoll.NewPoller Scenario.host Scenario.lib Gpoll.requiredTags
            Scenario.bothConfig = Err e).
Proof.
  repeat split; try discriminate; try reflexivity.
  intros [e He]. vm_compute in He. discriminate.
Qed.

(** C8, amended. For a configuration that passes the validator,
    [NewPoller] selects one form of authentication, the SSH key first:
    with a key path it loads the key, returns the error of the load with
    no poller when the file cannot be read or parsed, and otherwise a
    poller on the key, whatever the username and the password are; with no
    key path and a username it returns a poller on the username and the
    password. *)
Theorem NewPoller_selects_one_form (host : Host) (lib : GoGit.GitLib)
  (validate : Gpoll.PollConfig -> option error) (config : Gpoll.PollConfig) :
  (forall c, Remote (Gpoll.Git c) = Remote (Gpoll.Git config) ->
             validate c = None) ->
  (CloneDirectory (Gpoll.Git config) = "" -> isOk (Getwd host) = true) ->
  (SshKey (Auth (Gpoll.Git config)) <> "" ->
   match Auth.sshKeyFromFile host (SshKey (Auth (Gpoll.Git config))) with
   | Ok auth =>
       exists p,
         Gpoll.NewPoller host lib validate config = Ok p
         /\ Gpoll.git p = Gpoll.gitImpl lib auth
   | Err e => Gpoll.NewPoller host lib validate config = Err e
   | Panic msg => Gpoll.NewPoller host lib validate config = Panic msg
   end)
  /\ (SshKey (Auth (Gpoll.Git config)) = "" ->
      Username (Auth (Gpoll.Git config)) <> "" ->
      exists p,
        Gpoll.NewPoller host lib validate config = Ok p
        /\ Gpoll.git p
           = Gpoll.gitImpl lib
               (GoGit.BasicAuth (Username (Auth (Gpoll.Git config)))
                  (Password (Auth (Gpoll.Git config))))).
Proof.
  intros Hval Hwd.
  assert (Hdefaults :
    exists c,
      (let config0 := if Z.eqb (Gpoll.Interval config) 0
                      then Gpoll.withInterval config (30 * Gpoll.second)%Z
                      else config in
       if String.eqb (CloneDirectory (Gpoll.Git config0)) ""
       then wd <- Getwd host ;; Ok (Gpoll.withCloneDirectory config0 wd)
       else Ok config0) = Ok c
      /\ Remote (Gpoll.Git c) = Remote (Gpoll.Git config)
      /\ Auth (Gpoll.Git c) = Auth (Gpoll.Git config)).
  { destruct (Z.eqb (Gpoll.Interval config) 0); simpl;
      destruct (String.eqb (CloneDirectory (Gpoll.Git config)) "") eqn:Hdir;
      try (apply String.eqb_eq in Hdir;
           destruct (isOk_true _ (Hwd Hdir)) as [wd Hgetwd];
           rewrite Hgetwd; simpl);
      eexists; repeat split; reflexivity. }
  destruct Hdefaults as [c [Hc [Hremote Hauth]]].
  unfold Gpoll.NewPoller. simpl in Hc. rewrite Hc. simpl.
  rewrite (Hval c Hremote). simpl. unfold Gpoll.newGit. rewrite Hauth.
  destruct (toAuthMethod_forms host (Auth (Gpoll.Git config))) as [Hkey Hbasic].
  split.
  - intros Hssh. rewrite (Hkey Hssh).
    destruct (Auth.sshKeyFromFile host (SshKey (Auth (Gpoll.Git config))))
      as [auth | e | msg]; simpl; try reflexivity.
    eexists. split; reflexivity.
  - intros Hssh _. rewrite (Hbasic Hssh). simpl.
    eexists. split; reflexivity.
Qed.

Lemma NewPoller_selects_one_form_witness :
  (SshKey (Auth (Gpoll.Git Scenario.bothConfig)) <> "" ->
   match Auth.sshKeyFromFile Scenario.host
           (SshKey (Auth (Gpoll.Git Scenario.bothConfig))) with
   | Ok auth =>
       exists p,
         Gpoll.NewPoller Scenario.host Scenario.lib Gpoll.requiredTags
           Scenario.bothConfig = Ok p
         /\ Gpoll.git p = Gpoll.gitImpl Scenario.lib auth
   | Err e =>
       Gpoll.NewPoller Scenario.host Scenario.lib Gpoll.requiredTags
         Scenario.bothConfig = Err e
   | Panic msg =>
       Gpoll.NewPoller Scenario.host Scenario.lib Gpoll.requiredTags
         Scenario.bothConfig = Panic msg
   end)
  /\ (SshKey (Auth (Gpoll.Git Scenario.bothConfig)) = "" ->
      Username (Auth (Gpoll.Git Scenario.bothConfig)) <> "" ->
      exists p,
        Gpoll.NewPoller Scenario.host Scenario.lib Gpoll.requiredTags
          Scenario.bothConfig = Ok p
        /\ Gpoll.git p
           = Gpoll.gitImpl Scenario.lib
               (GoGit.BasicAuth
                  (Username (Auth (Gpoll.Git Scenario.bothConfig)))
                  (Password (Auth (Gpoll.Git Scenario.bothConfig))))).
Proof.
  apply (NewPoller_selects_one_form Scenario.host Scenario.lib
           Gpoll.requiredTags Scenario.bothConfig).
  - intros c Hc. unfold Gpoll.requiredTags. rewrite Hc. reflexivity.
  - intros _. reflexivity.
Defined.

(** A key file that cannot be read: the error, and no poller. *)
Example NewPoller_missing_key :
  Gpoll.NewPoller Scenario.host Scenario.lib Gpoll.requiredTags
    (Scenario.pollConfig
       {| SshKey := "/nowhere/id_rsa"; Username := ""; Password := "" |}
       "" None None)
  = Err (ErrOther "no such file or directory").
Proof. reflexivity. Qed.

(** ** Clone *)

(** The revision of [src/git.go] clones into the directory, opens the
    repository of the directory when one exists already, and returns any
    other error of the clone. *)
Lemma FullRange_Clone_cases (lib : GoGit.GitLib) (auth : GoGit.AuthMethod)
  (remote branch directory : string) :
  (forall repo,
      GoGit.CloneInto lib (GoGit.OnDisk directory)
        (Spec.cloneOptions auth remote branch) = Ok repo ->
      FullRange.Clone lib auth remote branch directory = Ok repo)
  /\ (GoGit.CloneInto lib (GoGit.OnDisk directory)
        (Spec.cloneOptions auth remote branch) = Err ErrRepositoryAlreadyExists ->
      FullRange.Clone lib auth remote branch directory
      = GoGit.PlainOpen lib directory)
  /\ (forall e,
         e <> ErrRepositoryAlreadyExists ->
         GoGit.CloneInto lib (GoGit.OnDisk directory)
           (Spec.cloneOptions auth remote branch) = Err e ->
         FullRange.Clone lib auth remote branch directory = Err e).
Proof.
  unfold FullRange.Clone, Spec.cloneOptions, GoGit.NewBranchReferenceName, remoteName.
  repeat split.
  - intros repo ->. reflexivity.
  - intros ->. reflexivity.
  - intros e Hne ->. destruct e; congruence.
Qed.

(** The revision of [src/unnamed/part_001] handles the answers of the
    clone in the same way, but the clone it asks for is in memory. *)
Lemma PerCommit_Clone_cases (lib : GoGit.GitLib) (auth : GoGit.AuthMethod)
  (remote branch directory : string) :
  (forall repo,
      GoGit.CloneInto lib GoGit.InMemory
        (Spec.cloneOptions auth remote branch) = Ok repo ->
      PerCommit.Clone lib auth remote branch directory = Ok repo)
  /\ (GoGit.CloneInto lib GoGit.InMemory
        (Spec.cloneOptions auth remote branch) = Err ErrRepositoryAlreadyExists ->
      PerCommit.Clone lib auth remote branch directory
      = GoGit.PlainOpen lib directory)
  /\ (forall e,
         e <> ErrRepositoryAlreadyExists ->
         GoGit.CloneInto lib GoGit.InMemory
           (Spec.cloneOptions auth remote branch) = Err e ->
         PerCommit.Clone lib auth remote branch directory = Err e).
Proof.
  unfold PerCommit.Clone, Spec.cloneOptions, GoGit.NewBranchReferenceName, remoteName.
  repeat split.
  - intros repo ->. reflexivity.
  - intros ->. reflexivity.
  - intros e Hne ->. destruct e; congruence.
Qed.

(** An error of [Clone] is the error of [setup] and of [Start]: no handler
    call, no ticker, no loop. *)
Lemma setup_clone_error (host : Host) (p : Gpoll.poller) (e : error) :
  Gpoll.Clone (Gpoll.git p) (Remote (Gpoll.Git (Gpoll.config p)))
    (Branch (Gpoll.Git (Gpoll.config p)))
    (CloneDirectory (Gpoll.Git (Gpoll.config p))) = Err e ->
  Gpoll.setup host p = ([], Err e)
  /\ forall events, Gpoll.Start host p events = (Err e, [], None).
Proof.
  intros H. assert (Hs : Gpoll.setup host p = ([], Err e)).
  { unfold Gpoll.setup. rewrite H. reflexivity. }
  split; [exact Hs |]. intros events. unfold Gpoll.Start. rewrite Hs.
  reflexivity.
Qed.

(** In the revision of [src/git.go], a repository that exists already in
    the directory is opened. *)
Example FullRange_Clone_opens_existing :
  option_map GoGit.Storage
    (returned (FullRange.Clone Scenario.libExisting Scenario.basic
                 "git@example.org:ann/repo.git" "master" "/srv/repo"))
  = Some (GoGit.OnDisk "/srv/repo").
Proof. reflexivity. Qed.

(** C9. [Clone] of [src/unnamed/part_001], asked for a clone in
    [/srv/repo], returns a repository kept in memory: the directory is not
    where the remote is cloned.  [Clone] of [src/git.go] returns the
    repository of the directory.  With a repository already in the
    directory, the first does not open it. *)
Theorem PerCommit_Clone_not_into_directory :
  option_map GoGit.Storage
    (returned (PerCommit.Clone Scenario.lib Scenario.basic
                 "git@example.org:ann/repo.git" "master" "/srv/repo"))
  = Some GoGit.InMemory
  /\ option_map GoGit.Storage
       (returned (FullRange.Clone Scenario.lib Scenario.basic
                    "git@example.org:ann/repo.git" "master" "/srv/repo"))
     = Some (GoGit.OnDisk "/srv/repo")
  /\ option_map GoGit.Storage
       (returned (PerCommit.Clone Scenario.libExisting Scenario.basic
                    "git@example.org:ann/repo.git" "master" "/srv/repo"))
     = Some GoGit.InMemory.
Proof. repeat split; reflexivity. Qed.

(** ** One diff per commit, and what [Poll] returns of them *)




Section PerCommitPollLoop.
Variable cfg : Gpoll.PollConfig.





End PerCommitPollLoop.



(** The poll of the scenario [A <- B <- C] without a filter: two diffs,
    oldest first, with the paths under the clone directory. *)
Example PerCommitPoll_scenario :
  PerCommitPoll.Poll Runs.plainConfig
    (PerCommit.DiffRemote Scenario.lib Scenario.basic Scenario.behind "master")
  = Ok [ {| PerCommit.Changes := [Scenario.change "/srv/repo/f1" ChangeTypeCreate];
            PerCommit.From := PerCommit.ToInternal Scenario.cA;
            PerCommit.To := PerCommit.ToInternal Scenario.cB |};
         {| PerCommit.Changes := [Scenario.change "/srv/repo/f2" ChangeTypeUpdate];
            PerCommit.From := PerCommit.ToInternal Scenario.cB;
            PerCommit.To := PerCommit.ToInternal Scenario.cC |} ].
Proof. reflexivity. Qed.

(** * The code beside the claims *)

(** ** [listCommits] and [DiffRemote] of [src/unnamed/part_001] *)

(** What the loop of [listCommits] returns is what it had, then commits of
    the ancestry of [to], newest first, up to a commit with the hash looked
    for. *)
Lemma walkBack_sound (h : string) :
  forall (to : GoGit.Commit) (acc l : list GoGit.Commit),
    PerCommit.walkBack h to acc = Ok l ->
    exists newer base rest,
      l = acc ++ newer
      /\ Spec.firstParents to = newer ++ base :: rest
      /\ GoGit.Hash base = h
      /\ Forall (fun c => GoGit.Hash c <> h) newer.
Proof.
  fix IH 1. intros to acc l H.
  destruct to as [ht a m t ps]. simpl in H.
  destruct (String.eqb ht h) eqn:Heq; simpl in H.
  - injection H as <-. apply String.eqb_eq in Heq.
    exists [], (GoGit.MkCommit ht a m t ps).
    destruct (firstParents_head (GoGit.MkCommit ht a m t ps)) as [rest Hrest].
    exists rest. rewrite app_nil_r. repeat split; try assumption. constructor.
  - destruct ps as [| p ps']; [discriminate |].
    destruct (IH p (acc ++ [GoGit.MkCommit ht a m t (p :: ps')]) l H)
      as [newer [base [rest [Hl [Hfp [Hbase Hne]]]]]].
    exists (GoGit.MkCommit ht a m t (p :: ps') :: newer), base, rest.
    repeat split.
    + rewrite Hl, <- app_assoc. reflexivity.
    + simpl. simpl in Hfp. rewrite Hfp. reflexivity.
    + exact Hbase.
    + constructor; [| exact Hne]. simpl. apply String.eqb_neq. exact Heq.
Qed.

(** When no commit of the ancestry of [to] has the hash looked for, the
    loop ends on the error of [Next] at the first commit without parent. *)
Lemma walkBack_not_found (h : string) :
  forall (to : GoGit.Commit) (acc : list GoGit.Commit),
    Forall (fun c => GoGit.Hash c <> h) (Spec.firstParents to) ->
    PerCommit.walkBack h to acc = Err EOF.
Proof.
  fix IH 1. intros to acc Hall.
  destruct to as [ht a m t ps]. simpl in Hall. simpl.
  inversion Hall as [| ? ? Hne Hrest]; subst. simpl in Hne.
  apply String.eqb_neq in Hne. rewrite Hne. simpl.
  destruct ps as [| p ps']; [reflexivity |].
  apply IH. exact Hrest.
Qed.

Lemma listCommits_sound (from to : GoGit.Commit) (l : list GoGit.Commit) :
  PerCommit.listCommits from to = Ok l ->
  exists cs, l = from :: cs /\ Spec.aheadBy from to cs.
Proof.
  unfold PerCommit.listCommits. intros H.
  apply bind_Ok in H. destruct H as [cs0 [Hwalk H]].
  injection H as <-.
  destruct (walkBack_sound _ _ _ _ Hwalk)
    as [newer [base [rest [Hl [Hfp [Hbase Hne]]]]]].
  simpl in Hl. subst cs0.
  exists (rev newer). split.
  - rewrite reverseOrder_rev, rev_app_distr. reflexivity.
  - exists base, rest. rewrite rev_involutive.
    repeat split; try assumption.
    apply List.Forall_forall. intros c Hc. apply in_rev in Hc.
    rewrite List.Forall_forall in Hne. now apply Hne.
Qed.

(** X1. [listCommits] returns a list exactly when the hash of [from] is
    met on the first-parent ancestry of [to], and the list is then [from]
    followed by the commits that are ahead of it, oldest first. *)
Theorem listCommits_Ok_iff (from to : GoGit.Commit) (l : list GoGit.Commit) :
  PerCommit.listCommits from to = Ok l
  <-> exists cs, l = from :: cs /\ Spec.aheadBy from to cs.
Proof.
  split.
  - exact (listCommits_sound from to l).
  - intros [cs [-> Hahead]]. exact (listCommits_ahead from to cs Hahead).
Qed.

(** X2. When no commit on the first-parent ancestry of [to] has the hash
    of [from] (the branches diverged, or the history was rewritten),
    [listCommits] returns [io.EOF], the error of the parent iterator. *)
Theorem listCommits_ancestry_not_found (from to : GoGit.Commit) :
  Forall (fun c => GoGit.Hash c <> GoGit.Hash from) (Spec.firstParents to) ->
  PerCommit.listCommits from to = Err EOF.
Proof.
  intros H. unfold PerCommit.listCommits.
  rewrite (walkBack_not_found (GoGit.Hash from) to [] H). reflexivity.
Qed.

Lemma listCommits_ancestry_not_found_witness :
  PerCommit.listCommits Scenario.cD Scenario.cC = Err EOF.
Proof.
  apply (listCommits_ancestry_not_found Scenario.cD Scenario.cC).
  repeat constructor; simpl; discriminate.
Defined.

Lemma fetch_guard (repo : GoGit.Repository) (auth : GoGit.AuthMethod) :
  (GoGit.Fetch repo auth = None
   \/ GoGit.Fetch repo auth = Some NoErrAlreadyUpToDate) ->
  match GoGit.Fetch repo auth with
  | Some e => if negb (error_eqb e NoErrAlreadyUpToDate) then Err e else Ok tt
  | None => Ok tt
  end = Ok tt.
Proof. intros [-> | ->]; reflexivity. Qed.

(** X3. When the local head is not on the first-parent ancestry of the
    remote head, [DiffRemote] returns [io.EOF]: no diff is made and the
    error of the walk is the error of the poll. *)
Theorem DiffRemote_ancestry_not_found
  (lib : GoGit.GitLib) (auth : GoGit.AuthMethod) (repo : GoGit.Repository)
  (branch h : string) (from to : GoGit.Commit) :
  (GoGit.Fetch repo auth = None
   \/ GoGit.Fetch repo auth = Some NoErrAlreadyUpToDate) ->
  GoGit.Head repo = Ok h ->
  GitCommon.FetchLatestRemoteCommit auth repo branch = Ok to ->
  GoGit.CommitObject repo h = Ok from ->
  Forall (fun c => GoGit.Hash c <> GoGit.Hash from) (Spec.firstParents to) ->
  PerCommit.DiffRemote lib auth repo branch = Err EOF.
Proof.
  intros Hfetch Hhead Hrem Hcur Hnone.
  unfold PerCommit.DiffRemote. rewrite (fetch_guard repo auth Hfetch). simpl.
  rewrite Hhead. simpl. rewrite Hrem. simpl. rewrite Hcur. simpl.
  unfold PerCommit.listCommits.
  rewrite (walkBack_not_found (GoGit.Hash from) to [] Hnone). reflexivity.
Qed.

Lemma DiffRemote_ancestry_not_found_witness :
  PerCommit.DiffRemote Scenario.lib Scenario.basic
    (Scenario.repoAt (GoGit.OnDisk "/srv/repo") "D" "C" None None) "master"
  = Err EOF.
Proof.
  apply (DiffRemote_ancestry_not_found Scenario.lib Scenario.basic
           (Scenario.repoAt (GoGit.OnDisk "/srv/repo") "D" "C" None None)
           "master" "D" Scenario.cD Scenario.cC).
  - left. reflexivity.
  - reflexivity.
  - reflexivity.
  - reflexivity.
  - repeat constructor; simpl; discriminate.
Defined.

Lemma last_indep {A : Type} (l : list A) (d d' : A) :
  l <> [] -> List.last l d = List.last l d'.
Proof.
  induction l as [| a l IH]; intros Hne; [congruence |].
  destruct l as [| b l]; [reflexivity |].
  change (List.last (b :: l) d = List.last (b :: l) d').
  apply IH. discriminate.
Qed.

Lemma diffEach_chain (lib : GoGit.GitLib) (tos : list GoGit.Commit) :
  forall (from : GoGit.Commit) (diffs : list PerCommit.CommitDiff),
    PerCommit.diffEach lib from tos = Ok diffs ->
    length diffs = length tos
    /\ Notions.chained (PerCommit.ToInternal from) diffs
    /\ Notions.lastTo (PerCommit.ToInternal from) diffs
       = PerCommit.ToInternal (List.last tos from).
Proof.
  induction tos as [| to tos IH]; intros from diffs H.
  - injection H as <-. repeat split.
  - simpl in H. apply bind_Ok in H. destruct H as [d [Hd H]].
    apply bind_Ok in H. destruct H as [rest [Hrest H]]. injection H as <-.
    destruct (Diff_metadata lib from to d Hd) as [Hfrom Hto].
    destruct (IH to rest Hrest) as [Hlen [Hchain Hlast]].
    split; [simpl; now rewrite Hlen |]. split.
    + simpl. split; [exact Hfrom |]. rewrite Hto. exact Hchain.
    + unfold Notions.lastTo in *. simpl map.
      destruct rest as [| d' rest'].
      * destruct tos; [| discriminate]. simpl. exact Hto.
      * destruct tos as [| t' tos']; [discriminate |].
        change (List.last (PerCommit.To d :: map PerCommit.To (d' :: rest'))
                  (PerCommit.ToInternal from))
          with (List.last (map PerCommit.To (d' :: rest'))
                  (PerCommit.ToInternal from)).
        change (List.last (to :: t' :: tos') from)
          with (List.last (t' :: tos') from).
        rewrite (last_indep _ (PerCommit.ToInternal from) (PerCommit.ToInternal to))
          by discriminate.
        rewrite Hlast.
        rewrite (last_indep (t' :: tos') to from) by discriminate.
        reflexivity.
Qed.

Lemma error_eqb_eq (a b : error) : error_eqb a b = true -> a = b.
Proof.
  destruct a, b; simpl; intros H; try discriminate; try reflexivity.
  apply String.eqb_eq in H. now subst.
Qed.

(** What a result of [DiffRemote] tells of the calls made. *)
Lemma DiffRemote_Ok_inv
  (lib : GoGit.GitLib) (auth : GoGit.AuthMethod) (repo : GoGit.Repository)
  (branch : string) (diffs : list PerCommit.CommitDiff) :
  PerCommit.DiffRemote lib auth repo branch = Ok diffs ->
  exists from to cs pull,
    GitCommon.HeadCommit repo = Ok from
    /\ GitCommon.FetchLatestRemoteCommit auth repo branch = Ok to
    /\ Spec.aheadBy from to cs
    /\ PerCommit.diffEach lib from cs = Ok diffs
    /\ (GoGit.Fetch repo auth = None
        \/ GoGit.Fetch repo auth = Some NoErrAlreadyUpToDate)
    /\ GoGit.Worktree repo = Ok pull
    /\ pull {| GoGit.SingleBranch := true;
               GoGit.PullReferenceName := GoGit.NewBranchReferenceName branch;
               GoGit.PullAuth := auth |} = None.
Proof.
  unfold PerCommit.DiffRemote. intros H.
  apply bind_Ok in H. destruct H as [u [Hfetch H]].
  apply bind_Ok in H. destruct H as [h [Hhead H]].
  apply bind_Ok in H. destruct H as [to [Hrem H]].
  apply bind_Ok in H. destruct H as [from [Hcur H]].
  apply bind_Ok in H. destruct H as [commits [Hlist H]].
  apply bind_Ok in H. destruct H as [ds [Heach H]].
  apply bind_Ok in H. destruct H as [pull [Hwt H]].
  apply bind_Ok in H. destruct H as [u' [Hpull H]].
  injection H as <-.
  destruct (listCommits_sound from to commits Hlist) as [cs [-> Hahead]].
  exists from, to, cs, pull. repeat split; try assumption.
  - unfold GitCommon.HeadCommit. rewrite Hhead. exact Hcur.
  - destruct (GoGit.Fetch repo auth) as [e |]; [| left; reflexivity].
    right. destruct (error_eqb e NoErrAlreadyUpToDate) eqn:He;
      [| discriminate].
    apply error_eqb_eq in He. now subst.
  - destruct (pull _); [discriminate | reflexivity].
Qed.

Lemma aheadBy_last (from to : GoGit.Commit) (cs : list GoGit.Commit) :
  Spec.aheadBy from to cs -> cs <> [] -> List.last cs from = to.
Proof.
  intros [base [rest [Hfp _]]] Hne.
  destruct (firstParents_head to) as [r Hr]. rewrite Hr in Hfp.
  destruct (rev cs) as [| x xs] eqn:Hrev.
  - apply (f_equal (@rev _)) in Hrev. rewrite rev_involutive in Hrev.
    simpl in Hrev. contradiction.
  - simpl in Hfp. injection Hfp as Hx _. subst x.
    apply (f_equal (@rev _)) in Hrev. rewrite rev_involutive in Hrev.
    simpl in Hrev. subst cs. apply last_last.
Qed.

(** X4. The diffs that [DiffRemote] returns follow one another without
    gap or overlap: the first begins at the local head commit, each next
    one begins at the commit where the one before ends, and the last ends
    at the remote head commit. *)
Theorem DiffRemote_diffs_chain
  (lib : GoGit.GitLib) (auth : GoGit.AuthMethod) (repo : GoGit.Repository)
  (branch : string) (diffs : list PerCommit.CommitDiff) :
  PerCommit.DiffRemote lib auth repo branch = Ok diffs ->
  exists from to,
    GitCommon.HeadCommit repo = Ok from
    /\ GitCommon.FetchLatestRemoteCommit auth repo branch = Ok to
    /\ Notions.chained (PerCommit.ToInternal from) diffs
    /\ (diffs <> [] ->
        Notions.lastTo (PerCommit.ToInternal from) diffs
        = PerCommit.ToInternal to).
Proof.
  intros H.
  destruct (DiffRemote_Ok_inv lib auth repo branch diffs H)
    as [from [to [cs [pull [Hhead [Hrem [Hahead [Heach _]]]]]]]].
  destruct (diffEach_chain lib cs from diffs Heach) as [Hlen [Hchain Hlast]].
  exists from, to. repeat split; try assumption.
  intros Hne. rewrite Hlast. f_equal. apply aheadBy_last; [exact Hahead |].
  intros ->. destruct diffs; [contradiction | discriminate].
Qed.

Lemma DiffRemote_diffs_chain_witness :
  exists from to,
    GitCommon.HeadCommit Scenario.behind = Ok from
    /\ GitCommon.FetchLatestRemoteCommit Scenario.basic Scenario.behind "master"
       = Ok to
    /\ Notions.chained (PerCommit.ToInternal from)
         [ {| PerCommit.Changes := [Scenario.change "f1" ChangeTypeCreate];
              PerCommit.From := PerCommit.ToInternal Scenario.cA;
              PerCommit.To := PerCommit.ToInternal Scenario.cB |};
           {| PerCommit.Changes := [Scenario.change "f2" ChangeTypeUpdate];
              PerCommit.From := PerCommit.ToInternal Scenario.cB;
              PerCommit.To := PerCommit.ToInternal Scenario.cC |} ]
    /\ ([ {| PerCommit.Changes := [Scenario.change "f1" ChangeTypeCreate];
             PerCommit.From := PerCommit.ToInternal Scenario.cA;
             PerCommit.To := PerCommit.ToInternal Scenario.cB |};
          {| PerCommit.Changes := [Scenario.change "f2" ChangeTypeUpdate];
             PerCommit.From := PerCommit.ToInternal Scenario.cB;
             PerCommit.To := PerCommit.ToInternal Scenario.cC |} ] <> [] ->
        Notions.lastTo (PerCommit.ToInternal from)
          [ {| PerCommit.Changes := [Scenario.change "f1" ChangeTypeCreate];
               PerCommit.From := PerCommit.ToInternal Scenario.cA;
               PerCommit.To := PerCommit.ToInternal Scenario.cB |};
            {| PerCommit.Changes := [Scenario.change "f2" ChangeTypeUpdate];
               PerCommit.From := PerCommit.ToInternal Scenario.cB;
               PerCommit.To := PerCommit.ToInternal Scenario.cC |} ]
        = PerCommit.ToInternal to).
Proof.
  apply (DiffRemote_diffs_chain Scenario.lib Scenario.basic Scenario.behind
           "master").
  reflexivity.
Defined.

(** X5. Whenever [DiffRemote] returns, the remote head is ahead of the
    local head by some commits along first-parent ancestry and the result
    has one diff per commit ahead; the fetch of that tick answered nil or
    already-up-to-date and the pull answered nil. *)
Theorem DiffRemote_Ok_counts_ancestry
  (lib : GoGit.GitLib) (auth : GoGit.AuthMethod) (repo : GoGit.Repository)
  (branch : string) (diffs : list PerCommit.CommitDiff) :
  PerCommit.DiffRemote lib auth repo branch = Ok diffs ->
  exists from to cs pull,
    GitCommon.HeadCommit repo = Ok from
    /\ GitCommon.FetchLatestRemoteCommit auth repo branch = Ok to
    /\ Spec.aheadBy from to cs
    /\ length diffs = length cs
    /\ (GoGit.Fetch repo auth = None
        \/ GoGit.Fetch repo auth = Some NoErrAlreadyUpToDate)
    /\ GoGit.Worktree repo = Ok pull
    /\ pull {| GoGit.SingleBranch := true;
               GoGit.PullReferenceName := GoGit.NewBranchReferenceName branch;
               GoGit.PullAuth := auth |} = None.
Proof.
  intros H.
  destruct (DiffRemote_Ok_inv lib auth repo branch diffs H)
    as [from [to [cs [pull [Hhead [Hrem [Hahead [Heach [Hf [Hwt Hp]]]]]]]]]].
  destruct (diffEach_chain lib cs from diffs Heach) as [Hlen _].
  exists from, to, cs, pull. repeat split; assumption.
Qed.

Lemma DiffRemote_Ok_counts_ancestry_witness :
  exists from to cs pull,
    GitCommon.HeadCommit Scenario.behind = Ok from
    /\ GitCommon.FetchLatestRemoteCommit Scenario.basic Scenario.behind "master"
       = Ok to
    /\ Spec.aheadBy from to cs
    /\ length
         [ {| PerCommit.Changes := [Scenario.change "f1" ChangeTypeCreate];
              PerCommit.From := PerCommit.ToInternal Scenario.cA;
              PerCommit.To := PerCommit.ToInternal Scenario.cB |};
           {| PerCommit.Changes := [Scenario.change "f2" ChangeTypeUpdate];
              PerCommit.From := PerCommit.ToInternal Scenario.cB;
              PerCommit.To := PerCommit.ToInternal Scenario.cC |} ]
       = length cs
    /\ (GoGit.Fetch Scenario.behind Scenario.basic = None
        \/ GoGit.Fetch Scenario.behind Scenario.basic
           = Some NoErrAlreadyUpToDate)
    /\ GoGit.Worktree Scenario.behind = Ok pull
    /\ pull {| GoGit.SingleBranch := true;
               GoGit.PullReferenceName := GoGit.NewBranchReferenceName "master";
               GoGit.PullAuth := Scenario.basic |} = None.
Proof.
  apply (DiffRemote_Ok_counts_ancestry Scenario.lib Scenario.basic
           Scenario.behind "master").
  reflexivity.
Defined.

(** ** [FetchLatestRemoteCommit] *)

Lemma findBranch_first_match (repo : GoGit.Repository) (branchRef : string)
  (pre : list GoGit.Reference) :
  forall (r : GoGit.Reference) (post : list GoGit.Reference),
    Forall (fun v => GoGit.RefName v <> branchRef) pre ->
    GoGit.RefName r = branchRef ->
    GitCommon.findBranch repo branchRef (pre ++ r :: post)
    = GoGit.CommitObject repo (GoGit.RefHash r).
Proof.
  induction pre as [| v pre IH]; intros r post Hpre Hr.
  - simpl. rewrite Hr, String.eqb_refl. reflexivity.
  - inversion Hpre as [| ? ? Hv Hrest]; subst. simpl.
    apply String.eqb_neq in Hv. rewrite Hv. apply IH; [exact Hrest | reflexivity].
Qed.

Lemma findBranch_none (repo : GoGit.Repository) (branchRef : string)
  (rfs : list GoGit.Reference) :
  Forall (fun v => GoGit.RefName v <> branchRef) rfs ->
  GitCommon.findBranch repo branchRef rfs = Err ErrRefNotFound.
Proof.
  induction rfs as [| v rfs IH]; intros H; [reflexivity |].
  inversion H as [| ? ? Hv Hrest]; subst. simpl.
  apply String.eqb_neq in Hv. rewrite Hv. exact (IH Hrest).
Qed.

(** X6. [FetchLatestRemoteCommit] answers with the commit of the first
    reference listed by the remote [origin] whose name is
    [refs/heads/<branch>]: references before it with other names are passed
    over, references after it are not looked at, and an error of the
    commit lookup is the error returned. *)
Theorem FetchLatestRemoteCommit_first_match
  (auth : GoGit.AuthMethod) (repo : GoGit.Repository) (branch : string)
  (refs : GoGit.AuthMethod -> outcome (list GoGit.Reference))
  (pre post : list GoGit.Reference) (r : GoGit.Reference) :
  GoGit.Remote repo "origin" = Ok refs ->
  refs auth = Ok (pre ++ r :: post) ->
  Forall (fun v => GoGit.RefName v <> ("refs/heads/" ++ branch)%string) pre ->
  GoGit.RefName r = ("refs/heads/" ++ branch)%string ->
  GitCommon.FetchLatestRemoteCommit auth repo branch
  = GoGit.CommitObject repo (GoGit.RefHash r).
Proof.
  intros Hrem Hlist Hpre Hr. unfold GitCommon.FetchLatestRemoteCommit.
  unfold remoteName. rewrite Hrem. simpl. rewrite Hlist. simpl.
  apply findBranch_first_match; assumption.
Qed.

Lemma FetchLatestRemoteCommit_first_match_witness :
  GitCommon.FetchLatestRemoteCommit Scenario.basic Scenario.behind "master"
  = GoGit.CommitObject Scenario.behind "C".
Proof.
  apply (FetchLatestRemoteCommit_first_match Scenario.basic Scenario.behind
           "master"
           (fun _ => Ok [ {| GoGit.RefName := "refs/heads/dev";
                             GoGit.RefHash := "B" |};
                          {| GoGit.RefName := "refs/heads/master";
                             GoGit.RefHash := "C" |} ])
           [ {| GoGit.RefName := "refs/heads/dev"; GoGit.RefHash := "B" |} ]
           []
           {| GoGit.RefName := "refs/heads/master"; GoGit.RefHash := "C" |}).
  - reflexivity.
  - reflexivity.
  - repeat constructor. simpl. discriminate.
  - reflexivity.
Defined.

(** X7. When the remote lists no reference named [refs/heads/<branch>],
    [FetchLatestRemoteCommit] returns the error "commit for ref could not
    be found", and so do both revisions of [DiffRemote] after a fetch that
    passed. *)
Theorem FetchLatestRemoteCommit_not_found
  (lib : GoGit.GitLib) (auth : GoGit.AuthMethod) (repo : GoGit.Repository)
  (branch h : string)
  (refs : GoGit.AuthMethod -> outcome (list GoGit.Reference))
  (rfs : list GoGit.Reference) :
  GoGit.Remote repo "origin" = Ok refs ->
  refs auth = Ok rfs ->
  Forall (fun v => GoGit.RefName v <> ("refs/heads/" ++ branch)%string) rfs ->
  GoGit.Fetch repo auth = None ->
  GoGit.Head repo = Ok h ->
  GitCommon.FetchLatestRemoteCommit auth repo branch = Err ErrRefNotFound
  /\ PerCommit.DiffRemote lib auth repo branch = Err ErrRefNotFound
  /\ FullRange.DiffRemote lib auth repo branch = Err ErrRefNotFound.
Proof.
  intros Hrem Hlist Hnone Hfetch Hhead.
  assert (Hf : GitCommon.FetchLatestRemoteCommit auth repo branch
               = Err ErrRefNotFound).
  { unfold GitCommon.FetchLatestRemoteCommit, remoteName.
    rewrite Hrem. simpl. rewrite Hlist. simpl.
    apply findBranch_none. exact Hnone. }
  repeat split.
  - exact Hf.
  - unfold PerCommit.DiffRemote. rewrite Hfetch. simpl. rewrite Hhead. simpl.
    rewrite Hf. reflexivity.
  - unfold FullRange.DiffRemote. rewrite Hfetch. simpl. rewrite Hhead. simpl.
    rewrite Hf. reflexivity.
Qed.

Lemma FetchLatestRemoteCommit_not_found_witness :
  GitCommon.FetchLatestRemoteCommit Scenario.basic Scenario.behind "release"
  = Err ErrRefNotFound
  /\ PerCommit.DiffRemote Scenario.lib Scenario.basic Scenario.behind "release"
     = Err ErrRefNotFound
  /\ FullRange.DiffRemote Scenario.lib Scenario.basic Scenario.behind "release"
     = Err ErrRefNotFound.
Proof.
  apply (FetchLatestRemoteCommit_not_found Scenario.lib Scenario.basic
           Scenario.behind "release" "A"
           (fun _ => Ok [ {| GoGit.RefName := "refs/heads/dev";
                             GoGit.RefHash := "B" |};
                          {| GoGit.RefName := "refs/heads/master";
                             GoGit.RefHash := "C" |} ])
           [ {| GoGit.RefName := "refs/heads/dev"; GoGit.RefHash := "B" |};
             {| GoGit.RefName := "refs/heads/master"; GoGit.RefHash := "C" |} ]).
  - reflexivity.
  - reflexivity.
  - repeat constructor; simpl; discriminate.
  - reflexivity.
  - reflexivity.
Defined.

Lemma DiffRemote_pull_error_witness :
  PerCommit.DiffRemote Scenario.lib Scenario.basic
    (Scenario.repoAt (GoGit.OnDisk "/srv/repo") "A" "C" None
       (Some (ErrOther "worktree contains unstaged changes")))
    "master"
  = Err (ErrOther "worktree contains unstaged changes").
Proof.
  apply (DiffRemote_pull_error Scenario.lib Scenario.basic
           (Scenario.repoAt (GoGit.OnDisk "/srv/repo") "A" "C" None
              (Some (ErrOther "worktree contains unstaged changes")))
           "master" "A" Scenario.cA Scenario.cC [Scenario.cB; Scenario.cC]
           (fun _ => Some (ErrOther "worktree contains unstaged changes"))).
  - left. reflexivity.
  - reflexivity.
  - reflexivity.
  - reflexivity.
  - exists Scenario.cA, []. split; [reflexivity | split; [reflexivity |]].
    repeat constructor; simpl; discriminate.
  - repeat constructor.
  - reflexivity.
  - reflexivity.
Defined.

(** ** The loop over the tree diff *)

Lemma rangeDiffs_length (ds : list GoGit.Change) :
  forall changes : list FileChange,
    GitCommon.rangeDiffs ds = Ok changes -> length changes = length ds.
Proof.
  induction ds as [| d ds IH]; intros changes H.
  - injection H as <-. reflexivity.
  - simpl in H. apply bind_Ok in H. destruct H as [a [_ H]].
    apply bind_Ok in H. destruct H as [rest [Hrest H]].
    injection H as <-. simpl. now rewrite (IH rest Hrest).
Qed.

(** X8. The loop over a tree diff fails exactly when an entry of the diff
    is empty on both sides, and then with the error of [Action]; otherwise
    it returns one change per entry.  It never panics. *)
Theorem rangeDiffs_fails_iff_malformed (ds : list GoGit.Change) :
  (existsb Notions.malformed ds = true ->
   GitCommon.rangeDiffs ds = Err ErrMalformedChange)
  /\ (existsb Notions.malformed ds = false ->
      exists changes,
        GitCommon.rangeDiffs ds = Ok changes
        /\ length changes = length ds).
Proof.
  induction ds as [| d ds [IHbad IHgood]]; split; intros H.
  - discriminate.
  - exists []. split; reflexivity.
  - simpl in H. simpl. unfold GoGit.ActionOf.
    unfold Notions.malformed in H at 1.
    destruct (GoGit.isEmpty (GoGit.From d) && GoGit.isEmpty (GoGit.To d))
      eqn:Hd; [reflexivity |].
    simpl in H. rewrite (IHbad H).
    destruct (GoGit.isEmpty (GoGit.From d));
      [| destruct (GoGit.isEmpty (GoGit.To d))]; reflexivity.
  - simpl in H. apply orb_false_elim in H. destruct H as [Hd Hrest].
    destruct (IHgood Hrest) as [changes [Hchanges Hlen]].
    unfold Notions.malformed in Hd.
    simpl. unfold GoGit.ActionOf. rewrite Hd.
    destruct (GoGit.isEmpty (GoGit.From d));
      [| destruct (GoGit.isEmpty (GoGit.To d))];
      simpl; rewrite Hchanges; simpl; eexists;
      (split; [reflexivity | simpl; now rewrite Hlen]).
Qed.

(** ** [DiffRemote] of [src/git.go] *)

Lemma reach_not_found (h : string) :
  forall c : GoGit.Commit,
    Forall (fun a => GoGit.Hash a <> h) (tl (Spec.firstParents c)) ->
    FullRange.reach h c = Err EOF.
Proof.
  fix IH 1. intros c Hall.
  destruct c as [hc a m t ps]. simpl in Hall. simpl.
  destruct ps as [| p ps']; [reflexivity |].
  destruct (firstParents_head p) as [rest Hrest].
  rewrite Hrest in Hall. inversion Hall as [| ? ? Hne Hall']; subst.
  apply String.eqb_neq in Hne. rewrite Hne. simpl.
  apply IH. rewrite Hrest. simpl. exact Hall'.
Qed.

Lemma reach_sound (h : string) :
  forall c : GoGit.Commit,
    FullRange.reach h c = Ok tt ->
    Exists (fun a => GoGit.Hash a = h) (tl (Spec.firstParents c)).
Proof.
  fix IH 1. intros c H.
  destruct c as [hc a m t ps]. simpl in H. simpl.
  destruct ps as [| p ps']; [discriminate |].
  destruct (firstParents_head p) as [rest Hrest]. rewrite Hrest.
  destruct (String.eqb (GoGit.Hash p) h) eqn:Heq; simpl in H.
  - apply Exists_cons_hd. apply String.eqb_eq. exact Heq.
  - apply Exists_cons_tl. specialize (IH p H). rewrite Hrest in IH.
    exact IH.
Qed.

(** X9. In the revision of [src/git.go], a poll with nothing new never
    returns a result: when no commit strictly behind the remote head on its
    first-parent ancestry has the hash of the local head, as when the two
    heads are the same commit, [DiffRemote] ends in an error whatever the
    fetch, the trees and the pull answer. *)
Theorem FullRange_DiffRemote_nothing_new_fails
  (lib : GoGit.GitLib) (auth : GoGit.AuthMethod) (repo : GoGit.Repository)
  (branch h : string) (cur rem : GoGit.Commit) :
  GoGit.Head repo = Ok h ->
  GoGit.CommitObject repo h = Ok cur ->
  GitCommon.FetchLatestRemoteCommit auth repo branch = Ok rem ->
  Forall (fun a => GoGit.Hash a <> GoGit.Hash cur) (tl (Spec.firstParents rem)) ->
  returned (FullRange.DiffRemote lib auth repo branch) = None.
Proof.
  intros Hhead Hcur Hrem Hnone. unfold FullRange.DiffRemote.
  destruct (check (GoGit.Fetch repo auth)); simpl; try reflexivity.
  rewrite Hhead. simpl. rewrite Hrem. simpl. rewrite Hcur. simpl.
  destruct (GoGit.TreeOf rem); simpl; try reflexivity.
  destruct (GoGit.TreeOf cur); simpl; try reflexivity.
  destruct (GoGit.TreeDiff lib _ _); simpl; try reflexivity.
  rewrite (reach_not_found (GoGit.Hash cur) rem Hnone). reflexivity.
Qed.

Lemma FullRange_DiffRemote_nothing_new_fails_witness :
  returned (FullRange.DiffRemote Scenario.lib Scenario.basic
              (Scenario.repoAt (GoGit.OnDisk "/srv/repo") "C" "C" None None)
              "master") = None.
Proof.
  apply (FullRange_DiffRemote_nothing_new_fails Scenario.lib Scenario.basic
           (Scenario.repoAt (GoGit.OnDisk "/srv/repo") "C" "C" None None)
           "master" "C" Scenario.cC Scenario.cC).
  - reflexivity.
  - reflexivity.
  - reflexivity.
  - repeat constructor; simpl; discriminate.
Defined.

(** X10. In the revision of [src/git.go], however many commits the remote
    head is ahead, a result of [DiffRemote] is one bundle: its changes are
    those of the one tree diff from the tree of the local head to the tree
    of the remote head, one per entry, its [Sha] is empty and its [When] is
    the zero time; and the local head is then strictly behind the remote
    head on its first-parent ancestry. *)
Theorem FullRange_DiffRemote_single_bundle
  (lib : GoGit.GitLib) (auth : GoGit.AuthMethod) (repo : GoGit.Repository)
  (branch : string) (result : list FullRange.Commit) :
  FullRange.DiffRemote lib auth repo branch = Ok result ->
  exists cur rem curTree remTree ds changes,
    GitCommon.HeadCommit repo = Ok cur
    /\ GitCommon.FetchLatestRemoteCommit auth repo branch = Ok rem
    /\ GoGit.TreeOf cur = Ok curTree
    /\ GoGit.TreeOf rem = Ok remTree
    /\ GoGit.TreeDiff lib curTree remTree = Ok ds
    /\ GitCommon.rangeDiffs ds = Ok changes
    /\ length changes = length ds
    /\ result = [ {| FullRange.Changes := changes; FullRange.Sha := "";
                     FullRange.When := 0%Z |} ]
    /\ Exists (fun a => GoGit.Hash a = GoGit.Hash cur)
              (tl (Spec.firstParents rem)).
Proof.
  unfold FullRange.DiffRemote. intros H.
  apply bind_Ok in H. destruct H as [u [_ H]].
  apply bind_Ok in H. destruct H as [h [Hhead H]].
  apply bind_Ok in H. destruct H as [rem [Hrem H]].
  apply bind_Ok in H. destruct H as [cur [Hcur H]].
  apply bind_Ok in H. destruct H as [remTree [HremTree H]].
  apply bind_Ok in H. destruct H as [curTree [HcurTree H]].
  apply bind_Ok in H. destruct H as [ds [Hds H]].
  apply bind_Ok in H. destruct H as [[] [Hreach H]].
  apply bind_Ok in H. destruct H as [changes [Hchanges H]].
  apply bind_Ok in H. destruct H as [pull [_ H]].
  apply bind_Ok in H. destruct H as [u' [_ H]].
  injection H as <-.
  exists cur, rem, curTree, remTree, ds, changes.
  repeat split; try assumption; try reflexivity.
  - unfold GitCommon.HeadCommit. rewrite Hhead. exact Hcur.
  - exact (rangeDiffs_length ds changes Hchanges).
  - exact (reach_sound _ _ Hreach).
Qed.

Lemma FullRange_DiffRemote_single_bundle_witness :
  exists cur rem curTree remTree ds changes,
    GitCommon.HeadCommit Scenario.behind = Ok cur
    /\ GitCommon.FetchLatestRemoteCommit Scenario.basic Scenario.behind "master"
       = Ok rem
    /\ GoGit.TreeOf cur = Ok curTree
    /\ GoGit.TreeOf rem = Ok remTree
    /\ GoGit.TreeDiff Scenario.lib curTree remTree = Ok ds
    /\ GitCommon.rangeDiffs ds = Ok changes
    /\ length changes = length ds
    /\ [ {| FullRange.Changes := [Scenario.change "f1" ChangeTypeCreate;
                                  Scenario.change "f2" ChangeTypeUpdate];
            FullRange.Sha := ""; FullRange.When := 0%Z |} ]
       = [ {| FullRange.Changes := changes; FullRange.Sha := "";
              FullRange.When := 0%Z |} ]
    /\ Exists (fun a => GoGit.Hash a = GoGit.Hash cur)
              (tl (Spec.firstParents rem)).
Proof.
  apply (FullRange_DiffRemote_single_bundle Scenario.lib Scenario.basic
           Scenario.behind "master").
  reflexivity.
Defined.

(** ** [Poll] *)

Lemma Poll_no_filter_witness :
  Gpoll.Poll
    (Scenario.pollerOf
       (Scenario.pollConfig Scenario.passwordAuth "/srv/repo" None None)
       (Scenario.fixedGit
          (Ok [Scenario.commitOf "B"
                 [Scenario.change "main.go" ChangeTypeUpdate;
                  Scenario.change "a" ChangeTypeCreate]])))
  = Ok [ {| FullRange.Changes :=
              [Scenario.change "/srv/repo/main.go" ChangeTypeUpdate;
               Scenario.change "/srv/repo/a" ChangeTypeCreate];
            FullRange.Sha := "B"; FullRange.When := 7%Z |} ].
Proof.
  apply (Poll_no_filter
           (Scenario.pollerOf
              (Scenario.pollConfig Scenario.passwordAuth "/srv/repo" None None)
              (Scenario.fixedGit
                 (Ok [Scenario.commitOf "B"
                        [Scenario.change "main.go" ChangeTypeUpdate;
                         Scenario.change "a" ChangeTypeCreate]])))
           [Scenario.commitOf "B"
              [Scenario.change "main.go" ChangeTypeUpdate;
               Scenario.change "a" ChangeTypeCreate]]).
  - reflexivity.
  - reflexivity.
Defined.

Lemma rangeCommits_filter_good (cfg : Gpoll.PollConfig)
  (flt : FileChange -> bool) (changes : list FullRange.Commit) :
  Gpoll.FileChangeFilter cfg = Some flt ->
  Forall (fun c => ~ Spec.overruns flt c) changes ->
  Gpoll.rangeCommits cfg changes = Ok changes.
Proof.
  intros Hflt. induction changes as [| c changes IH]; intros Hall.
  - reflexivity.
  - inversion Hall as [| ? ? Hc Hrest]; subst. simpl.
    rewrite (rangeChange_filter cfg flt c Hflt).
    unfold Spec.overruns in Hc.
    destruct (FullRange.Changes c) as [| x [| y l]].
    + simpl. rewrite (IH Hrest). reflexivity.
    + destruct (flt x); [| congruence]. simpl. rewrite (IH Hrest).
      reflexivity.
    + exfalso. apply Hc. exact I.
Qed.

(** X12. With a filter configured, [Poll] has two outcomes.  If some
    commit of the diff has two changes or more, or one change that the
    filter rejects, it panics with an index out of range.  Otherwise it
    returns the diff as [DiffRemote] gave it: no change is dropped and no
    path is put under the clone directory. *)
Theorem Poll_filter_outcome (p : Gpoll.poller) (flt : FileChange -> bool)
  (changes : list FullRange.Commit) :
  Gpoll.FileChangeFilter (Gpoll.config p) = Some flt ->
  Gpoll.DiffRemote (Gpoll.git p) (Gpoll.repo p)
    (Branch (Gpoll.Git (Gpoll.config p))) = Ok changes ->
  (Exists (Spec.overruns flt) changes ->
   Gpoll.Poll p = Panic "index out of range")
  /\ (Forall (fun c => ~ Spec.overruns flt c) changes ->
      Gpoll.Poll p = Ok changes).
Proof.
  intros Hflt Hdiff. rewrite (Poll_unfold p changes Hdiff). split.
  - exact (rangeCommits_filter_overrun (Gpoll.config p) flt changes Hflt).
  - exact (rangeCommits_filter_good (Gpoll.config p) flt changes Hflt).
Qed.

Lemma Poll_filter_outcome_witness :
  (Exists (Spec.overruns Scenario.onlyGo) Scenario.oneChangeDiff ->
   Gpoll.Poll Scenario.filteringPoller = Panic "index out of range")
  /\ (Forall (fun c => ~ Spec.overruns Scenario.onlyGo c)
        Scenario.oneChangeDiff ->
      Gpoll.Poll Scenario.filteringPoller = Ok Scenario.oneChangeDiff).
Proof.
  apply (Poll_filter_outcome Scenario.filteringPoller Scenario.onlyGo
           Scenario.oneChangeDiff).
  - reflexivity.
  - reflexivity.
Defined.

Lemma NewPoller_Ok_git (host : Host) (lib : GoGit.GitLib)
  (validate : Gpoll.PollConfig -> option error) (config : Gpoll.PollConfig)
  (p : Gpoll.poller) :
  Gpoll.NewPoller host lib validate config = Ok p ->
  exists auth,
    Auth.toAuthMethod host (Auth (Gpoll.Git config)) = Ok auth
    /\ Gpoll.git p = Gpoll.gitImpl lib auth
    /\ Gpoll.repo p = None.
Proof.
  intros H. destruct (NewPoller_Ok_auth host lib validate config p H)
    as [Hauth Hrepo].
  unfold Gpoll.NewPoller in H.
  apply bind_Ok in H. destruct H as [c [Hc H]].
  apply bind_Ok in H. destruct H as [u [_ H]].
  apply bind_Ok in H. destruct H as [g [Hg H]].
  injection H as <-. simpl in *. unfold Gpoll.newGit in Hg. rewrite Hauth in Hg.
  apply bind_Ok in Hg. destruct Hg as [auth [Ha Hg]]. injection Hg as <-.
  exists auth. repeat split. exact Ha.
Qed.

(** X13. [Poll] on a poller as [NewPoller] returns it, before [Start] or
    [StartAsync] has cloned, does not return an error: the repository is
    still nil and the first call on it in [DiffRemote] panics. *)
Theorem Poll_before_setup_panics (host : Host) (lib : GoGit.GitLib)
  (validate : Gpoll.PollConfig -> option error) (config : Gpoll.PollConfig)
  (p : Gpoll.poller) :
  Gpoll.NewPoller host lib validate config = Ok p ->
  Gpoll.Poll p = Panic "invalid memory address or nil pointer dereference".
Proof.
  intros H.
  destruct (NewPoller_Ok_git host lib validate config p H)
    as [auth [_ [Hgit Hrepo]]].
  unfold Gpoll.Poll. rewrite Hgit, Hrepo. reflexivity.
Qed.

Lemma Poll_before_setup_panics_witness :
  exists p,
    Gpoll.NewPoller Scenario.host Scenario.lib Gpoll.requiredTags
      Scenario.bothConfig = Ok p
    /\ Gpoll.Poll p = Panic "invalid memory address or nil pointer dereference".
Proof.
  destruct (Gpoll.NewPoller Scenario.host Scenario.lib Gpoll.requiredTags
              Scenario.bothConfig) as [p | e | msg] eqn:H.
  - exists p. split; [reflexivity |].
    exact (Poll_before_setup_panics Scenario.host Scenario.lib
             Gpoll.requiredTags Scenario.bothConfig p H).
  - vm_compute in H. discriminate.
  - vm_compute in H. discriminate.
Defined.

(** ** The loop *)


(** X17. With a filter configured, a tick whose diff has a commit of two
    changes or more, or of one rejected change, ends the loop: the panic of
    [Poll] is not caught, nothing of that tick is delivered and no later
    event is handled. *)
Theorem loop_crashes_on_filter_overrun (p : Gpoll.poller)
  (flt : FileChange -> bool) (now : GoGit.Repository)
  (changes : list FullRange.Commit) (rest : list Gpoll.event) :
  Gpoll.FileChangeFilter (Gpoll.config p) = Some flt ->
  Gpoll.DiffRemote (Gpoll.git p) (Some now)
    (Branch (Gpoll.Git (Gpoll.config p))) = Ok changes ->
  Exists (Spec.overruns flt) changes ->
  Gpoll.loop p (Gpoll.TickerC now :: rest)
  = ([], Gpoll.Crashed "index out of range").
Proof.
  intros Hflt Hdiff Hex. simpl.
  rewrite (Poll_unfold
             {| Gpoll.config := Gpoll.config p; Gpoll.git := Gpoll.git p;
                Gpoll.repo := Some now |} changes Hdiff).
  simpl.
  rewrite (rangeCommits_filter_overrun (Gpoll.config p) flt changes Hflt Hex).
  reflexivity.
Qed.

Lemma loop_crashes_on_filter_overrun_witness :
  Gpoll.loop
    (Scenario.pollerOf
       (Scenario.pollConfig Scenario.passwordAuth "/srv/repo"
          (Some Scenario.acceptAll) None)
       (Gpoll.gitImpl Scenario.lib Scenario.basic))
    (Gpoll.TickerC Scenario.behind :: [Gpoll.Closer])
  = ([], Gpoll.Crashed "index out of range").
Proof.
  apply (loop_crashes_on_filter_overrun
           (Scenario.pollerOf
              (Scenario.pollConfig Scenario.passwordAuth "/srv/repo"
                 (Some Scenario.acceptAll) None)
              (Gpoll.gitImpl Scenario.lib Scenario.basic))
           Scenario.acceptAll Scenario.behind
           [ {| FullRange.Changes := [Scenario.change "f1" ChangeTypeCreate;
                                      Scenario.change "f2" ChangeTypeUpdate];
                FullRange.Sha := ""; FullRange.When := 0%Z |} ]).
  - reflexivity.
  - reflexivity.
  - apply Exists_cons_hd. exact I.
Defined.

(** ** The walk of [onStart] *)

Section WalkResult.
Context {St : Type}.
Variable fn : string -> option error -> St -> St * option GoFilepath.walkErr.
Hypothesis fn_skips :
  forall path err s,
    snd (fn path err s) = None \/ snd (fn path err s) = Some GoFilepath.SkipDir.

(** A callback that answers nil or [SkipDir] makes the walk answer nil or
    [SkipDir]. *)
Lemma walk_skips :
  forall (node : GoFilepath.FsNode) (path : string) (s : St),
    snd (GoFilepath.walk fn path node s) = None
    \/ snd (GoFilepath.walk fn path node s) = Some GoFilepath.SkipDir.
Proof.
  fix IH 1. intros node path s.
  destruct node as [| entries | e | e]; simpl; try apply fn_skips.
  pose proof (fn_skips path None s) as H1.
  destruct (fn path None s) as [s1 err1]. simpl in H1.
  destruct err1 as [w |]; [exact H1 |]. clear H1.
  revert entries s1. fix IHe 1. intros entries s1.
  destruct entries as [| [name child] entries]; [left; reflexivity |].
  pose proof (IH child (GoPath.Join [path; name]) s1) as H2.
  pose proof (fn_skips (GoPath.Join [path; name])) as Hfn.
  destruct child as [| sub | e | e].
  - destruct (GoFilepath.walk fn (GoPath.Join [path; name])
                GoFilepath.FsFile s1) as [s2 r].
    simpl in H2. destruct r as [w |]; simpl; [exact H2 | apply IHe].
  - destruct (GoFilepath.walk fn (GoPath.Join [path; name])
                (GoFilepath.FsDir sub) s1) as [s2 r].
    simpl in H2. destruct r as [w |]; simpl; [| apply IHe].
    destruct (negb (GoFilepath.isSkipDir w)); [exact H2 | apply IHe].
  - destruct (GoFilepath.walk fn (GoPath.Join [path; name])
                (GoFilepath.FsUnreadableDir e) s1) as [s2 r].
    simpl in H2. destruct r as [w |]; simpl; [| apply IHe].
    destruct (negb (GoFilepath.isSkipDir w)); [exact H2 | apply IHe].
  - clear H2. specialize (Hfn (Some e) s1).
    destruct (fn (GoPath.Join [path; name]) (Some e) s1) as [s2 r].
    simpl in Hfn. destruct r as [w |]; [| apply IHe].
    destruct (GoFilepath.isSkipDir w); [apply IHe | exact Hfn].
Qed.

Lemma Walk_never_fails (root : string) (node : GoFilepath.FsNode) (s : St) :
  snd (GoFilepath.Walk fn root node s) = None.
Proof.
  unfold GoFilepath.Walk.
  pose proof (walk_skips node root s) as H.
  destruct (GoFilepath.walk fn root node s) as [s' r]. simpl in H.
  destruct H as [-> | ->]; reflexivity.
Qed.
End WalkResult.

Lemma walkFn_skips (gitDir path : string) (err : option error)
  (changes : list FileChange) :
  snd (Gpoll.walkFn gitDir path err changes) = None
  \/ snd (Gpoll.walkFn gitDir path err changes) = Some GoFilepath.SkipDir.
Proof.
  unfold Gpoll.walkFn. destruct err; [right; reflexivity |].
  destruct (_ || _); [right | left]; reflexivity.
Qed.

Lemma onStart_after_head (host : Host) (p : Gpoll.poller)
  (h : Gpoll.HandleCommitFunc) (commit : GoGit.Commit) :
  Gpoll.HandleCommit (Gpoll.config p) = Some h ->
  Gpoll.HeadCommit (Gpoll.git p) (Gpoll.repo p) = Ok commit ->
  exists changes,
    Gpoll.onStart host p
    = Ok [ Gpoll.CallHandleCommit
             {| FullRange.Changes := changes;
                FullRange.Sha := GoGit.Hash commit;
                FullRange.When := UTC (GoGit.When (GoGit.Author commit)) |} ]
    /\ Forall (fun c => changeType c = ChangeTypeInit) changes.
Proof.
  intros Hh Hhead.
  assert (Hok : exists effs, Gpoll.onStart host p = Ok effs).
  { unfold Gpoll.onStart. rewrite Hh, Hhead. simpl.
    pose proof (Walk_never_fails (Gpoll.walkFn (GoPath.Join ["*"; ".git"]))
                  (walkFn_skips (GoPath.Join ["*"; ".git"]))
                  (CloneDirectory (Gpoll.Git (Gpoll.config p)))
                  (Lstat host (CloneDirectory (Gpoll.Git (Gpoll.config p))))
                  []) as Hwalk.
    destruct (GoFilepath.Walk _ _ _ _) as [changes err]. simpl in Hwalk.
    subst err. simpl. eexists. reflexivity. }
  destruct Hok as [effs Heffs].
  destruct (onStart_with_handler host p h effs Hh Heffs)
    as [commit' [changes [Hc [-> Hinit]]]].
  rewrite Hhead in Hc. injection Hc as <-.
  exists changes. split; assumption.
Qed.

Lemma onStart_head_error (host : Host) (p : Gpoll.poller)
  (h : Gpoll.HandleCommitFunc) (e : error) :
  Gpoll.HandleCommit (Gpoll.config p) = Some h ->
  Gpoll.HeadCommit (Gpoll.git p) (Gpoll.repo p) = Err e ->
  Gpoll.onStart host p = Err e.
Proof. intros Hh Hhead. unfold Gpoll.onStart. rewrite Hh, Hhead. reflexivity. Qed.

(** X18. With a handler configured, [onStart] fails only when the head
    commit cannot be resolved.  Whatever the walk of the clone directory
    meets (entries that cannot be read, directories that cannot be
    listed), once the head commit is known [onStart] returns nil after one
    call of the handler, with a commit that has the hash and the author
    time of the head and changes all of type Init. *)
Theorem onStart_fails_only_on_head (host : Host) (p : Gpoll.poller)
  (h : Gpoll.HandleCommitFunc) :
  Gpoll.HandleCommit (Gpoll.config p) = Some h ->
  match Gpoll.HeadCommit (Gpoll.git p) (Gpoll.repo p) with
  | Ok commit =>
      exists changes,
        Gpoll.onStart host p
        = Ok [ Gpoll.CallHandleCommit
                 {| FullRange.Changes := changes;
                    FullRange.Sha := GoGit.Hash commit;
                    FullRange.When := UTC (GoGit.When (GoGit.Author commit)) |} ]
        /\ Forall (fun c => changeType c = ChangeTypeInit) changes
  | Err e => Gpoll.onStart host p = Err e
  | Panic msg => Gpoll.onStart host p = Panic msg
  end.
Proof.
  intros Hh.
  destruct (Gpoll.HeadCommit (Gpoll.git p) (Gpoll.repo p))
    as [commit | e | msg] eqn:Hhead.
  - exact (onStart_after_head host p h commit Hh Hhead).
  - exact (onStart_head_error host p h e Hh Hhead).
  - unfold Gpoll.onStart. rewrite Hh, Hhead. reflexivity.
Qed.

Lemma onStart_fails_only_on_head_witness :
  match Gpoll.HeadCommit (Gpoll.git Scenario.handlingPoller)
          (Gpoll.repo Scenario.handlingPoller) with
  | Ok commit =>
      exists changes,
        Gpoll.onStart Scenario.host Scenario.handlingPoller
        = Ok [ Gpoll.CallHandleCommit
                 {| FullRange.Changes := changes;
                    FullRange.Sha := GoGit.Hash commit;
                    FullRange.When := UTC (GoGit.When (GoGit.Author commit)) |} ]
        /\ Forall (fun c => changeType c = ChangeTypeInit) changes
  | Err e => Gpoll.onStart Scenario.host Scenario.handlingPoller = Err e
  | Panic msg => Gpoll.onStart Scenario.host Scenario.handlingPoller = Panic msg
  end.
Proof.
  apply (onStart_fails_only_on_head Scenario.host Scenario.handlingPoller
           Scenario.handler).
  reflexivity.
Defined.

(** ** [setup] and [Start] *)

(** X19. When [setup] succeeds, the interval is positive, the repository
    of the poller is the one [Clone] returned and the effects are, in this
    order: the one call of the handler with the Init commit of the head,
    when a handler is configured and only then; and the making of the
    ticker with the configured interval.  Nothing is sent on the channel
    during setup. *)
Theorem setup_effects_order (host : Host) (p p' : Gpoll.poller)
  (effs : list Gpoll.effect) :
  Gpoll.setup host p = (effs, Ok p') ->
  exists repo init,
    Gpoll.Clone (Gpoll.git p) (Remote (Gpoll.Git (Gpoll.config p)))
      (Branch (Gpoll.Git (Gpoll.config p)))
      (CloneDirectory (Gpoll.Git (Gpoll.config p))) = Ok repo
    /\ p' = {| Gpoll.config := Gpoll.config p; Gpoll.git := Gpoll.git p;
               Gpoll.repo := Some repo |}
    /\ (0 < Gpoll.Interval (Gpoll.config p))%Z
    /\ effs = init ++ [Gpoll.NewTicker (Gpoll.Interval (Gpoll.config p))]
    /\ Notions.sent effs = []
    /\ (Gpoll.HandleCommit (Gpoll.config p) = None -> init = [])
    /\ (forall h,
           Gpoll.HandleCommit (Gpoll.config p) = Some h ->
           exists commit changes,
             Gpoll.HeadCommit (Gpoll.git p) (Some repo) = Ok commit
             /\ init = [ Gpoll.CallHandleCommit
                           {| FullRange.Changes := changes;
                              FullRange.Sha := GoGit.Hash commit;
                              FullRange.When :=
                                UTC (GoGit.When (GoGit.Author commit)) |} ]
             /\ Forall (fun c => changeType c = ChangeTypeInit) changes).
Proof.
  unfold Gpoll.setup. intros H.
  destruct (Gpoll.Clone _ _ _ _) as [repo | e | msg] eqn:Hclone;
    try discriminate.
  destruct (Gpoll.onStart host _) as [init | e | msg] eqn:Hinit;
    try discriminate.
  simpl in H.
  destruct (Z.leb_spec (Gpoll.Interval (Gpoll.config p)) 0) as [Hle | Hlt];
    [discriminate |].
  injection H as <- <-. exists repo, init.
  split; [reflexivity |]. split; [reflexivity |]. split; [exact Hlt |].
  split; [reflexivity |].
  assert (Hcases :
    (Gpoll.HandleCommit (Gpoll.config p) = None -> init = [])
    /\ (forall h,
           Gpoll.HandleCommit (Gpoll.config p) = Some h ->
           exists commit changes,
             Gpoll.HeadCommit (Gpoll.git p) (Some repo) = Ok commit
             /\ init = [ Gpoll.CallHandleCommit
                           {| FullRange.Changes := changes;
                              FullRange.Sha := GoGit.Hash commit;
                              FullRange.When :=
                                UTC (GoGit.When (GoGit.Author commit)) |} ]
             /\ Forall (fun c => changeType c = ChangeTypeInit) changes)).
  { split.
    - intros Hnone.
      pose proof (onStart_without_handler host
                    {| Gpoll.config := Gpoll.config p; Gpoll.git := Gpoll.git p;
                       Gpoll.repo := Some repo |} Hnone) as Hno.
      rewrite Hno in Hinit. now injection Hinit as <-.
    - intros h Hh.
      exact (onStart_with_handler host
               {| Gpoll.config := Gpoll.config p; Gpoll.git := Gpoll.git p;
                  Gpoll.repo := Some repo |} h init Hh Hinit). }
  split; [| exact Hcases].
  destruct Hcases as [Hnone Hsome].
  destruct (Gpoll.HandleCommit (Gpoll.config p)) as [h |] eqn:Hh.
  - destruct (Hsome h eq_refl) as [commit [changes [_ [-> _]]]]. reflexivity.
  - rewrite (Hnone eq_refl). reflexivity.
Qed.

Lemma setup_effects_order_witness :
  exists repo init,
    Gpoll.Clone (Gpoll.git Runs.tickingPoller)
      (Remote (Gpoll.Git (Gpoll.config Runs.tickingPoller)))
      (Branch (Gpoll.Git (Gpoll.config Runs.tickingPoller)))
      (CloneDirectory (Gpoll.Git (Gpoll.config Runs.tickingPoller)))
    = Ok repo
    /\ {| Gpoll.config := Gpoll.config Runs.tickingPoller;
          Gpoll.git := Gpoll.git Runs.tickingPoller;
          Gpoll.repo := Some (Scenario.repoAt (GoGit.OnDisk "/srv/repo")
                                "C" "C" None None) |}
       = {| Gpoll.config := Gpoll.config Runs.tickingPoller;
            Gpoll.git := Gpoll.git Runs.tickingPoller;
            Gpoll.repo := Some repo |}
    /\ (0 < Gpoll.Interval (Gpoll.config Runs.tickingPoller))%Z
    /\ [ Gpoll.CallHandleCommit
           {| FullRange.Changes :=
                [Scenario.change "/srv/repo" ChangeTypeInit;
                 Scenario.change "/srv/repo/.git" ChangeTypeInit;
                 Scenario.change "/srv/repo/.git/HEAD" ChangeTypeInit;
                 Scenario.change "/srv/repo/.git/config" ChangeTypeInit;
                 Scenario.change "/srv/repo/README.md" ChangeTypeInit;
                 Scenario.change "/srv/repo/src" ChangeTypeInit;
                 Scenario.change "/srv/repo/src/main.go" ChangeTypeInit];
              FullRange.Sha := "C"; FullRange.When := 1000%Z |};
         Gpoll.NewTicker 30000000000 ]
       = init ++ [Gpoll.NewTicker
                    (Gpoll.Interval (Gpoll.config Runs.tickingPoller))]
    /\ Notions.sent
         [ Gpoll.CallHandleCommit
             {| FullRange.Changes :=
                  [Scenario.change "/srv/repo" ChangeTypeInit;
                   Scenario.change "/srv/repo/.git" ChangeTypeInit;
                   Scenario.change "/srv/repo/.git/HEAD" ChangeTypeInit;
                   Scenario.change "/srv/repo/.git/config" ChangeTypeInit;
                   Scenario.change "/srv/repo/README.md" ChangeTypeInit;
                   Scenario.change "/srv/repo/src" ChangeTypeInit;
                   Scenario.change "/srv/repo/src/main.go" ChangeTypeInit];
                FullRange.Sha := "C"; FullRange.When := 1000%Z |};
           Gpoll.NewTicker 30000000000 ] = []
    /\ (Gpoll.HandleCommit (Gpoll.config Runs.tickingPoller) = None ->
        init = [])
    /\ (forall h,
           Gpoll.HandleCommit (Gpoll.config Runs.tickingPoller) = Some h ->
           exists commit changes,
             Gpoll.HeadCommit (Gpoll.git Runs.tickingPoller) (Some repo)
             = Ok commit
             /\ init = [ Gpoll.CallHandleCommit
                           {| FullRange.Changes := changes;
                              FullRange.Sha := GoGit.Hash commit;
                              FullRange.When :=
                                UTC (GoGit.When (GoGit.Author commit)) |} ]
             /\ Forall (fun c => changeType c = ChangeTypeInit) changes).
Proof.
  apply (setup_effects_order Scenario.host Runs.tickingPoller).
  reflexivity.
Defined.

(** X20. [Start] returns an error in two cases only: [Clone] failed, or
    a handler is configured and the head commit of the clone could not be
    resolved.  In both, no handler call was made, no ticker was made and
    the loop was not entered. *)
Theorem Start_fails_only_on_clone_or_head (host : Host) (p : Gpoll.poller)
  (events : list Gpoll.event) (e : error) (effs : list Gpoll.effect)
  (st : option Gpoll.status) :
  Gpoll.Start host p events = (Err e, effs, st) ->
  effs = [] /\ st = None
  /\ (Gpoll.Clone (Gpoll.git p) (Remote (Gpoll.Git (Gpoll.config p)))
        (Branch (Gpoll.Git (Gpoll.config p)))
        (CloneDirectory (Gpoll.Git (Gpoll.config p))) = Err e
      \/ exists repo h,
           Gpoll.Clone (Gpoll.git p) (Remote (Gpoll.Git (Gpoll.config p)))
             (Branch (Gpoll.Git (Gpoll.config p)))
             (CloneDirectory (Gpoll.Git (Gpoll.config p))) = Ok repo
           /\ Gpoll.HandleCommit (Gpoll.config p) = Some h
           /\ Gpoll.HeadCommit (Gpoll.git p) (Some repo) = Err e).
Proof.
  unfold Gpoll.Start. intros H.
  destruct (Gpoll.setup host p) as [effs0 [p' | e0 | msg]] eqn:Hsetup.
  - destruct (Gpoll.loop p' events). discriminate.
  - injection H as <- <- <-.
    unfold Gpoll.setup in Hsetup.
    destruct (Gpoll.Clone _ _ _ _) as [repo | e1 | msg] eqn:Hclone.
    + destruct (Gpoll.HandleCommit (Gpoll.config p)) as [h |] eqn:Hh.
      * destruct (Gpoll.HeadCommit (Gpoll.git p) (Some repo))
          as [commit | e2 | msg] eqn:Hhead.
        -- destruct (onStart_after_head host
                       {| Gpoll.config := Gpoll.config p;
                          Gpoll.git := Gpoll.git p;
                          Gpoll.repo := Some repo |} h commit Hh Hhead)
             as [changes [Hon _]].
           rewrite Hon in Hsetup. simpl in Hsetup.
           destruct (Z.leb (Gpoll.Interval (Gpoll.config p)) 0); discriminate.
        -- pose proof (onStart_head_error host
                         {| Gpoll.config := Gpoll.config p;
                            Gpoll.git := Gpoll.git p;
                            Gpoll.repo := Some repo |} h e2 Hh Hhead) as Hon.
           rewrite Hon in Hsetup. injection Hsetup as <- <-.
           repeat split. right. exists repo, h. repeat split. exact Hhead.
        -- unfold Gpoll.onStart in Hsetup. simpl in Hsetup.
           rewrite Hh, Hhead in Hsetup. discriminate.
      * pose proof (onStart_without_handler host
                      {| Gpoll.config := Gpoll.config p;
                         Gpoll.git := Gpoll.git p;
                         Gpoll.repo := Some repo |} Hh) as Hon.
        rewrite Hon in Hsetup. simpl in Hsetup.
        destruct (Z.leb (Gpoll.Interval (Gpoll.config p)) 0); discriminate.
    + injection Hsetup as <- <-. repeat split. left. reflexivity.
    + discriminate.
  - discriminate.
Qed.

Lemma Start_fails_only_on_clone_or_head_witness :
  @nil Gpoll.effect = [] /\ @None Gpoll.status = None
  /\ (Gpoll.Clone
        (Gpoll.gitImpl
           {| GoGit.CloneInto := fun _ _ => Err (ErrOther "repository not found");
              GoGit.PlainOpen := GoGit.PlainOpen Scenario.lib;
              GoGit.TreeDiff := Scenario.treeDiff |}
           Scenario.basic)
        "git@example.org:ann/repo.git" "master" "/srv/repo"
      = Err (ErrOther "repository not found")
      \/ exists repo h,
           Gpoll.Clone
             (Gpoll.gitImpl
                {| GoGit.CloneInto :=
                     fun _ _ => Err (ErrOther "repository not found");
                   GoGit.PlainOpen := GoGit.PlainOpen Scenario.lib;
                   GoGit.TreeDiff := Scenario.treeDiff |}
                Scenario.basic)
             "git@example.org:ann/repo.git" "master" "/srv/repo" = Ok repo
           /\ Some Scenario.handler = Some h
           /\ Gpoll.HeadCommit
                (Gpoll.gitImpl
                   {| GoGit.CloneInto :=
                        fun _ _ => Err (ErrOther "repository not found");
                      GoGit.PlainOpen := GoGit.PlainOpen Scenario.lib;
                      GoGit.TreeDiff := Scenario.treeDiff |}
                   Scenario.basic)
                (Some repo) = Err (ErrOther "repository not found")).
Proof.
  apply (Start_fails_only_on_clone_or_head Scenario.host
           (Scenario.pollerOf
              (Scenario.pollConfig Scenario.passwordAuth "/srv/repo" None
                 (Some Scenario.handler))
              (Gpoll.gitImpl
                 {| GoGit.CloneInto :=
                      fun _ _ => Err (ErrOther "repository not found");
                    GoGit.PlainOpen := GoGit.PlainOpen Scenario.lib;
                    GoGit.TreeDiff := Scenario.treeDiff |}
                 Scenario.basic))
           [Gpoll.TickerC Scenario.behind; Gpoll.Closer]
           (ErrOther "repository not found") [] None).
  reflexivity.
Defined.

(** X21. A poller with a positive interval on the git service of
    [src/git.go] that finds a repository already in its clone directory
    starts on it: [setup] opens the repository of the directory, makes the
    ticker and, with no handler configured, does nothing else. *)
Theorem setup_opens_existing_clone (host : Host) (lib : GoGit.GitLib)
  (auth : GoGit.AuthMethod) (p : Gpoll.poller) (existing : GoGit.Repository) :
  Gpoll.git p = Gpoll.gitImpl lib auth ->
  Gpoll.HandleCommit (Gpoll.config p) = None ->
  (0 < Gpoll.Interval (Gpoll.config p))%Z ->
  GoGit.CloneInto lib
    (GoGit.OnDisk (CloneDirectory (Gpoll.Git (Gpoll.config p))))
    (Spec.cloneOptions auth (Remote (Gpoll.Git (Gpoll.config p)))
       (Branch (Gpoll.Git (Gpoll.config p))))
  = Err ErrRepositoryAlreadyExists ->
  GoGit.PlainOpen lib (CloneDirectory (Gpoll.Git (Gpoll.config p)))
  = Ok existing ->
  Gpoll.setup host p
  = ([Gpoll.NewTicker (Gpoll.Interval (Gpoll.config p))],
     Ok {| Gpoll.config := Gpoll.config p; Gpoll.git := Gpoll.git p;
           Gpoll.repo := Some existing |}).
Proof.
  intros Hgit Hnone Hpos Hclone Hopen.
  destruct (FullRange_Clone_cases lib auth (Remote (Gpoll.Git (Gpoll.config p)))
              (Branch (Gpoll.Git (Gpoll.config p)))
              (CloneDirectory (Gpoll.Git (Gpoll.config p))))
    as [_ [Hex _]].
  unfold Gpoll.setup. rewrite Hgit at 1. simpl.
  rewrite (Hex Hclone), Hopen.
  pose proof (onStart_without_handler host
                {| Gpoll.config := Gpoll.config p; Gpoll.git := Gpoll.git p;
                   Gpoll.repo := Some existing |} Hnone) as Hon.
  rewrite Hon. simpl.
  destruct (Z.leb_spec (Gpoll.Interval (Gpoll.config p)) 0) as [Hle | _];
    [lia | reflexivity].
Qed.

Lemma setup_opens_existing_clone_witness :
  Gpoll.setup Scenario.host Runs.reopeningPoller
  = ([Gpoll.NewTicker (Gpoll.Interval (Gpoll.config Runs.reopeningPoller))],
     Ok {| Gpoll.config := Gpoll.config Runs.reopeningPoller;
           Gpoll.git := Gpoll.git Runs.reopeningPoller;
           Gpoll.repo :=
             Some (Scenario.repoAt (GoGit.OnDisk "/srv/repo") "C" "C" None None) |}).
Proof.
  apply (setup_opens_existing_clone Scenario.host Scenario.libExisting
           Scenario.basic Runs.reopeningPoller
           (Scenario.repoAt (GoGit.OnDisk "/srv/repo") "C" "C" None None)).
  - reflexivity.
  - reflexivity.
  - reflexivity.
  - reflexivity.
  - reflexivity.
Defined.

(** ** The patterns of [onStart] *)

Lemma Match_nil (n : string) :
  GoFilepath.Match "" n = true <-> n = "".
Proof. destruct n; simpl; split; intros H; congruence. Qed.

Lemma Match_char (c : ascii) (rest n : string) :
  Ascii.eqb c "*" = false ->
  (GoFilepath.Match (String c rest) n = true
   <-> exists n', n = String c n' /\ GoFilepath.Match rest n' = true).
Proof.
  intros Hc. simpl. rewrite Hc. destruct n as [| d n'].
  - split; [discriminate | intros [n' [H _]]; discriminate].
  - split.
    + intros H. apply andb_prop in H. destruct H as [Hd H].
      apply Ascii.eqb_eq in Hd. subst d. exists n'. split; [reflexivity | exact H].
    + intros [m [Hm H]]. injection Hm as -> ->.
      rewrite Ascii.eqb_refl. exact H.
Qed.

Lemma Match_star_unfold (rest n : string) :
  GoFilepath.Match (String "*" rest) n
  = GoFilepath.Match rest n
    || match n with
       | String c n' =>
           negb (Ascii.eqb c "/") && GoFilepath.Match (String "*" rest) n'
       | EmptyString => false
       end.
Proof. destruct n; reflexivity. Qed.

(** A star takes a run of bytes without separator, then the rest of the
    pattern matches the rest of the name. *)
Lemma Match_star (rest : string) :
  forall n : string,
    GoFilepath.Match (String "*" rest) n = true
    <-> exists x m,
          Notions.noSlash x = true /\ n = (x ++ m)%string
          /\ GoFilepath.Match rest m = true.
Proof.
  intros n. split.
  - induction n as [| c n IH]; rewrite Match_star_unfold; intros H.
    + rewrite orb_false_r in H. exists "", "". repeat split. exact H.
    + apply orb_prop in H. destruct H as [H | H].
      * exists "", (String c n). repeat split. exact H.
      * apply andb_prop in H. destruct H as [Hc H].
        destruct (IH H) as [x [m [Hx [Hn Hm]]]].
        exists (String c x), m. simpl. rewrite Hc, Hx, Hn. repeat split.
        exact Hm.
  - intros [x [m [Hx [Hn Hm]]]]. subst n. revert Hx.
    induction x as [| c x IH]; intros Hx.
    + rewrite Match_star_unfold.
      change ("" ++ m)%string with m. rewrite Hm. reflexivity.
    + simpl in Hx. apply andb_prop in Hx. destruct Hx as [Hc Hx].
      change (String c x ++ m)%string with (String c (x ++ m)%string).
      rewrite Match_star_unfold, Hc, (IH Hx). apply orb_true_r.
Qed.

Lemma Match_git_dir (n : string) :
  GoFilepath.Match "*/.git" n = true
  <-> exists x, Notions.noSlash x = true /\ n = (x ++ "/.git")%string.
Proof.
  rewrite Match_star. split.
  - intros [x [m [Hx [Hn Hm]]]]. exists x. split; [exact Hx |].
    apply Match_char in Hm; [| reflexivity]. destruct Hm as [m1 [-> Hm]].
    apply Match_char in Hm; [| reflexivity]. destruct Hm as [m2 [-> Hm]].
    apply Match_char in Hm; [| reflexivity]. destruct Hm as [m3 [-> Hm]].
    apply Match_char in Hm; [| reflexivity]. destruct Hm as [m4 [-> Hm]].
    apply Match_char in Hm; [| reflexivity]. destruct Hm as [m5 [-> Hm]].
    apply Match_nil in Hm. subst m5. exact Hn.
  - intros [x [Hx Hn]]. exists x, "/.git". repeat split; assumption.
Qed.

Lemma string_app_nil_r (y : string) : (y ++ "")%string = y.
Proof. induction y as [| c y IH]; simpl; [reflexivity | now rewrite IH]. Qed.

Lemma Match_in_git_dir (n : string) :
  GoFilepath.Match "*/.git/*" n = true
  <-> exists x y,
        Notions.noSlash x = true /\ Notions.noSlash y = true
        /\ n = (x ++ "/.git/" ++ y)%string.
Proof.
  rewrite Match_star. split.
  - intros [x [m [Hx [Hn Hm]]]].
    apply Match_char in Hm; [| reflexivity]. destruct Hm as [m1 [Hm1 Hm]].
    apply Match_char in Hm; [| reflexivity]. destruct Hm as [m2 [Hm2 Hm]].
    apply Match_char in Hm; [| reflexivity]. destruct Hm as [m3 [Hm3 Hm]].
    apply Match_char in Hm; [| reflexivity]. destruct Hm as [m4 [Hm4 Hm]].
    apply Match_char in Hm; [| reflexivity]. destruct Hm as [m5 [Hm5 Hm]].
    apply Match_char in Hm; [| reflexivity]. destruct Hm as [m6 [Hm6 Hm]].
    apply Match_star in Hm. destruct Hm as [y [m7 [Hy [Hm7 Hm]]]].
    apply Match_nil in Hm.
    exists x, y. repeat split; try assumption.
    rewrite Hn, Hm1, Hm2, Hm3, Hm4, Hm5, Hm6, Hm7, Hm, string_app_nil_r.
    reflexivity.
  - intros [x [y [Hx [Hy Hn]]]]. exists x, ("/.git/" ++ y)%string.
    repeat split; try assumption.
    change ("/.git/" ++ y)%string
      with (String "/" (String "." (String "g" (String "i"
              (String "t" (String "/" y)))))).
    do 6 (apply Match_char; [reflexivity |]; eexists;
          split; [reflexivity |]).
    apply Match_star. exists y, "". repeat split.
    + exact Hy.
    + symmetry. apply string_app_nil_r.
Qed.

(** X22. The function that [onStart] gives to the walk skips a path that
    was read without error exactly when the path is [x/.git] or
    [x/.git/y] with [x] and [y] free of separators; any other such path,
    so every path with a separator before [/.git], is appended to the
    changes as one Init change with the path as it is.  A path reported
    with an error is skipped and appends nothing. *)
Theorem walkFn_skips_iff (fp : string) (changes : list FileChange) :
  (Gpoll.walkFn (GoPath.Join ["*"; ".git"]) fp None changes
   = (changes, Some GoFilepath.SkipDir)
   <-> (exists x, Notions.noSlash x = true /\ fp = (x ++ "/.git")%string)
       \/ (exists x y,
             Notions.noSlash x = true /\ Notions.noSlash y = true
             /\ fp = (x ++ "/.git/" ++ y)%string))
  /\ (Gpoll.walkFn (GoPath.Join ["*"; ".git"]) fp None changes
      = (changes, Some GoFilepath.SkipDir)
      \/ Gpoll.walkFn (GoPath.Join ["*"; ".git"]) fp None changes
         = (changes ++ [ {| Filepath := fp; changeType := ChangeTypeInit |} ],
            None))
  /\ (forall e,
         Gpoll.walkFn (GoPath.Join ["*"; ".git"]) fp (Some e) changes
         = (changes, Some GoFilepath.SkipDir)).
Proof.
  unfold Gpoll.walkFn.
  change (GoPath.Join [GoPath.Join ["*"; ".git"]; "*"]) with "*/.git/*".
  change (GoPath.Join ["*"; ".git"]) with "*/.git".
  split; [| split].
  - rewrite <- Match_git_dir, <- Match_in_git_dir.
    destruct (GoFilepath.Match "*/.git/*" fp);
      destruct (GoFilepath.Match "*/.git" fp); simpl; split; intros H;
      try reflexivity; try (left; reflexivity); try (right; reflexivity);
      try discriminate.
    destruct H; discriminate.
  - destruct (_ || _); [left | right]; reflexivity.
  - reflexivity.
Qed.

(** ** [NewPoller] and the authentication *)

(** X23. The configuration of a poller that [NewPoller] returns is the
    one given, with two defaults: an interval of zero becomes thirty
    seconds, so the interval is never zero, and an empty clone directory
    becomes the working directory of the process.  It is that
    configuration which the validator accepted. *)
Theorem NewPoller_defaults (host : Host) (lib : GoGit.GitLib)
  (validate : Gpoll.PollConfig -> option error) (config : Gpoll.PollConfig)
  (p : Gpoll.poller) :
  Gpoll.NewPoller host lib validate config = Ok p ->
  Gpoll.Interval (Gpoll.config p)
  = (if Z.eqb (Gpoll.Interval config) 0 then 30000000000%Z
     else Gpoll.Interval config)
  /\ Gpoll.Interval (Gpoll.config p) <> 0%Z
  /\ (CloneDirectory (Gpoll.Git config) <> "" ->
      CloneDirectory (Gpoll.Git (Gpoll.config p))
      = CloneDirectory (Gpoll.Git config))
  /\ (CloneDirectory (Gpoll.Git config) = "" ->
      Getwd host = Ok (CloneDirectory (Gpoll.Git (Gpoll.config p))))
  /\ Remote (Gpoll.Git (Gpoll.config p)) = Remote (Gpoll.Git config)
  /\ Branch (Gpoll.Git (Gpoll.config p)) = Branch (Gpoll.Git config)
  /\ Gpoll.FileChangeFilter (Gpoll.config p) = Gpoll.FileChangeFilter config
  /\ Gpoll.HandleCommit (Gpoll.config p) = Gpoll.HandleCommit config
  /\ validate (Gpoll.config p) = None.
Proof.
  unfold Gpoll.NewPoller. intros H.
  apply bind_Ok in H. destruct H as [c [Hc H]].
  apply bind_Ok in H. destruct H as [u [Hval H]].
  apply bind_Ok in H. destruct H as [g [_ H]].
  injection H as <-. simpl.
  assert (Hv : validate c = None).
  { destruct (validate c); [discriminate | reflexivity]. }
  destruct (Z.eqb_spec (Gpoll.Interval config) 0) as [Hi | Hi]; simpl in Hc;
    destruct (String.eqb_spec (CloneDirectory (Gpoll.Git config)) "")
      as [Hd | Hd];
    try (apply bind_Ok in Hc; destruct Hc as [wd [Hwd Hc]]);
    injection Hc as <-; simpl;
    repeat split; try assumption; try reflexivity; try congruence;
    try discriminate.
Qed.

Lemma NewPoller_defaults_witness :
  exists p,
    Gpoll.NewPoller Scenario.host Scenario.lib Gpoll.requiredTags
      Scenario.bothConfig = Ok p
    /\ Gpoll.Interval (Gpoll.config p)
       = (if Z.eqb (Gpoll.Interval Scenario.bothConfig) 0 then 30000000000%Z
          else Gpoll.Interval Scenario.bothConfig)
    /\ Gpoll.Interval (Gpoll.config p) <> 0%Z
    /\ (CloneDirectory (Gpoll.Git Scenario.bothConfig) <> "" ->
        CloneDirectory (Gpoll.Git (Gpoll.config p))
        = CloneDirectory (Gpoll.Git Scenario.bothConfig))
    /\ (CloneDirectory (Gpoll.Git Scenario.bothConfig) = "" ->
        Getwd Scenario.host = Ok (CloneDirectory (Gpoll.Git (Gpoll.config p))))
    /\ Remote (Gpoll.Git (Gpoll.config p))
       = Remote (Gpoll.Git Scenario.bothConfig)
    /\ Branch (Gpoll.Git (Gpoll.config p))
       = Branch (Gpoll.Git Scenario.bothConfig)
    /\ Gpoll.FileChangeFilter (Gpoll.config p)
       = Gpoll.FileChangeFilter Scenario.bothConfig
    /\ Gpoll.HandleCommit (Gpoll.config p)
       = Gpoll.HandleCommit Scenario.bothConfig
    /\ Gpoll.requiredTags (Gpoll.config p) = None.
Proof.
  destruct (Gpoll.NewPoller Scenario.host Scenario.lib Gpoll.requiredTags
              Scenario.bothConfig) as [p | e | msg] eqn:H.
  - exists p. split; [reflexivity |].
    exact (NewPoller_defaults Scenario.host Scenario.lib Gpoll.requiredTags
             Scenario.bothConfig p H).
  - vm_compute in H. discriminate.
  - vm_compute in H. discriminate.
Defined.

Lemma NewPoller_keeps_interval (host : Host) (lib : GoGit.GitLib)
  (validate : Gpoll.PollConfig -> option error) (config : Gpoll.PollConfig)
  (p : Gpoll.poller) :
  Gpoll.Interval config <> 0%Z ->
  Gpoll.NewPoller host lib validate config = Ok p ->
  Gpoll.Interval (Gpoll.config p) = Gpoll.Interval config.
Proof.
  unfold Gpoll.NewPoller. intros Hi H.
  apply bind_Ok in H. destruct H as [c [Hc H]].
  apply bind_Ok in H. destruct H as [u [_ H]].
  apply bind_Ok in H. destruct H as [g [_ H]].
  injection H as <-. simpl.
  destruct (Z.eqb_spec (Gpoll.Interval config) 0) as [Hz | _];
    [contradiction |].
  destruct (String.eqb (CloneDirectory (Gpoll.Git config)) "").
  - apply bind_Ok in Hc. destruct Hc as [wd [_ Hc]].
    injection Hc as <-. reflexivity.
  - injection Hc as <-. reflexivity.
Qed.

(** X28. [NewPoller] replaces the interval zero only, so an interval
    below zero is the interval of the poller it returns.  [Start] of that
    poller does not reach the loop and does not return: after [Clone] and
    [onStart], whose call of the handler has been made, the making of the
    ticker panics. *)
Theorem Start_panics_on_negative_interval (host : Host) (lib : GoGit.GitLib)
  (validate : Gpoll.PollConfig -> option error) (config : Gpoll.PollConfig)
  (p : Gpoll.poller) (events : list Gpoll.event) (repo : GoGit.Repository)
  (init : list Gpoll.effect) :
  (Gpoll.Interval config < 0)%Z ->
  Gpoll.NewPoller host lib validate config = Ok p ->
  Gpoll.Clone (Gpoll.git p) (Remote (Gpoll.Git (Gpoll.config p)))
    (Branch (Gpoll.Git (Gpoll.config p)))
    (CloneDirectory (Gpoll.Git (Gpoll.config p))) = Ok repo ->
  Gpoll.onStart host {| Gpoll.config := Gpoll.config p; Gpoll.git := Gpoll.git p;
                        Gpoll.repo := Some repo |} = Ok init ->
  Gpoll.Interval (Gpoll.config p) = Gpoll.Interval config
  /\ Gpoll.Start host p events
     = (Panic "non-positive interval for NewTicker", init, None).
Proof.
  intros Hneg Hnew Hclone Hinit.
  assert (Hi : Gpoll.Interval (Gpoll.config p) = Gpoll.Interval config).
  { apply (NewPoller_keeps_interval host lib validate config p); [lia | exact Hnew]. }
  split; [exact Hi |].
  unfold Gpoll.Start, Gpoll.setup. rewrite Hclone, Hinit. simpl. rewrite Hi.
  destruct (Z.leb_spec (Gpoll.Interval config) 0) as [_ | Hpos];
    [reflexivity | lia].
Qed.

Lemma Start_panics_on_negative_interval_witness :
  exists p,
    Gpoll.NewPoller Scenario.host Scenario.lib Gpoll.requiredTags
      Runs.negativeConfig = Ok p
    /\ Gpoll.Interval (Gpoll.config p) = Gpoll.Interval Runs.negativeConfig
    /\ Gpoll.Start Scenario.host p [Gpoll.TickerC Scenario.behind; Gpoll.Closer]
       = (Panic "non-positive interval for NewTicker",
          [ Gpoll.CallHandleCommit
              {| FullRange.Changes :=
                   [Scenario.change "/srv/repo" ChangeTypeInit;
                    Scenario.change "/srv/repo/.git" ChangeTypeInit;
                    Scenario.change "/srv/repo/.git/HEAD" ChangeTypeInit;
                    Scenario.change "/srv/repo/.git/config" ChangeTypeInit;
                    Scenario.change "/srv/repo/README.md" ChangeTypeInit;
                    Scenario.change "/srv/repo/src" ChangeTypeInit;
                    Scenario.change "/srv/repo/src/main.go" ChangeTypeInit];
                 FullRange.Sha := "C"; FullRange.When := 1000%Z |} ],
          None).
Proof.
  destruct (Gpoll.NewPoller Scenario.host Scenario.lib Gpoll.requiredTags
              Runs.negativeConfig) as [p | e | msg] eqn:Hnew;
    [| discriminate Hnew | discriminate Hnew].
  exists p. split; [reflexivity |].
  injection Hnew as <-.
  apply (Start_panics_on_negative_interval Scenario.host Scenario.lib
           Gpoll.requiredTags Runs.negativeConfig _
           [Gpoll.TickerC Scenario.behind; Gpoll.Closer]
           (Scenario.repoAt (GoGit.OnDisk "/srv/repo") "C" "C" None None)).
  - reflexivity.
  - reflexivity.
  - reflexivity.
  - reflexivity.
Defined.

(** ** The loop and the room of the channel *)









(** A tick brings two commits and nothing receives from the channel: the
    first is handled and sent, the second is handled and its send blocks;
    the stop signal that follows is not taken. *)
Example Blocking_loop_without_receiver :
  Blocking.loop Runs.twoCommitPoller
    [Gpoll.TickerC Scenario.behind; Gpoll.Closer] 1
  = ([ Gpoll.CallHandleCommit
         (Scenario.commitOf "B"
            [Scenario.change "/srv/repo/main.go" ChangeTypeUpdate]);
       Gpoll.Send
         (Scenario.commitOf "B"
            [Scenario.change "/srv/repo/main.go" ChangeTypeUpdate]);
       Gpoll.CallHandleCommit (Scenario.commitOf "C" []) ],
     Blocking.Blocked (Scenario.commitOf "C" [])).
Proof. reflexivity. Qed.

(** X24. What [toAuthMethod] answers tells which form was taken: basic
    authentication only when no key path is set, and then with the
    username and the password of the configuration, never an error; a
    public key only when a key path is set, and then for the user [git];
    an error only when a key path is set, from reading or parsing the
    key. *)
Theorem toAuthMethod_result (host : Host) (config : GitAuthConfig) :
  match Auth.toAuthMethod host config with
  | Ok (GoGit.BasicAuth u pw) =>
      SshKey config = "" /\ u = Username config /\ pw = Password config
  | Ok (GoGit.PublicKeys u signer) => SshKey config <> "" /\ u = "git"
  | Err _ => SshKey config <> ""
  | Panic _ => SshKey config <> ""
  end.
Proof.
  unfold Auth.toAuthMethod.
  destruct (String.eqb (SshKey config) "") eqn:Hk; simpl.
  - apply String.eqb_eq in Hk. repeat split. exact Hk.
  - apply String.eqb_neq in Hk. unfold Auth.sshKeyFromFile, Auth.sshKey.
    destruct (ReadFile host _) as [key | e | msg]; simpl; try exact Hk.
    destruct (ParsePrivateKey host key) as [signer | e | msg]; simpl;
      try exact Hk.
    split; [exact Hk | reflexivity].
Qed.

(** ** The first revision: [src/unnamed/part_000] and the setup of
    [src/gpoll.go], lines 363-382 *)

Lemma FirstRevision_rangeDiffs_sha (remHash : string) (ds : list GoGit.Change) :
  forall changes : list Flat.GitChange,
    FirstRevision.rangeDiffs remHash ds = Ok changes ->
    length changes = length ds
    /\ Forall (fun c => Flat.Sha c = remHash
                        /\ Flat.changeType c <> ChangeTypeInit) changes.
Proof.
  induction ds as [| d ds IH]; intros changes H.
  - injection H as <-. split; [reflexivity | constructor].
  - simpl in H. apply bind_Ok in H. destruct H as [a [_ H]].
    apply bind_Ok in H. destruct H as [rest [Hrest H]].
    injection H as <-. destruct (IH rest Hrest) as [Hlen Hall].
    split; [simpl; now rewrite Hlen |].
    constructor; [| exact Hall]. simpl. split; [reflexivity |].
    destruct a; simpl; discriminate.
Qed.

(** X25. In the first revision [DiffRemote] returns one flat list for the
    whole range: one change per entry of the tree diff between the local
    head and the remote head, each with the hash of the remote head commit
    as its [Sha], whichever commit of the range made the change, and none
    of type Init. *)
Theorem FirstRevision_DiffRemote_sha
  (lib : GoGit.GitLib) (auth : GoGit.AuthMethod) (repo : GoGit.Repository)
  (branch : string) (changes : list Flat.GitChange) :
  FirstRevision.DiffRemote lib auth repo branch = Ok changes ->
  exists cur rem curTree remTree ds,
    GitCommon.HeadCommit repo = Ok cur
    /\ GitCommon.FetchLatestRemoteCommit auth repo branch = Ok rem
    /\ GoGit.TreeOf cur = Ok curTree
    /\ GoGit.TreeOf rem = Ok remTree
    /\ GoGit.TreeDiff lib curTree remTree = Ok ds
    /\ length changes = length ds
    /\ Forall (fun c => Flat.Sha c = GoGit.Hash rem
                        /\ Flat.changeType c <> ChangeTypeInit) changes.
Proof.
  unfold FirstRevision.DiffRemote. intros H.
  apply bind_Ok in H. destruct H as [u [_ H]].
  apply bind_Ok in H. destruct H as [h [Hhead H]].
  apply bind_Ok in H. destruct H as [rem [Hrem H]].
  apply bind_Ok in H. destruct H as [cur [Hcur H]].
  apply bind_Ok in H. destruct H as [remTree [HremTree H]].
  apply bind_Ok in H. destruct H as [curTree [HcurTree H]].
  apply bind_Ok in H. destruct H as [ds [Hds H]].
  apply bind_Ok in H. destruct H as [cs [Hcs H]].
  apply bind_Ok in H. destruct H as [pull [_ H]].
  apply bind_Ok in H. destruct H as [u' [_ H]].
  injection H as <-.
  destruct (FirstRevision_rangeDiffs_sha _ ds cs Hcs) as [Hlen Hall].
  exists cur, rem, curTree, remTree, ds. repeat split; try assumption.
  unfold GitCommon.HeadCommit. rewrite Hhead. exact Hcur.
Qed.

Lemma FirstRevision_DiffRemote_sha_witness :
  exists cur rem curTree remTree ds,
    GitCommon.HeadCommit Scenario.behind = Ok cur
    /\ GitCommon.FetchLatestRemoteCommit Scenario.basic Scenario.behind "master"
       = Ok rem
    /\ GoGit.TreeOf cur = Ok curTree
    /\ GoGit.TreeOf rem = Ok remTree
    /\ GoGit.TreeDiff Scenario.lib curTree remTree = Ok ds
    /\ length
         [ {| Flat.Filepath := "f1"; Flat.Sha := "C";
              Flat.changeType := ChangeTypeCreate |};
           {| Flat.Filepath := "f2"; Flat.Sha := "C";
              Flat.changeType := ChangeTypeUpdate |} ]
       = length ds
    /\ Forall (fun c => Flat.Sha c = GoGit.Hash rem
                        /\ Flat.changeType c <> ChangeTypeInit)
         [ {| Flat.Filepath := "f1"; Flat.Sha := "C";
              Flat.changeType := ChangeTypeCreate |};
           {| Flat.Filepath := "f2"; Flat.Sha := "C";
              Flat.changeType := ChangeTypeUpdate |} ].
Proof.
  apply (FirstRevision_DiffRemote_sha Scenario.lib Scenario.basic
           Scenario.behind "master").
  reflexivity.
Defined.

Lemma FirstRevision_walkFn_skips (hash path : string) (err : option error)
  (calls : list Flat.GitChange) :
  snd (FirstRevision.walkFn hash path err calls) = None
  \/ snd (FirstRevision.walkFn hash path err calls) = Some GoFilepath.SkipDir.
Proof. destruct err; [right | left]; reflexivity. Qed.

Lemma FirstRevision_walkFn_keeps (hash path : string) (err : option error)
  (calls : list Flat.GitChange) :
  Forall (fun c => Flat.Sha c = hash /\ Flat.changeType c = ChangeTypeCreate)
         calls ->
  Forall (fun c => Flat.Sha c = hash /\ Flat.changeType c = ChangeTypeCreate)
         (fst (FirstRevision.walkFn hash path err calls)).
Proof.
  intros H. destruct err; simpl; [exact H |].
  apply Forall_app. split; [exact H |]. repeat constructor.
Qed.

(** X26. In the first revision, with a handler configured and the head
    hash known, [onStart] never fails, whatever the walk meets; every call
    it makes of the handler is for a change of type Create, where the
    later revision has Init, with the head hash as its [Sha]. *)
Theorem FirstRevision_onStart_calls (host : Host)
  (h : Flat.GitChange -> unit) (hash dir : string) :
  exists calls,
    FirstRevision.onStart host (Some h) (Ok hash) dir = Ok calls
    /\ Forall (fun c => Flat.Sha c = hash
                        /\ Flat.changeType c = ChangeTypeCreate) calls.
Proof.
  unfold FirstRevision.onStart. simpl.
  pose proof (Walk_never_fails (FirstRevision.walkFn hash)
                (FirstRevision_walkFn_skips hash) dir (Lstat host dir) [])
    as Hnever.
  pose proof (Walk_keeps (FirstRevision.walkFn hash)
                (Forall (fun c => Flat.Sha c = hash
                                  /\ Flat.changeType c = ChangeTypeCreate))
                (FirstRevision_walkFn_keeps hash) dir (Lstat host dir) []
                (List.Forall_nil _)) as Hkeeps.
  destruct (GoFilepath.Walk _ _ _ _) as [calls err]. simpl in *.
  subst err. exists calls. split; [reflexivity | exact Hkeeps].
Qed.

(** The first revision has no test on the paths: the [.git] directory and
    the files in it are reported whatever the clone directory. *)
Example FirstRevision_onStart_lists_git :
  option_map (map Flat.Filepath)
    (returned (FirstRevision.onStart Scenario.host (Some (fun _ => tt))
                 (Ok "C") "repo"))
  = Some ["repo"; "repo/.git"; "repo/.git/HEAD"; "repo/.git/config";
          "repo/README.md"; "repo/src"; "repo/src/main.go"].
Proof. reflexivity. Qed.
